(** * gaiaCore Python client: request building and the four-stage pipeline

    A shallow embedding of [connectors/python/gaiacore_client.py]
    (class [GaiaCoreClient]) and the properties of its request builder
    and of [run_full_pipeline].

    Layout:
    - Python values as the client sees them (decoded JSON, truthiness,
      [str], subscripting, [dict.get]);
    - the HTTP boundary ([requests.Session]) as a parameter of the
      development: a transition function on an abstract world;
    - the client methods, in a state-and-exception monad;
    - the theorems. *)

From Stdlib Require Import ZArith String Ascii List Lia.
From stdpp Require Import base option list strings pretty gmap fin_maps.

Set Warnings "-register-all".

Local Open Scope string_scope.
Local Open Scope list_scope.
Local Open Scope Z_scope.

(** ** Python values

    Every value the client handles either comes out of [response.json()]
    or is a string, an integer or [None] given by the caller, so one type
    serves for both.  JSON numbers are restricted to integers.  A [JObj]
    lists the items of a Python [dict] in insertion order; keys of a
    decoded object are strings and are pairwise distinct. *)

Inductive json : Type :=
| JNull
| JBool (b : bool)
| JNum (n : Z)
| JStr (s : string)
| JArr (items : list json)
| JObj (fields : list (string * json)).

(** [dict] lookup by a string key. *)
Fixpoint dict_lookup (k : string) (fields : list (string * json)) : option json :=
  match fields with
  | [] => None
  | (k', v) :: rest => if String.eqb k k' then Some v else dict_lookup k rest
  end.

(** Truth value of an object: [None], [False], [0], [''], [[]] and [{}]
    are false, everything else is true. *)
Definition truthy (v : json) : bool :=
  match v with
  | JNull => false
  | JBool b => b
  | JNum n => negb (n =? 0)
  | JStr s => negb (String.eqb s "")
  | JArr items => match items with [] => false | _ => true end
  | JObj fields => match fields with [] => false | _ => true end
  end.

(** Truth value of an [Optional[str]] and of an [Optional[int]] argument. *)
Definition truthy_str (o : option string) : bool :=
  match o with
  | None => false
  | Some s => negb (String.eqb s "")
  end.

Definition truthy_int (o : option Z) : bool :=
  match o with
  | None => false
  | Some n => negb (n =? 0)
  end.

(** *** [str] and [repr]

    [repr] of a string picks the quote and escapes as CPython does, for
    strings of Latin-1 code points. *)

Definition hex_digit (n : N) : ascii :=
  match n with
  | 0%N => "0" | 1%N => "1" | 2%N => "2" | 3%N => "3" | 4%N => "4"
  | 5%N => "5" | 6%N => "6" | 7%N => "7" | 8%N => "8" | 9%N => "9"
  | 10%N => "a" | 11%N => "b" | 12%N => "c" | 13%N => "d" | 14%N => "e"
  | _ => "f"
  end%char.

Definition hex_escape (c : ascii) : string :=
  let n := N_of_ascii c in
  String "\" (String "x" (String (hex_digit (n / 16)) (String (hex_digit (n mod 16)) ""))).

Fixpoint contains_char (c : ascii) (s : string) : bool :=
  match s with
  | EmptyString => false
  | String d rest => Ascii.eqb c d || contains_char c rest
  end.

Definition repr_char (quote c : ascii) : string :=
  let n := N_of_ascii c in
  if Ascii.eqb c quote || Ascii.eqb c "\"%char then String "\" (String c "")
  else if (n =? 9)%N then "\t"
  else if (n =? 10)%N then "\n"
  else if (n =? 13)%N then "\r"
  else if (n <? 32)%N || (n =? 127)%N then hex_escape c
  else if (n <? 127)%N then String c ""
  else if (n <? 161)%N || (n =? 173)%N then hex_escape c
  else String c "".

Fixpoint repr_chars (quote : ascii) (s : string) : string :=
  match s with
  | EmptyString => ""
  | String c rest => repr_char quote c +:+ repr_chars quote rest
  end.

Definition repr_str (s : string) : string :=
  let quote :=
    if contains_char "'"%char s && negb (contains_char "034"%char s)
    then "034"%char else "'"%char in
  String quote (repr_chars quote s +:+ String quote "").

Fixpoint py_repr (v : json) : string :=
  match v with
  | JNull => "None"
  | JBool true => "True"
  | JBool false => "False"
  | JNum n => pretty n
  | JStr s => repr_str s
  | JArr items => "[" +:+ String.concat ", " (map py_repr items) +:+ "]"
  | JObj fields =>
      "{" +:+ String.concat ", "
               (map (fun kv => repr_str (fst kv) +:+ ": " +:+ py_repr (snd kv)) fields)
          +:+ "}"
  end.

(** [str(v)], which is what an f-string field [{v}] produces. *)
Definition py_str (v : json) : string :=
  match v with
  | JStr s => s
  | _ => py_repr v
  end.

(** Name of the type, as it appears in the interpreter's messages. *)
Definition type_name (v : json) : string :=
  match v with
  | JNull => "NoneType"
  | JBool _ => "bool"
  | JNum _ => "int"
  | JStr _ => "str"
  | JArr _ => "list"
  | JObj _ => "dict"
  end.

(** ** [str.rstrip] and [urllib.parse.urljoin]

    The client builds every URL with [urljoin(self.base_url, endpoint)].
    The functions below follow CPython's [urllib/parse.py] ([urlsplit],
    [urlparse], [urlunparse], [urljoin]) on [plain] URLs: printable
    ASCII without brackets.  On other URLs [urlsplit] does more than is
    modelled here: it strips leading control characters and spaces,
    deletes tabs and line breaks, and raises [ValueError] for a host
    with an unmatched bracket or with certain non-ASCII characters, so
    that [urljoin] can raise before anything is handed to the session.
    What is proved about the URL of a request, or about a request being
    made at all, is stated for plain URLs. *)

Module Urllib.

(** [s.partition(c)] where [c] occurs: text before and after the first [c]. *)
Fixpoint split_first (c : ascii) (s : string) : option (string * string) :=
  match s with
  | EmptyString => None
  | String d rest =>
      if Ascii.eqb c d then Some ("", rest)
      else match split_first c rest with
           | Some (before, after) => Some (String d before, after)
           | None => None
           end
  end.

(** [s.split(c)]. *)
Fixpoint split_on (c : ascii) (s : string) : list string :=
  match s with
  | EmptyString => [""]
  | String d rest =>
      if Ascii.eqb c d then "" :: split_on c rest
      else match split_on c rest with
           | [] => [String d ""]
           | seg :: segs => String d seg :: segs
           end
  end.

Definition join (sep : string) (l : list string) : string := String.concat sep l.

(** [s.rstrip(c)]: drop every trailing [c]. *)
Fixpoint rstrip (c : ascii) (s : string) : string :=
  match s with
  | EmptyString => ""
  | String d rest =>
      match rstrip c rest with
      | EmptyString => if Ascii.eqb c d then "" else String d ""
      | rest' => String d rest'
      end
  end.

Definition is_alpha (c : ascii) : bool :=
  let n := N_of_ascii c in
  ((65 <=? n) && (n <=? 90) || (97 <=? n) && (n <=? 122))%N.

Definition is_scheme_char (c : ascii) : bool :=
  let n := N_of_ascii c in
  (is_alpha c || (48 <=? n) && (n <=? 57) || (n =? 43) || (n =? 45) || (n =? 46))%N.

Definition lower_char (c : ascii) : ascii :=
  let n := N_of_ascii c in
  if ((65 <=? n) && (n <=? 90))%N then ascii_of_N (n + 32) else c.

Fixpoint lower (s : string) : string :=
  match s with
  | EmptyString => ""
  | String c rest => String (lower_char c) (lower rest)
  end.

Fixpoint all_chars (p : ascii -> bool) (s : string) : bool :=
  match s with
  | EmptyString => true
  | String c rest => p c && all_chars p rest
  end.

(** A character that [urlsplit] takes as it is: printable ASCII other
    than [[] and []]. *)
Definition plain_char (c : ascii) : bool :=
  let n := N_of_ascii c in
  ((33 <=? n) && (n <=? 126) && negb (n =? 91) && negb (n =? 93))%N.

Definition plain (s : string) : bool := all_chars plain_char s.

Definition mem (s : string) (l : list string) : bool :=
  existsb (String.eqb s) l.

Definition uses_relative : list string :=
  [""; "ftp"; "http"; "gopher"; "nntp"; "imap"; "wais"; "file"; "https";
   "shttp"; "mms"; "prospero"; "rtsp"; "rtspu"; "sftp"; "svn"; "svn+ssh";
   "ws"; "wss"].

Definition uses_netloc : list string :=
  [""; "ftp"; "http"; "gopher"; "nntp"; "telnet"; "imap"; "wais"; "file";
   "mms"; "https"; "shttp"; "snews"; "prospero"; "rtsp"; "rtspu"; "rsync";
   "svn"; "svn+ssh"; "sftp"; "nfs"; "git"; "git+ssh"; "ws"; "wss"].

Definition uses_params : list string :=
  [""; "ftp"; "hdl"; "prospero"; "http"; "imap"; "https"; "shttp"; "rtsp";
   "rtspu"; "sip"; "sips"; "mms"; "sftp"; "tel"].

Record parts := {
  scheme : string;
  netloc : string;
  path : string;
  params : string;
  query : string;
  fragment : string
}.

(** The scheme, when the text before the first [:] is one. *)
Definition split_scheme (default : string) (url : string) : string * string :=
  match split_first ":" url with
  | Some (String c0 rest0 as before, after) =>
      if is_alpha c0 && all_chars is_scheme_char before
      then (lower before, after)
      else (default, url)
  | _ => (default, url)
  end.

(** [_splitnetloc(url, 2)]: the authority ends at the first of [/], [?], [#]. *)
Fixpoint take_netloc (s : string) : string * string :=
  match s with
  | EmptyString => ("", "")
  | String c rest =>
      if Ascii.eqb c "/" || Ascii.eqb c "?" || Ascii.eqb c "#" then ("", s)
      else let (n, r) := take_netloc rest in (String c n, r)
  end.

Definition split_netloc (url : string) : string * string :=
  match url with
  | String "/" (String "/" rest) => take_netloc rest
  | _ => ("", url)
  end.

(** [_splitparams]: parameters follow the first [;] of the last segment. *)
Definition split_params (url : string) : string * string :=
  let segs := split_on "/" url in
  match split_first ";" (List.last segs "") with
  | Some (before, after) => (join "/" (removelast segs ++ [before]), after)
  | None => (url, "")
  end.

Definition urlparse (url : string) (default_scheme : string) : parts :=
  let (sch, url1) := split_scheme default_scheme url in
  let (net, url2) := split_netloc url1 in
  let (url3, frag) :=
    match split_first "#" url2 with Some p => p | None => (url2, "") end in
  let (url4, qry) :=
    match split_first "?" url3 with Some p => p | None => (url3, "") end in
  let (pth, prm) :=
    if mem sch uses_params && contains_char ";" url4
    then split_params url4 else (url4, "") in
  {| scheme := sch; netloc := net; path := pth; params := prm;
     query := qry; fragment := frag |}.

Definition nonempty (s : string) : bool := negb (String.eqb s "").

Definition starts_slash (s : string) : bool :=
  match s with String "/" _ => true | _ => false end.

Definition starts_two_slashes (s : string) : bool :=
  match s with String "/" (String "/" _) => true | _ => false end.

Definition urlunparse (p : parts) : string :=
  let url := if nonempty (params p) then path p +:+ ";" +:+ params p else path p in
  let url :=
    if nonempty (netloc p)
       || (nonempty (scheme p) && mem (scheme p) uses_netloc
           && negb (starts_two_slashes url))
    then "//" +:+ netloc p
              +:+ (if nonempty url && negb (starts_slash url) then "/" +:+ url else url)
    else url in
  let url := if nonempty (scheme p) then scheme p +:+ ":" +:+ url else url in
  let url := if nonempty (query p) then url +:+ "?" +:+ query p else url in
  if nonempty (fragment p) then url +:+ "#" +:+ fragment p else url.

(** [segments[1:-1] = filter(None, segments[1:-1])]. *)
Definition drop_inner_empty (segments : list string) : list string :=
  match segments with
  | first :: (_ :: _) as rest =>
      first :: filter (fun s => nonempty s = true) (removelast rest)
            ++ [List.last rest ""]
  | _ => segments
  end.

(** The loop over [segments] that resolves [.] and [..]. *)
Definition resolve_dots (segments : list string) : list string :=
  fold_left
    (fun resolved seg =>
       if String.eqb seg ".." then removelast resolved
       else if String.eqb seg "." then resolved
       else resolved ++ [seg])
    segments [].

Definition urljoin (base url : string) : string :=
  if negb (nonempty base) then url
  else if negb (nonempty url) then base
  else
    let b := urlparse base "" in
    let u := urlparse url (scheme b) in
    if negb (String.eqb (scheme u) (scheme b)) || negb (mem (scheme u) uses_relative)
    then url
    else if mem (scheme u) uses_netloc && nonempty (netloc u)
    then urlunparse u
    else
      let net := if mem (scheme u) uses_netloc then netloc b else netloc u in
      if negb (nonempty (path u)) && negb (nonempty (params u))
      then urlunparse {| scheme := scheme u; netloc := net; path := path b;
                         params := params b;
                         query := if nonempty (query u) then query u else query b;
                         fragment := fragment u |}
      else
        let base_parts := split_on "/" (path b) in
        let base_parts :=
          if nonempty (List.last base_parts "") then removelast base_parts
          else base_parts in
        let segments :=
          if starts_slash (path u) then split_on "/" (path u)
          else drop_inner_empty (base_parts ++ split_on "/" (path u)) in
        let resolved := resolve_dots segments in
        let resolved :=
          if mem (List.last segments "") ["."; ".."] then resolved ++ [""]
          else resolved in
        let joined := join "/" resolved in
        urlunparse {| scheme := scheme u; netloc := net;
                      path := if nonempty joined then joined else "/";
                      params := params u; query := query u;
                      fragment := fragment u |}.

End Urllib.

(** ** The HTTP boundary: requests, responses, exceptions *)

Inductive http_method := GET | POST.

(** What the client hands to [session.get] / [session.post]. *)
Record request := {
  method : http_method;
  url : string;
  headers : gmap string string;
  params : option (gmap string json);     (* [params=] of a GET *)
  json_body : option (gmap string json)   (* [json=] of a POST *)
}.

(** What comes back.  [decoded] is the result of [response.json()]: the
    decoded body, or the decoder's message when the body is not JSON. *)
Record response := {
  status_code : Z;
  reason : string;
  resp_url : string;
  text : string;
  decoded : string + json
}.

(** The exceptions that can reach the client: all are subclasses of
    [Exception], which is what the pipeline catches. *)
Inductive exn :=
| RequestException (msg : string)          (* network failure raised by the session *)
| HTTPError (msg : string) (r : response)  (* raised by [raise_for_status] *)
| JSONDecodeError (msg : string)
| KeyError (key : json)
| IndexError (msg : string)
| TypeError (msg : string)
| AttributeError (msg : string)
| UnicodeEncodeError (msg : string).       (* raised by [print] on a stream that cannot encode the line *)

(** [str(e)]. *)
Definition exn_str (e : exn) : string :=
  match e with
  | RequestException msg => msg
  | HTTPError msg _ => msg
  | JSONDecodeError msg => msg
  | KeyError key => py_repr key
  | IndexError msg => msg
  | TypeError msg => msg
  | AttributeError msg => msg
  | UnicodeEncodeError msg => msg
  end.

(** [requests.Response.raise_for_status]: an [HTTPError] carrying the
    response for a 4xx or a 5xx status, nothing otherwise. *)
Definition raise_for_status (r : response) : option exn :=
  if (400 <=? status_code r) && (status_code r <? 500) then
    Some (HTTPError (pretty (status_code r) +:+ " Client Error: " +:+ reason r
                       +:+ " for url: " +:+ resp_url r) r)
  else if (500 <=? status_code r) && (status_code r <? 600) then
    Some (HTTPError (pretty (status_code r) +:+ " Server Error: " +:+ reason r
                       +:+ " for url: " +:+ resp_url r) r)
  else None.

(** Outcome of one exchange: the session raises, or a response arrives. *)
Inductive reply :=
| Failed (msg : string)
| Replied (r : response).

(** ** Subscripting, [dict.get] and iteration on decoded values *)

(** [l[i]] on a list, negative indices counting from the end. *)
Definition list_index (l : list json) (i : Z) : option json :=
  let n := Z.of_nat (length l) in
  if (0 <=? i) && (i <? n) then l !! Z.to_nat i
  else if (- n <=? i) && (i <? 0) then l !! Z.to_nat (n + i)
  else None.

Fixpoint string_chars (s : string) : list json :=
  match s with
  | EmptyString => []
  | String c rest => JStr (String c "") :: string_chars rest
  end.

(** [v[i]] for an integer [i]. *)
Definition subscript_int (v : json) (i : Z) : exn + json :=
  match v with
  | JArr items =>
      match list_index items i with
      | Some x => inr x
      | None => inl (IndexError "list index out of range")
      end
  | JStr s =>
      match list_index (string_chars s) i with
      | Some x => inr x
      | None => inl (IndexError "string index out of range")
      end
  | JObj _ => inl (KeyError (JNum i))
  | _ => inl (TypeError ("'" +:+ type_name v +:+ "' object is not subscriptable"))
  end.

(** [v[k]] for a string [k]. *)
Definition subscript_str (v : json) (k : string) : exn + json :=
  match v with
  | JObj fields =>
      match dict_lookup k fields with
      | Some x => inr x
      | None => inl (KeyError (JStr k))
      end
  | JArr _ => inl (TypeError "list indices must be integers or slices, not str")
  | JStr _ => inl (TypeError "string indices must be integers, not 'str'")
  | _ => inl (TypeError ("'" +:+ type_name v +:+ "' object is not subscriptable"))
  end.

(** [v.get(k, default)]: only a [dict] has the method. *)
Definition py_get (v : json) (k : string) (dflt : json) : exn + json :=
  match v with
  | JObj fields => inr (default dflt (dict_lookup k fields))
  | _ => inl (AttributeError ("'" +:+ type_name v +:+ "' object has no attribute 'get'"))
  end.

(** The items a [for] loop over [v] visits. *)
Definition py_iter (v : json) : exn + list json :=
  match v with
  | JArr items => inr items
  | JObj fields => inr (map (fun kv => JStr (fst kv)) fields)
  | JStr s => inr (string_chars s)
  | _ => inl (TypeError ("'" +:+ type_name v +:+ "' object is not iterable"))
  end.

(** ** A monad for state and exceptions *)

Definition M (S A : Type) : Type := S -> (exn + A) * S.

Definition ret {S A} (a : A) : M S A := fun s => (inr a, s).

Definition raise {S A} (e : exn) : M S A := fun s => (inl e, s).

Definition bind {S A B} (m : M S A) (k : A -> M S B) : M S B :=
  fun s =>
    match m s with
    | (inr a, s') => k a s'
    | (inl e, s') => (inl e, s')
    end.

(** A pure step that may raise. *)
Definition eval {S A} (r : exn + A) : M S A := fun s => (r, s).

Definition modify {S} (f : S -> S) : M S unit := fun s => (inr tt, f s).

Definition gets {S A} (f : S -> A) : M S A := fun s => (inr (f s), s).

(** [try: body / except Exception as e: handler e], falling through to
    what follows.  The state at the point of the exception is kept: what
    [body] assigned before raising stays assigned. *)
Definition try_except {S A} (body : M S A) (handler : exn -> M S A) : M S A :=
  fun s =>
    match body s with
    | (inl e, s') => handler e s'
    | r => r
    end.

(** The same with a handler that ends in [return]: the handler gives
    the function's result, and [rest] runs, outside the [try], only when
    [body] did not raise. *)
Definition try_or_return {S A R} (body : M S A) (handler : exn -> M S R)
    (rest : A -> M S R) : M S R :=
  fun s =>
    match body s with
    | (inl e, s') => handler e s'
    | (inr a, s') => rest a s'
    end.

Fixpoint for_each {S A} (l : list A) (body : A -> M S unit) : M S unit :=
  match l with
  | [] => ret tt
  | x :: rest => bind (body x) (fun _ => for_each rest body)
  end.

(** [print] on a standard output that takes every line: nothing to
    record, and no failure.  The pipeline on a standard output that can
    fail is [run_full_pipeline_io] below. *)
Definition py_print {S} (line : string) : M S unit := ret tt.

Declare Scope py_scope.
Delimit Scope py_scope with py.
Notation "x <- m ;; k" := (bind m (fun x => k))
  (at level 100, m at next level, right associativity) : py_scope.
Notation "m ;; k" := (bind m (fun _ => k))
  (at level 100, right associativity) : py_scope.
Local Open Scope py_scope.

(** ** The pipeline outcome

    The [results] dictionary of [run_full_pipeline]; an unset field
    holds [None]. *)
Record outcome := {
  metadata : json;
  locations : json;
  ingestion : json;
  spatial_join : json;
  errors : list string
}.

Definition empty_outcome : outcome :=
  {| metadata := JNull; locations := JNull; ingestion := JNull;
     spatial_join := JNull; errors := [] |}.

Definition set_metadata (v : json) (r : outcome) : outcome :=
  {| metadata := v; locations := locations r; ingestion := ingestion r;
     spatial_join := spatial_join r; errors := errors r |}.

Definition set_locations (v : json) (r : outcome) : outcome :=
  {| metadata := metadata r; locations := v; ingestion := ingestion r;
     spatial_join := spatial_join r; errors := errors r |}.

Definition set_ingestion (v : json) (r : outcome) : outcome :=
  {| metadata := metadata r; locations := locations r; ingestion := v;
     spatial_join := spatial_join r; errors := errors r |}.

Definition set_spatial_join (v : json) (r : outcome) : outcome :=
  {| metadata := metadata r; locations := locations r; ingestion := ingestion r;
     spatial_join := v; errors := errors r |}.

(** [results["errors"].append(msg)]. *)
Definition append_error (msg : string) (r : outcome) : outcome :=
  {| metadata := metadata r; locations := locations r; ingestion := ingestion r;
     spatial_join := spatial_join r; errors := errors r ++ [msg] |}.

(** ** The client *)

Record GaiaCoreClient := { base_url : string }.

(** [__init__]. *)
Definition init (base_url : string) : GaiaCoreClient :=
  {| base_url := Urllib.rstrip "/" base_url |}.

Definition is_str (v : json) (s : string) : bool :=
  match v with
  | JStr t => String.eqb t s
  | _ => false
  end.

Section Client.

(** The session, the network and the server behind it: a world of
    some type [W] and what one exchange does to it. *)
Context {W : Type}.
Variable send : request -> W -> reply * W.

(** The world and the requests handed to the session so far. *)
Record netstate := {
  world : W;
  sent : list request
}.

Definition session_send (req : request) : M netstate response :=
  fun st =>
    let (r, w) := send req (world st) in
    let st' := {| world := w; sent := sent st ++ [req] |} in
    match r with
    | Failed msg => (inl (RequestException msg), st')
    | Replied resp => (inr resp, st')
    end.

Definition session_get (url : string) (headers : gmap string string)
    (params : option (gmap string json)) : M netstate response :=
  session_send {| method := GET; url := url; headers := headers;
                  params := params; json_body := None |}.

Definition session_post (url : string) (json : gmap string json)
    (headers : gmap string string) : M netstate response :=
  session_send {| method := POST; url := url; headers := headers;
                  params := None; json_body := Some json |}.

Definition check_status (r : response) : M netstate unit :=
  match raise_for_status r with
  | Some e => raise e
  | None => ret tt
  end.

Definition response_json (r : response) : M netstate json :=
  match decoded r with
  | inl msg => raise (JSONDecodeError msg)
  | inr v => ret v
  end.

Variable self : GaiaCoreClient.

Definition _request (endpoint : string) (schema : string)
    (params : option (gmap string json)) : M netstate json :=
  let url := Urllib.urljoin (base_url self) endpoint in
  let headers : gmap string string := ∅ in
  let headers :=
    if String.eqb schema "working"
    then <["Accept-Profile" := "working"]> headers else headers in
  response <- session_get url headers params ;;
  check_status response ;;
  response_json response.

Definition _rpc (function_name : string) (params : gmap string json)
    (schema : string) : M netstate json :=
  let url := Urllib.urljoin (base_url self) ("rpc/" +:+ function_name) in
  let headers : gmap string string := {[ "Content-Type" := "application/json" ]} in
  let headers :=
    if String.eqb schema "working"
    then <["Accept-Profile" := "working"]> (<["Content-Profile" := "working"]> headers)
    else headers in
  response <- session_post url params headers ;;
  check_status response ;;
  response_json response.

(** [f"eq.{v}"]. *)
Definition eq_filter (v : json) : json := JStr ("eq." +:+ py_str v).

(** *** Data sources *)

Definition get_data_sources (filters : gmap string json) : M netstate json :=
  let params : gmap string json :=
    list_to_map (prod_map id eq_filter <$> map_to_list filters) in
  _request "data_source" "backbone" (Some params).

Definition get_data_source (uuid : string) : M netstate json :=
  r <- _request ("data_source?data_source_uuid=eq." +:+ uuid) "backbone" None ;;
  eval (subscript_int r 0).

Definition list_downloadable_datasources : M netstate json :=
  _rpc "list_downloadable_datasources" ∅ "backbone".

(** *** Variables *)

Definition get_variables (data_source_uuid : option string) : M netstate json :=
  let params : gmap string json := ∅ in
  let params :=
    if truthy_str data_source_uuid
    then <["data_source_uuid" := JStr ("eq." +:+ default "" data_source_uuid)]> params
    else params in
  _request "variable_source" "backbone" (Some params).

(** *** Locations *)

Definition get_locations (city state : option string) (limit : Z) : M netstate json :=
  let params : gmap string json := {[ "limit" := JNum limit ]} in
  let params :=
    if truthy_str city
    then <["city" := JStr ("eq." +:+ default "" city)]> params else params in
  let params :=
    if truthy_str state
    then <["state" := JStr ("eq." +:+ default "" state)]> params else params in
  _request "location" "working" (Some params).

Definition get_location (location_id : Z) : M netstate json :=
  result <- _request ("location?location_id=eq." +:+ pretty location_id) "working" None ;;
  if truthy result then eval (subscript_int result 0) else ret JNull.

Definition get_location_history (location_id person_id : option Z) : M netstate json :=
  let params : gmap string json := ∅ in
  let params :=
    if truthy_int location_id
    then <["location_id" := JStr ("eq." +:+ pretty (default 0 location_id))]> params
    else params in
  let params :=
    if truthy_int person_id
    then <["entity_id" := JStr ("eq." +:+ pretty (default 0 person_id))]> params
    else params in
  _request "location_history" "working" (Some params).

(** *** External exposures *)

Definition get_exposures (person_id location_id : option Z) (limit : Z) : M netstate json :=
  let params : gmap string json := {[ "limit" := JNum limit ]} in
  let params :=
    if truthy_int person_id
    then <["person_id" := JStr ("eq." +:+ pretty (default 0 person_id))]> params
    else params in
  let params :=
    if truthy_int location_id
    then <["location_id" := JStr ("eq." +:+ pretty (default 0 location_id))]> params
    else params in
  _request "external_exposure" "working" (Some params).

(** *** Ingestion *)

Definition fetch_and_load_jsonld (url : string) : M netstate json :=
  _rpc "fetch_and_load_jsonld" {[ "url" := JStr url ]} "backbone".

Definition quick_ingest_datasource (dataset_name : json)
    (download_url : option string) : M netstate json :=
  let params : gmap string json := {[ "p_dataset_name" := dataset_name ]} in
  let params :=
    if truthy_str download_url
    then <["p_download_url" := JStr (default "" download_url)]> params else params in
  _rpc "quick_ingest_datasource" params "backbone".

(** *** Advanced query *)

Definition query (table : string) (schema : string) (select : option string)
    (filters : option (gmap string json)) (order : option string)
    (limit offset : option Z) : M netstate json :=
  let params : gmap string json := ∅ in
  let params :=
    if truthy_str select
    then <["select" := JStr (default "" select)]> params else params in
  let params :=
    match filters with
    | Some fs =>
        if bool_decide (fs ≠ ∅)
        then map_fold (fun key value params => <[key := eq_filter value]> params) params fs
        else params
    | None => params
    end in
  let params :=
    if truthy_str order
    then <["order" := JStr (default "" order)]> params else params in
  let params :=
    if truthy_int limit
    then <["limit" := JNum (default 0 limit)]> params else params in
  let params :=
    if truthy_int offset
    then <["offset" := JNum (default 0 offset)]> params else params in
  _request table schema (Some params).

(** *** End-to-end pipeline *)

Definition load_location_data (location_csv location_history_csv : string)
    : M netstate json :=
  _rpc "load_location_data"
       (<["p_location_history_file" := JStr location_history_csv]>
          {[ "p_location_file" := JStr location_csv ]})
       "working".

Definition spatial_join_exposure (variable_source_id external_table : string)
    : M netstate json :=
  _rpc "spatial_join_exposure"
       (<["p_external_table" := JStr external_table]>
          {[ "p_variable_source_id" := JStr variable_source_id ]})
       "working".

(** The state of one run of the pipeline: the network and the local
    [results] dictionary, which the stages update in place. *)
Record pstate := {
  net : netstate;
  results : outcome
}.

(** A client call made from the pipeline. *)
Definition call {A} (m : M netstate A) : M pstate A :=
  fun ps =>
    let (r, n) := m (net ps) in
    (r, {| net := n; results := results ps |}).

Definition update (f : outcome -> outcome) : M pstate unit :=
  modify (fun ps => {| net := net ps; results := f (results ps) |}).

Section Pipeline.

Variables (metadata_url location_csv location_history_csv : string).
Variable variable_source_id : option string.
Variable verbose : bool.

(** Body of the first [try]: load the metadata. *)
Definition step1 : M pstate unit :=
  (if verbose then py_print "Step 1: Loading JSON-LD metadata from URL..." else ret tt) ;;
  md <- call (fetch_and_load_jsonld metadata_url) ;;
  update (set_metadata md) ;;
  if verbose then
    md <- gets (fun ps => metadata (results ps)) ;;
    first <- eval (subscript_int md 0) ;;
    name <- eval (subscript_str first "dataset_name") ;;
    py_print ("  Loaded: " +:+ py_str name) ;;
    md <- gets (fun ps => metadata (results ps)) ;;
    first <- eval (subscript_int md 0) ;;
    n <- eval (subscript_str first "variables_loaded") ;;
    py_print ("  Variables: " +:+ py_str n)
  else ret tt.

(** Body of the second [try]: load the location data. *)
Definition step2 : M pstate unit :=
  (if verbose then py_print "Step 2: Loading location data..." else ret tt) ;;
  loc <- call (load_location_data location_csv location_history_csv) ;;
  update (set_locations loc) ;;
  if verbose then py_print "  Locations loaded" else ret tt.

(** The narration of one ingestion step. *)
Definition print_step (step : json) : M pstate unit :=
  status <- eval (subscript_str step "status") ;;
  status_symbol <-
    (if is_str status "success" then ret "ok"
     else status <- eval (subscript_str step "status") ;;
          if is_str status "warning" then ret "warning" else ret "failed") ;;
  name <- eval (subscript_str step "step") ;;
  status <- eval (subscript_str step "status") ;;
  py_print ("  " +:+ status_symbol +:+ " " +:+ py_str name +:+ ": " +:+ py_str status).

(** Body of the third [try]: ingest the data source.  It leaves
    [dataset_name] assigned for the fourth. *)
Definition step3 : M pstate json :=
  (if verbose then py_print "Step 3: Ingesting data source..." else ret tt) ;;
  md <- gets (fun ps => metadata (results ps)) ;;
  first <- eval (subscript_int md 0) ;;
  dataset_name <- eval (subscript_str first "dataset_name") ;;
  ing <- call (quick_ingest_datasource dataset_name None) ;;
  update (set_ingestion ing) ;;
  (if verbose then
     ing <- gets (fun ps => ingestion (results ps)) ;;
     steps <- eval (py_iter ing) ;;
     for_each steps print_step
   else ret tt) ;;
  ret dataset_name.

(** Body of the fourth [try]: the spatial join, if a variable was given. *)
Definition step4 (dataset_name : json) : M pstate unit :=
  if truthy_str variable_source_id then
    (if verbose then py_print "Step 4: Calculating exposures via spatial join..."
     else ret tt) ;;
    found <- call (get_data_sources {[ "dataset_name" := dataset_name ]}) ;;
    data_source <- eval (subscript_int found 0) ;;
    etl_metadata <- eval (py_get data_source "etl_metadata" (JObj [])) ;;
    ingested_table <- eval (py_get etl_metadata "ingested_table" (JObj [])) ;;
    schema <- eval (py_get ingested_table "schema" (JStr "public")) ;;
    table <- eval (py_get ingested_table "table" JNull) ;;
    if truthy table then
      let external_table := py_str schema +:+ "." +:+ py_str table in
      sj <- call (spatial_join_exposure (default "" variable_source_id) external_table) ;;
      update (set_spatial_join sj) ;;
      if verbose then py_print "  Spatial join complete" else ret tt
    else
      update (append_error "Could not determine ingested table name") ;;
      if verbose then py_print "  Could not determine ingested table name" else ret tt
  else ret tt.

(** An [except] clause: record the message, narrate it. *)
Definition record_error (what : string) (e : exn) : M pstate unit :=
  update (append_error (what +:+ exn_str e)) ;;
  if verbose then py_print ("  Error: " +:+ exn_str e) else ret tt.

Definition pipeline_body : M pstate outcome :=
  try_or_return step1
    (fun e => record_error "Metadata loading failed: " e ;;
              gets results)
    (fun _ =>
  try_except step2
    (fun e => record_error "Location loading failed: " e) ;;
  try_or_return step3
    (fun e => record_error "Data ingestion failed: " e ;;
              gets results)
    (fun dataset_name =>
  try_except (step4 dataset_name)
    (fun e => record_error "Spatial join failed: " e) ;;
  (if verbose then
     errs <- gets (fun ps => errors (results ps)) ;;
     match errs with
     | [] => py_print "Pipeline completed successfully!"
     | _ => py_print ("Pipeline completed with "
                        +:+ pretty (length errs) +:+ " error(s)")
     end
   else ret tt) ;;
  gets results)).

Definition run_full_pipeline : M netstate outcome :=
  fun st =>
    let (r, ps) := pipeline_body {| net := st; results := empty_outcome |} in
    (r, net ps).

End Pipeline.

(** *** The pipeline and its narration

    [run_full_pipeline] once more, with standard output in the model.
    [print] can fail: the stream may be unable to encode the line (the
    narration uses check marks, warning signs and crosses) or be
    closed.  [stdout line] is the exception that writing [line] raises,
    if any.  A [print] inside a [try] is covered by its [except]
    clause; those of the [except] clauses and of the closing summary
    are outside every [try].  With a stream that takes every line, and
    whenever [verbose] is false, this is [run_full_pipeline] above. *)

Section Narrated.

Variable stdout : string -> option exn.
Variables (metadata_url location_csv location_history_csv : string).
Variable variable_source_id : option string.
Variable verbose : bool.

(** [print(line)]. *)
Definition print_out (line : string) : M pstate unit :=
  fun ps =>
    match stdout line with
    | Some e => (inl e, ps)
    | None => (inr tt, ps)
    end.

Definition newline : string := String "010"%char "".

(** ["="*50]. *)
Definition rule : string := "==================================================".

Definition step1_io : M pstate unit :=
  (if verbose then print_out "Step 1: Loading JSON-LD metadata from URL..." else ret tt) ;;
  md <- call (fetch_and_load_jsonld metadata_url) ;;
  update (set_metadata md) ;;
  if verbose then
    md <- gets (fun ps => metadata (results ps)) ;;
    first <- eval (subscript_int md 0) ;;
    name <- eval (subscript_str first "dataset_name") ;;
    print_out ("  ✓ Loaded: " +:+ py_str name) ;;
    md <- gets (fun ps => metadata (results ps)) ;;
    first <- eval (subscript_int md 0) ;;
    n <- eval (subscript_str first "variables_loaded") ;;
    print_out ("  ✓ Variables: " +:+ py_str n)
  else ret tt.

Definition step2_io : M pstate unit :=
  (if verbose then print_out (newline +:+ "Step 2: Loading location data...")
   else ret tt) ;;
  loc <- call (load_location_data location_csv location_history_csv) ;;
  update (set_locations loc) ;;
  if verbose then print_out "  ✓ Locations loaded" else ret tt.

Definition print_step_io (step : json) : M pstate unit :=
  status <- eval (subscript_str step "status") ;;
  status_symbol <-
    (if is_str status "success" then ret "✓"
     else status <- eval (subscript_str step "status") ;;
          if is_str status "warning" then ret "⚠" else ret "✗") ;;
  name <- eval (subscript_str step "step") ;;
  status <- eval (subscript_str step "status") ;;
  print_out ("  " +:+ status_symbol +:+ " " +:+ py_str name +:+ ": " +:+ py_str status).

Definition step3_io : M pstate json :=
  (if verbose then print_out (newline +:+ "Step 3: Ingesting data source...")
   else ret tt) ;;
  md <- gets (fun ps => metadata (results ps)) ;;
  first <- eval (subscript_int md 0) ;;
  dataset_name <- eval (subscript_str first "dataset_name") ;;
  ing <- call (quick_ingest_datasource dataset_name None) ;;
  update (set_ingestion ing) ;;
  (if verbose then
     ing <- gets (fun ps => ingestion (results ps)) ;;
     steps <- eval (py_iter ing) ;;
     for_each steps print_step_io
   else ret tt) ;;
  ret dataset_name.

Definition step4_io (dataset_name : json) : M pstate unit :=
  if truthy_str variable_source_id then
    (if verbose
     then print_out (newline +:+ "Step 4: Calculating exposures via spatial join...")
     else ret tt) ;;
    found <- call (get_data_sources {[ "dataset_name" := dataset_name ]}) ;;
    data_source <- eval (subscript_int found 0) ;;
    etl_metadata <- eval (py_get data_source "etl_metadata" (JObj [])) ;;
    ingested_table <- eval (py_get etl_metadata "ingested_table" (JObj [])) ;;
    schema <- eval (py_get ingested_table "schema" (JStr "public")) ;;
    table <- eval (py_get ingested_table "table" JNull) ;;
    if truthy table then
      let external_table := py_str schema +:+ "." +:+ py_str table in
      sj <- call (spatial_join_exposure (default "" variable_source_id) external_table) ;;
      update (set_spatial_join sj) ;;
      if verbose then print_out "  ✓ Spatial join complete" else ret tt
    else
      update (append_error "Could not determine ingested table name") ;;
      if verbose then print_out "  ✗ Could not determine ingested table name" else ret tt
  else ret tt.

(** An [except] clause: record the message, then narrate it. *)
Definition record_error_io (what : string) (e : exn) : M pstate unit :=
  update (append_error (what +:+ exn_str e)) ;;
  if verbose then print_out ("  ✗ Error: " +:+ exn_str e) else ret tt.

Definition pipeline_body_io : M pstate outcome :=
  try_or_return step1_io
    (fun e => record_error_io "Metadata loading failed: " e ;;
              gets results)
    (fun _ =>
  try_except step2_io
    (fun e => record_error_io "Location loading failed: " e) ;;
  try_or_return step3_io
    (fun e => record_error_io "Data ingestion failed: " e ;;
              gets results)
    (fun dataset_name =>
  try_except (step4_io dataset_name)
    (fun e => record_error_io "Spatial join failed: " e) ;;
  (if verbose then
     print_out (newline +:+ rule) ;;
     errs <- gets (fun ps => errors (results ps)) ;;
     match errs with
     | [] => print_out "Pipeline completed successfully!"
     | _ => print_out ("Pipeline completed with "
                         +:+ pretty (length errs) +:+ " error(s)")
     end ;;
     print_out rule
   else ret tt) ;;
  gets results)).

Definition run_full_pipeline_io : M netstate outcome :=
  fun st =>
    let (r, ps) := pipeline_body_io {| net := st; results := empty_outcome |} in
    (r, net ps).

End Narrated.

End Client.

(** ** A scripted world

    A concrete instance of the boundary, used to run the client: the
    world is the list of replies still to come, handed out in order;
    once it is exhausted the connection fails. *)

Definition scripted (req : request) (w : list reply) : reply * list reply :=
  match w with
  | [] => (Failed "Connection refused", [])
  | r :: rest => (r, rest)
  end.

Definition fresh (script : list reply) : @netstate (list reply) :=
  {| world := script; sent := [] |}.

(** A 200 response with the given decoded body. *)
Definition ok_json (v : json) : reply :=
  Replied {| status_code := 200; reason := "OK"; resp_url := "";
             text := ""; decoded := inr v |}.

Definition status_reply (code : Z) (why : string) (v : json) : reply :=
  Replied {| status_code := code; reason := why; resp_url := "";
             text := ""; decoded := inr v |}.

(** * Vocabulary of the statements *)

(** ** One exchange

    What [_request] and [_rpc] hand to the session, and how the reply
    settles the result.  Both send exactly one request. *)

Definition read_request (self : GaiaCoreClient) (endpoint schema : string)
    (ps : option (gmap string json)) : request :=
  {| method := GET;
     url := Urllib.urljoin (base_url self) endpoint;
     headers := if String.eqb schema "working"
                then <["Accept-Profile" := "working"]> ∅ else ∅;
     params := ps;
     json_body := None |}.

Definition rpc_request (self : GaiaCoreClient) (function_name : string)
    (ps : gmap string json) (schema : string) : request :=
  {| method := POST;
     url := Urllib.urljoin (base_url self) ("rpc/" +:+ function_name);
     headers := if String.eqb schema "working"
                then <["Accept-Profile" := "working"]>
                       (<["Content-Profile" := "working"]>
                          {[ "Content-Type" := "application/json" ]})
                else {[ "Content-Type" := "application/json" ]};
     params := None;
     json_body := Some ps |}.

(** The result of an exchange, given what the session produced. *)
Definition settle (r : reply) : exn + json :=
  match r with
  | Failed msg => inl (RequestException msg)
  | Replied resp =>
      match raise_for_status resp with
      | Some e => inl e
      | None =>
          match decoded resp with
          | inl msg => inl (JSONDecodeError msg)
          | inr v => inr v
          end
      end
  end.

Definition exchange {W} (send : request -> W -> reply * W) (req : request)
    (st : @netstate W) : (exn + json) * @netstate W :=
  (settle (fst (send req (world st))),
   {| world := snd (send req (world st)); sent := sent st ++ [req] |}).

(** A 4xx or 5xx status. *)
Definition is_error_status (r : response) : bool :=
  (400 <=? status_code r) && (status_code r <? 600).

(** A 2xx status. *)
Definition is_success_status (r : response) : bool :=
  (200 <=? status_code r) && (status_code r <? 300).

(** The headers that select a schema profile. *)
Definition profile_headers (h : gmap string string) : gmap string string :=
  filter (fun kv => kv.1 = "Accept-Profile" ∨ kv.1 = "Content-Profile") h.

(** ** Reading the [errors] sequence *)

Fixpoint starts_with (p s : string) : bool :=
  match p with
  | EmptyString => true
  | String a p' =>
      match s with
      | EmptyString => false
      | String b s' => Ascii.eqb a b && starts_with p' s'
      end
  end.

(** The stage a recorded message comes from, read off its text. *)
Definition error_stage (msg : string) : option nat :=
  if starts_with "Metadata loading failed: " msg then Some 1%nat
  else if starts_with "Location loading failed: " msg then Some 2%nat
  else if starts_with "Data ingestion failed: " msg then Some 3%nat
  else if starts_with "Spatial join failed: " msg then Some 4%nat
  else if String.eqb msg "Could not determine ingested table name" then Some 4%nat
  else None.

(** Every message comes from a stage, and the stages strictly increase
    along the sequence, starting above [from]. *)
Fixpoint chronological (from : nat) (msgs : list string) : bool :=
  match msgs with
  | [] => true
  | msg :: rest =>
      match error_stage msg with
      | Some k => (from <? k)%nat && chronological k rest
      | None => false
      end
  end.

(** The parameters of [query] other than the filters. *)
Definition option_keys : list string := ["select"; "order"; "limit"; "offset"].

(** The parameters [query] ends up with. *)
Definition query_params (select : option string) (filters : option (gmap string json))
    (order : option string) (limit offset : option Z) : gmap string json :=
  let ps : gmap string json :=
    (eq_filter <$> default ∅ filters)
      ∪ (if truthy_str select then {[ "select" := JStr (default "" select) ]} else ∅) in
  let ps := if truthy_str order then <["order" := JStr (default "" order)]> ps else ps in
  let ps := if truthy_int limit then <["limit" := JNum (default 0 limit)]> ps else ps in
  if truthy_int offset then <["offset" := JNum (default 0 offset)]> ps else ps.

(** The text an [except] clause puts before [str(e)]. *)
Definition stage_prefix (k : nat) : string :=
  match k with
  | 1%nat => "Metadata loading failed: "
  | 2%nat => "Location loading failed: "
  | 3%nat => "Data ingestion failed: "
  | _ => "Spatial join failed: "
  end.

(** What stage [k] can contribute to [errors]: nothing, or the message
    of the exception its [try] caught, or, for stage 4, the message
    about the table name. *)
Definition from_stage (k : nat) (msgs : list string) : Prop :=
  msgs = []
  \/ (exists e, msgs = [stage_prefix k +:+ exn_str e])
  \/ (k = 4%nat /\ msgs = ["Could not determine ingested table name"]).

(** ** Sample runs

    A client, a metadata answer and scripts used to run the pipeline on
    the scripted world. *)

Definition local_client : GaiaCoreClient := init "http://localhost:3000".

Definition pm25_metadata : json :=
  JArr [JObj [("dataset_name", JStr "PM2.5"); ("variables_loaded", JNum 3)]].

Definition pm25_steps : json :=
  JArr [JObj [("step", JStr "download"); ("status", JStr "success")]].

(** A [data_source] record whose [etl_metadata.ingested_table] is [it]. *)
Definition data_source_with (it : list (string * json)) : json :=
  JArr [JObj [("dataset_name", JStr "PM2.5");
              ("etl_metadata", JObj [("ingested_table", JObj it)])]].

(** The first three stages succeed. *)
Definition three_stages_ok : list reply :=
  [ok_json pm25_metadata; ok_json (JStr "loaded"); ok_json pm25_steps].

(** The pipeline with the default file paths, on the scripted world. *)
Definition sample_run (variable_source_id : option string) (verbose : bool)
    (script : list reply) : (exn + outcome) * @netstate (list reply) :=
  run_full_pipeline scripted local_client "http://example.org/pm25.jsonld"
    "/csv/LOCATION.csv" "/csv/LOCATION_HISTORY.csv" variable_source_id verbose
    (fresh script).

(** ** The public methods as data

    One constructor per read or RPC method of the client, with its
    arguments, and the method it stands for. *)
Inductive api_call :=
| GetDataSources (filters : gmap string json)
| GetDataSource (uuid : string)
| ListDownloadableDatasources
| GetVariables (data_source_uuid : option string)
| GetLocations (city state : option string) (limit : Z)
| GetLocation (location_id : Z)
| GetLocationHistory (location_id person_id : option Z)
| GetExposures (person_id location_id : option Z) (limit : Z)
| FetchAndLoadJsonld (url : string)
| QuickIngestDatasource (dataset_name : json) (download_url : option string)
| Query (table schema : string) (select : option string)
    (filters : option (gmap string json)) (order : option string)
    (limit offset : option Z)
| LoadLocationData (location_csv location_history_csv : string)
| SpatialJoinExposure (variable_source_id external_table : string).

Definition perform {W} (send : request -> W -> reply * W) (self : GaiaCoreClient)
    (c : api_call) : M (@netstate W) json :=
  match c with
  | GetDataSources filters => get_data_sources send self filters
  | GetDataSource uuid => get_data_source send self uuid
  | ListDownloadableDatasources => list_downloadable_datasources send self
  | GetVariables data_source_uuid => get_variables send self data_source_uuid
  | GetLocations city state limit => get_locations send self city state limit
  | GetLocation location_id => get_location send self location_id
  | GetLocationHistory location_id person_id =>
      get_location_history send self location_id person_id
  | GetExposures person_id location_id limit =>
      get_exposures send self person_id location_id limit
  | FetchAndLoadJsonld url => fetch_and_load_jsonld send self url
  | QuickIngestDatasource dataset_name download_url =>
      quick_ingest_datasource send self dataset_name download_url
  | Query table schema select filters order limit offset =>
      query send self table schema select filters order limit offset
  | LoadLocationData location_csv location_history_csv =>
      load_location_data send self location_csv location_history_csv
  | SpatialJoinExposure variable_source_id external_table =>
      spatial_join_exposure send self variable_source_id external_table
  end.

(** The methods that post to an RPC function; the others are reads. *)
Definition is_rpc (c : api_call) : bool :=
  match c with
  | ListDownloadableDatasources | FetchAndLoadJsonld _ | QuickIngestDatasource _ _
  | LoadLocationData _ _ | SpatialJoinExposure _ _ => true
  | _ => false
  end.

(** The path a method joins to the base address. *)
Definition endpoint_of (c : api_call) : string :=
  match c with
  | GetDataSources _ => "data_source"
  | GetDataSource uuid => "data_source?data_source_uuid=eq." +:+ uuid
  | ListDownloadableDatasources => "rpc/list_downloadable_datasources"
  | GetVariables _ => "variable_source"
  | GetLocations _ _ _ => "location"
  | GetLocation location_id => "location?location_id=eq." +:+ pretty location_id
  | GetLocationHistory _ _ => "location_history"
  | GetExposures _ _ _ => "external_exposure"
  | FetchAndLoadJsonld _ => "rpc/fetch_and_load_jsonld"
  | QuickIngestDatasource _ _ => "rpc/quick_ingest_datasource"
  | Query table _ _ _ _ _ _ => table
  | LoadLocationData _ _ => "rpc/load_location_data"
  | SpatialJoinExposure _ _ => "rpc/spatial_join_exposure"
  end.

(** The schema profile a method asks for. *)
Definition schema_of (c : api_call) : string :=
  match c with
  | GetLocations _ _ _ | GetLocation _ | GetLocationHistory _ _ | GetExposures _ _ _
  | LoadLocationData _ _ | SpatialJoinExposure _ _ => "working"
  | Query _ schema _ _ _ _ _ => schema
  | _ => "backbone"
  end.

(** ** Strings *)

Fixpoint last_char (s : string) : option ascii :=
  match s with
  | EmptyString => None
  | String c EmptyString => Some c
  | String _ rest => last_char rest
  end.

(** A run of [n] slashes. *)
Fixpoint slashes (n : nat) : string :=
  match n with
  | O => ""
  | S n' => String "/" (slashes n')
  end.

(** A character that can stand in a host: a plain character other than
    [/], [?] and [#]. *)
Definition host_char (c : ascii) : bool :=
  Urllib.plain_char c
  && negb (Ascii.eqb c "/" || Ascii.eqb c "?" || Ascii.eqb c "#").

(** A character of a plain resource or function name: a letter, a
    digit or an underscore. *)
Definition name_char (c : ascii) : bool :=
  let n := N_of_ascii c in
  (Urllib.is_alpha c || (48 <=? n) && (n <=? 57) || (n =? 95))%N.

(** ** The requests of a run *)

(** What is looked at in a request to tell the stages apart. *)
Definition kind (q : request) : http_method * string := (method q, url q).

(** The five requests of a complete run, in order. *)
Definition pipeline_plan (self : GaiaCoreClient) : list (http_method * string) :=
  [(POST, Urllib.urljoin (base_url self) "rpc/fetch_and_load_jsonld");
   (POST, Urllib.urljoin (base_url self) "rpc/load_location_data");
   (POST, Urllib.urljoin (base_url self) "rpc/quick_ingest_datasource");
   (GET, Urllib.urljoin (base_url self) "data_source");
   (POST, Urllib.urljoin (base_url self) "rpc/spatial_join_exposure")].

(** [metadata[0]["dataset_name"]], as stage 3 reads it. *)
Definition dataset_name_of (md : json) : exn + json :=
  match subscript_int md 0 with
  | inl e => inl e
  | inr first => subscript_str first "dataset_name"
  end.

(** ** What a run records *)

(** The message an [except] clause records for what its [try] did:
    none when it did not raise. *)
Definition caught {A} (what : string) (r : exn + A) : list string :=
  match r with
  | inl e => [what +:+ exn_str e]
  | inr _ => []
  end.

(** The state after a [try] that ended in [ps] with [r] and after its
    [except] clause. *)
Definition after_except {W A} (what : string) (r : exn + A) (ps : @pstate W)
    : @pstate W :=
  {| net := net ps;
     results := match r with
                | inl e => append_error (what +:+ exn_str e) (results ps)
                | inr _ => results ps
                end |}.

(** A standard output that encodes ASCII only, as with
    [PYTHONIOENCODING=ascii].  The exception's message is abridged. *)
Definition ascii_stdout (line : string) : option exn :=
  if Urllib.all_chars (fun c => (N_of_ascii c <? 128)%N) line then None
  else Some (UnicodeEncodeError "'ascii' codec can't encode character").

(** [etl_metadata.ingested_table] of the first record of [found], as
    stage 4 gets at it before reading [schema] and [table]: the
    dictionary, or the exception raised on the way. *)
Definition ingested_table_of (found : json) : exn + list (string * json) :=
  match subscript_int found 0 with
  | inl e => inl e
  | inr data_source =>
      match py_get data_source "etl_metadata" (JObj []) with
      | inl e => inl e
      | inr etl_metadata =>
          match py_get etl_metadata "ingested_table" (JObj []) with
          | inl e => inl e
          | inr (JObj fields) => inr fields
          | inr v =>
              inl (AttributeError ("'" +:+ type_name v
                                     +:+ "' object has no attribute 'get'"))
          end
      end
  end.

(** * Theorems *)

Section Exchange.

Context {W : Type}.
Variable send : request -> W -> reply * W.
Variable self : GaiaCoreClient.

Lemma request_exchange endpoint schema ps (st : @netstate W) :
  _request send self endpoint schema ps st
  = exchange send (read_request self endpoint schema ps) st.
Proof.
  unfold _request, exchange, read_request, bind, session_get, session_send,
    check_status, response_json, settle.
  destruct (String.eqb schema "working");
    match goal with |- context [send ?q (world st)] =>
      destruct (send q (world st)) as [[msg | resp] w] end; simpl; try reflexivity;
    destruct (raise_for_status _); simpl; try reflexivity;
    destruct (decoded _); reflexivity.
Qed.

Lemma rpc_exchange function_name ps schema (st : @netstate W) :
  _rpc send self function_name ps schema st
  = exchange send (rpc_request self function_name ps schema) st.
Proof.
  unfold _rpc, exchange, rpc_request, bind, session_post, session_send,
    check_status, response_json, settle.
  destruct (String.eqb schema "working");
    match goal with |- context [send ?q (world st)] =>
      destruct (send q (world st)) as [[msg | resp] w] end; simpl; try reflexivity;
    destruct (raise_for_status _); simpl; try reflexivity;
    destruct (decoded _); reflexivity.
Qed.

Lemma exchange_sent req (st : @netstate W) :
  sent (snd (exchange send req st)) = sent st ++ [req].
Proof. reflexivity. Qed.

Lemma raise_for_status_error r :
  is_error_status r = true ->
  exists msg, raise_for_status r = Some (HTTPError msg r).
Proof.
  unfold is_error_status, raise_for_status. intros H.
  destruct ((400 <=? status_code r) && (status_code r <? 500)) eqn:E4; [eauto |].
  destruct ((500 <=? status_code r) && (status_code r <? 600)) eqn:E5; [eauto |].
  exfalso. lia.
Qed.

Lemma raise_for_status_pass r :
  is_error_status r = false -> raise_for_status r = None.
Proof.
  unfold is_error_status, raise_for_status. intros H.
  destruct ((400 <=? status_code r) && (status_code r <? 500)) eqn:E4; [exfalso; lia |].
  destruct ((500 <=? status_code r) && (status_code r <? 600)) eqn:E5; [exfalso; lia |].
  reflexivity.
Qed.

Lemma settle_reply r :
  (is_error_status r = true -> exists msg, settle (Replied r) = inl (HTTPError msg r))
  /\ (is_error_status r = false ->
      settle (Replied r)
      = match decoded r with
        | inl msg => inl (JSONDecodeError msg)
        | inr v => inr v
        end).
Proof.
  split; intros H; simpl.
  - destruct (raise_for_status_error r H) as [msg ->]. eauto.
  - rewrite (raise_for_status_pass r H). reflexivity.
Qed.

(** A result is returned only for a decodable answer that is not 4xx/5xx. *)
Lemma settle_success rep v :
  settle rep = inr v ->
  exists r, rep = Replied r /\ is_error_status r = false /\ decoded r = inr v.
Proof.
  destruct rep as [msg | r]; simpl; [discriminate |].
  destruct (is_error_status r) eqn:E.
  - destruct (raise_for_status_error r E) as [msg ->]. discriminate.
  - rewrite (raise_for_status_pass r E).
    destruct (decoded r) eqn:D; [discriminate |].
    intros [= ->]. eauto.
Qed.

End Exchange.

(** ** The request builder *)

(** C5. A read with the [working] profile carries exactly one profile
    header, [Accept-Profile: working]; an RPC call with it carries
    exactly two, [Accept-Profile] and [Content-Profile], both naming
    [working]; with the [backbone] profile neither carries any. *)
Theorem profile_headers_by_schema {W} (send : request -> W -> reply * W)
    (self : GaiaCoreClient) (endpoint function_name : string)
    (ps : option (gmap string json)) (body : gmap string json) (st : @netstate W) :
  (exists req,
      sent (snd (_request send self endpoint "working" ps st)) = sent st ++ [req]
      /\ headers req = {[ "Accept-Profile" := "working" ]}
      /\ profile_headers (headers req) = {[ "Accept-Profile" := "working" ]}
      /\ size (profile_headers (headers req)) = 1%nat)
  /\ (exists req,
      sent (snd (_rpc send self function_name body "working" st)) = sent st ++ [req]
      /\ profile_headers (headers req)
         = <["Accept-Profile" := "working"]> {[ "Content-Profile" := "working" ]}
      /\ size (profile_headers (headers req)) = 2%nat)
  /\ (exists req,
      sent (snd (_request send self endpoint "backbone" ps st)) = sent st ++ [req]
      /\ headers req = ∅
      /\ size (profile_headers (headers req)) = 0%nat)
  /\ (exists req,
      sent (snd (_rpc send self function_name body "backbone" st)) = sent st ++ [req]
      /\ headers req = {[ "Content-Type" := "application/json" ]}
      /\ size (profile_headers (headers req)) = 0%nat).
Proof.
  rewrite !request_exchange, !rpc_exchange.
  repeat split; eexists; (split; [apply exchange_sent |]); simpl;
    repeat split; vm_compute; reflexivity.
Qed.

(** C4, as the code has it. When the session answers a read or an RPC
    call with a response [r]: if [r] has a 4xx or 5xx status the
    operation fails with an [HTTPError] that carries [r], status and
    body; otherwise the body is decoded, whatever the status, and the
    operation returns exactly the decoded value (or fails in the decoder).
    Nothing partially decoded is ever returned. *)
Theorem error_status_raises_else_decoded {W} (send : request -> W -> reply * W)
    (self : GaiaCoreClient) (endpoint schema function_name rpc_schema : string)
    (ps : option (gmap string json)) (body : gmap string json)
    (st1 st2 : @netstate W) (req1 req2 : request) (r1 r2 : response) :
  sent (snd (_request send self endpoint schema ps st1)) = sent st1 ++ [req1] ->
  fst (send req1 (world st1)) = Replied r1 ->
  sent (snd (_rpc send self function_name body rpc_schema st2)) = sent st2 ++ [req2] ->
  fst (send req2 (world st2)) = Replied r2 ->
  (exists msg,
      fst (_request send self endpoint schema ps st1)
      = if is_error_status r1 then inl (HTTPError msg r1)
        else match decoded r1 with
             | inl m => inl (JSONDecodeError m)
             | inr v => inr v
             end)
  /\ (exists msg,
      fst (_rpc send self function_name body rpc_schema st2)
      = if is_error_status r2 then inl (HTTPError msg r2)
        else match decoded r2 with
             | inl m => inl (JSONDecodeError m)
             | inr v => inr v
             end).
Proof.
  rewrite request_exchange, rpc_exchange, !exchange_sent.
  intros E1 H1 E2 H2.
  apply app_inj_tail in E1 as [_ <-]. apply app_inj_tail in E2 as [_ <-].
  unfold exchange; cbn [fst]. rewrite H1, H2.
  split.
  - destruct (is_error_status r1) eqn:E.
    + destruct (proj1 (settle_reply r1) E) as [msg ->]. eauto.
    + exists "". apply (proj2 (settle_reply r1) E).
  - destruct (is_error_status r2) eqn:E.
    + destruct (proj1 (settle_reply r2) E) as [msg ->]. eauto.
    + exists "". apply (proj2 (settle_reply r2) E).
Qed.

(** A 404 answer and a 200 answer, on a scripted session. *)
Lemma error_status_raises_else_decoded_witness :
  let self := init "http://localhost:3000" in
  let r1 := {| status_code := 404; reason := "Not Found"; resp_url := "";
               text := "{}"; decoded := inr (JObj []) |} in
  let r2 := {| status_code := 200; reason := "OK"; resp_url := "";
               text := "[]"; decoded := inr (JArr []) |} in
  (exists msg,
      fst (_request scripted self "data_source" "backbone" None (fresh [Replied r1]))
      = inl (HTTPError msg r1))
  /\ (exists msg : string,
      fst (_rpc scripted self "list_downloadable_datasources" ∅ "backbone"
             (fresh [Replied r2]))
      = inr (JArr [])).
Proof.
  intros self r1 r2.
  exact (error_status_raises_else_decoded scripted self
           "data_source" "backbone" "list_downloadable_datasources" "backbone"
           None ∅ (fresh [Replied r1]) (fresh [Replied r2])
           (read_request self "data_source" "backbone" None)
           (rpc_request self "list_downloadable_datasources" ∅ "backbone")
           r1 r2 eq_refl eq_refl eq_refl eq_refl).
Defined.

(** C4, as stated, fails: a 300 answer with a JSON body is not a 2xx
    answer, and both the read and the RPC call return its decoded body. *)
Lemma non_2xx_answer_returned :
  let self := init "http://localhost:3000" in
  let r := {| status_code := 300; reason := "Multiple Choices"; resp_url := "";
              text := "[]"; decoded := inr (JArr []) |} in
  is_success_status r = false
  /\ fst (_request scripted self "data_source" "backbone" None (fresh [Replied r]))
     = inr (JArr [])
  /\ fst (_rpc scripted self "list_downloadable_datasources" ∅ "backbone"
            (fresh [Replied r]))
     = inr (JArr []).
Proof. repeat split. Qed.

(** C9. With a base address that has a path, the last segment of that
    path is lost: the constructor strips the trailing slash and
    [urljoin] then replaces the last segment instead of extending it.
    A client configured for [http://localhost:3000/api/] reads
    [data_source] from [http://localhost:3000/data_source] and posts to
    [http://localhost:3000/rpc/fetch_and_load_jsonld]. *)
Theorem base_path_last_segment_dropped :
  let self := init "http://localhost:3000/api/" in
  base_url self = "http://localhost:3000/api"
  /\ map url (sent (snd (get_data_sources scripted self ∅ (fresh []))))
     = ["http://localhost:3000/data_source"]
  /\ map url (sent (snd (fetch_and_load_jsonld scripted self "http://m" (fresh []))))
     = ["http://localhost:3000/rpc/fetch_and_load_jsonld"]
  /\ "http://localhost:3000/data_source" <> base_url self +:+ "/data_source"
  /\ "http://localhost:3000/rpc/fetch_and_load_jsonld"
     <> base_url self +:+ "/rpc/fetch_and_load_jsonld".
Proof. repeat split; vm_compute; congruence. Qed.

(** With a base address that has no path, the request goes to the base
    address extended by the resource path. *)
Example base_without_path :
  let self := init "http://localhost:3000" in
  map url (sent (snd (get_data_sources scripted self ∅ (fresh []))))
  = [base_url self +:+ "/data_source"]
  /\ map url (sent (snd (fetch_and_load_jsonld scripted self "http://m" (fresh []))))
     = [base_url self +:+ "/rpc/fetch_and_load_jsonld"].
Proof. split; reflexivity. Qed.

(** ** Query parameters *)

Section Params.

Context {W : Type}.
Variable send : request -> W -> reply * W.
Variable self : GaiaCoreClient.

(** The dictionary comprehension of [get_data_sources]. *)
Lemma comprehension_fmap (filters : gmap string json) :
  (list_to_map (prod_map id eq_filter <$> map_to_list filters) : gmap string json)
  = eq_filter <$> filters.
Proof. rewrite list_to_map_fmap, list_to_map_to_list. reflexivity. Qed.

(** The loop of [query] over [filters.items()]. *)
Lemma filter_loop (fs ps : gmap string json) :
  map_fold (fun key value params => <[key := eq_filter value]> params) ps fs
  = (eq_filter <$> fs) ∪ ps.
Proof.
  apply (map_fold_weak_ind (fun r m => r = (eq_filter <$> m) ∪ ps)).
  - rewrite fmap_empty, (left_id_L ∅ (∪)). reflexivity.
  - intros i x m r _ ->. rewrite fmap_insert, insert_union_l. reflexivity.
Qed.

Lemma get_data_sources_request filters (st : @netstate W) :
  get_data_sources send self filters st
  = exchange send (read_request self "data_source" "backbone"
                     (Some (eq_filter <$> filters))) st.
Proof.
  unfold get_data_sources. rewrite request_exchange, comprehension_fmap. reflexivity.
Qed.

Lemma query_request table schema select filters order limit offset (st : @netstate W) :
  query send self table schema select filters order limit offset st
  = exchange send (read_request self table schema
                     (Some (query_params select filters order limit offset))) st.
Proof.
  unfold query. rewrite request_exchange. do 3 f_equal.
  unfold query_params.
  assert (forall ps0 : gmap string json,
             match filters with
             | Some fs =>
                 if bool_decide (fs ≠ ∅)
                 then map_fold (fun key value params => <[key := eq_filter value]> params)
                        ps0 fs
                 else ps0
             | None => ps0
             end = (eq_filter <$> default ∅ filters) ∪ ps0) as ->.
  { intros ps0. destruct filters as [fs |]; simpl.
    - case_bool_decide as Hne.
      + apply filter_loop.
      + subst fs.
        rewrite fmap_empty, (left_id_L ∅ (∪)). reflexivity.
    - rewrite fmap_empty, (left_id_L ∅ (∪)). reflexivity. }
  destruct (truthy_str select); reflexivity.
Qed.

Lemma query_params_filter select (fs : gmap string json) order limit offset k v :
  (truthy_str order = true -> fs !! "order" = None) ->
  (truthy_int limit = true -> fs !! "limit" = None) ->
  (truthy_int offset = true -> fs !! "offset" = None) ->
  fs !! k = Some v ->
  query_params select (Some fs) order limit offset !! k = Some (eq_filter v).
Proof.
  intros Ho Hl Hf Hk. unfold query_params; simpl.
  assert (((eq_filter <$> fs)
             ∪ (if truthy_str select
                then {[ "select" := JStr (default "" select) ]} else ∅)) !! k
          = Some (eq_filter v)) as Hbase.
  { apply lookup_union_Some_l. rewrite lookup_fmap, Hk. reflexivity. }
  destruct (truthy_str order), (truthy_int limit), (truthy_int offset);
    repeat (rewrite lookup_insert_ne; [| intros <-; naive_solver congruence]);
    exact Hbase.
Qed.

Lemma query_params_other select (fs : gmap string json) order limit offset k :
  fs !! k = None ->
  is_Some (query_params select (Some fs) order limit offset !! k) ->
  k ∈ option_keys.
Proof.
  intros Hk. unfold query_params, option_keys; simpl.
  assert (is_Some (((eq_filter <$> fs)
             ∪ (if truthy_str select
                then {[ "select" := JStr (default "" select) ]} else ∅)) !! k)
          -> k = "select") as Hbase.
  { intros [x Hx]. apply lookup_union_Some_raw in Hx as [Hx | [_ Hx]].
    - rewrite lookup_fmap, Hk in Hx. discriminate.
    - destruct (truthy_str select); [| rewrite lookup_empty in Hx; discriminate].
      apply lookup_singleton_Some in Hx as [<- _]. reflexivity. }
  destruct (truthy_str order), (truthy_int limit), (truthy_int offset);
    repeat (rewrite lookup_insert; case_decide; [subst k; set_solver |]);
    intros Hs; rewrite (Hbase Hs); set_solver.
Qed.

Lemma query_params_count select (fs : gmap string json) order limit offset :
  (truthy_str order = true -> fs !! "order" = None) ->
  (truthy_int limit = true -> fs !! "limit" = None) ->
  (truthy_int offset = true -> fs !! "offset" = None) ->
  size (filter (fun kv => is_Some (fs !! kv.1))
          (query_params select (Some fs) order limit offset))
  = size fs.
Proof.
  intros Ho Hl Hf.
  rewrite <- (map_size_fmap eq_filter fs). f_equal.
  apply map_eq; intros k. apply option_eq; intros x.
  rewrite map_lookup_filter_Some, lookup_fmap_Some; simpl. split.
  - intros [Hx [v Hv]]. exists v. split; [| exact Hv].
    rewrite (query_params_filter select fs order limit offset k v Ho Hl Hf Hv) in Hx.
    congruence.
  - intros [v [<- Hv]]. split; [| eauto].
    apply query_params_filter; assumption.
Qed.

End Params.

(** C6, as the code has it. The [N] keyword filters of
    [get_data_sources] become exactly [N] parameters [key=eq.<value>].
    So do the [N] entries of [query]'s [filters], provided none of them
    is named [order], [limit] or [offset] while that option is given
    too; the only other parameters are the options. *)
Theorem filters_become_eq_parameters {W} (send : request -> W -> reply * W)
    (self : GaiaCoreClient) (filters fs : gmap string json)
    (table schema : string) (select order : option string) (limit offset : option Z)
    (st1 st2 : @netstate W) :
  (truthy_str order = true -> fs !! "order" = None) ->
  (truthy_int limit = true -> fs !! "limit" = None) ->
  (truthy_int offset = true -> fs !! "offset" = None) ->
  (exists req ps,
      sent (snd (get_data_sources send self filters st1)) = sent st1 ++ [req]
      /\ params req = Some ps
      /\ (forall k, ps !! k = eq_filter <$> filters !! k)
      /\ size ps = size filters)
  /\ (exists req ps,
      sent (snd (query send self table schema select (Some fs) order limit offset st2))
      = sent st2 ++ [req]
      /\ params req = Some ps
      /\ (forall k v, fs !! k = Some v -> ps !! k = Some (eq_filter v))
      /\ (forall k, fs !! k = None -> is_Some (ps !! k) -> k ∈ option_keys)
      /\ size (filter (fun kv => is_Some (fs !! kv.1)) ps) = size fs).
Proof.
  intros Ho Hl Hf. split.
  - rewrite get_data_sources_request. do 2 eexists.
    split; [apply exchange_sent |]. split; [reflexivity |]. split.
    + intros k. apply lookup_fmap.
    + apply map_size_fmap.
  - rewrite query_request. do 2 eexists.
    split; [apply exchange_sent |]. split; [reflexivity |].
    split; [| split].
    + intros k v. apply query_params_filter; assumption.
    + intros k. apply query_params_other.
    + apply query_params_count; assumption.
Qed.

(** Two filters and an ordering that does not clash with them. *)
Lemma filters_become_eq_parameters_witness :
  let self := init "http://localhost:3000" in
  let fs : gmap string json := <["state" := JStr "CA"]> {[ "city" := JStr "FRESNO" ]} in
  (exists req ps,
      sent (snd (get_data_sources scripted self fs (fresh []))) = [] ++ [req]
      /\ params req = Some ps
      /\ (forall k, ps !! k = eq_filter <$> fs !! k)
      /\ size ps = size fs)
  /\ (exists req ps,
      sent (snd (query scripted self "location" "working" None (Some fs)
                   (Some "city.asc") (Some 10) None (fresh [])))
      = [] ++ [req]
      /\ params req = Some ps
      /\ (forall k v, fs !! k = Some v -> ps !! k = Some (eq_filter v))
      /\ (forall k, fs !! k = None -> is_Some (ps !! k) -> k ∈ option_keys)
      /\ size (filter (fun kv => is_Some (fs !! kv.1)) ps) = size fs).
Proof.
  intros self fs.
  apply (filters_become_eq_parameters scripted self fs fs "location" "working"
           None (Some "city.asc") (Some 10) None (fresh []) (fresh []));
    intros _; reflexivity.
Defined.

(** C6, as stated, fails for [query]: a filter named [order] given
    together with an ordering is overwritten by it, and the request
    carries no equality parameter for that entry. *)
Lemma filter_overwritten_by_option :
  let self := init "http://localhost:3000" in
  let fs : gmap string json := {[ "order" := JStr "x" ]} in
  size fs = 1%nat
  /\ map params
       (sent (snd (query scripted self "location" "backbone" None (Some fs)
                     (Some "name.asc") None None (fresh []))))
     = [Some {[ "order" := JStr "name.asc" ]}]
  /\ ({[ "order" := JStr "name.asc" ]} : gmap string json) !! "order"
     <> Some (eq_filter (JStr "x")).
Proof. repeat split; vm_compute; congruence. Qed.

(** C10, as the code has it. An argument guarded by a truth test is
    left out when it is falsy, and the request is the one sent without
    it: [city=''] for [get_locations], [location_id=0] and [person_id=0]
    for [get_location_history], [limit=0] and [offset=0] for [query].
    Without the argument the request has no such parameter ([query] can
    still carry a filter that happens to be named [limit] or [offset]).
    The [limit] of [get_locations] is not guarded: it is always sent. *)
Theorem falsy_guarded_arguments_omitted {W} (send : request -> W -> reply * W)
    (self : GaiaCoreClient) :
  (forall state limit,
      get_locations send self (Some "") state limit
      = get_locations send self None state limit)
  /\ (forall state limit (st : @netstate W), exists req ps,
         sent (snd (get_locations send self None state limit st)) = sent st ++ [req]
         /\ params req = Some ps /\ ps !! "city" = None)
  /\ (forall person_id,
         get_location_history send self (Some 0) person_id
         = get_location_history send self None person_id)
  /\ (forall location_id,
         get_location_history send self location_id (Some 0)
         = get_location_history send self location_id None)
  /\ (forall person_id (st : @netstate W), exists req ps,
         sent (snd (get_location_history send self None person_id st)) = sent st ++ [req]
         /\ params req = Some ps /\ ps !! "location_id" = None)
  /\ (forall location_id (st : @netstate W), exists req ps,
         sent (snd (get_location_history send self location_id None st)) = sent st ++ [req]
         /\ params req = Some ps /\ ps !! "entity_id" = None)
  /\ (forall table schema select filters order offset,
         query send self table schema select filters order (Some 0) offset
         = query send self table schema select filters order None offset)
  /\ (forall table schema select filters order limit,
         query send self table schema select filters order limit (Some 0)
         = query send self table schema select filters order limit None)
  /\ (forall table schema select filters order offset (st : @netstate W), exists req ps,
         sent (snd (query send self table schema select filters order None offset st))
         = sent st ++ [req]
         /\ params req = Some ps
         /\ ps !! "limit" = eq_filter <$> default ∅ filters !! "limit")
  /\ (forall table schema select filters order limit (st : @netstate W), exists req ps,
         sent (snd (query send self table schema select filters order limit None st))
         = sent st ++ [req]
         /\ params req = Some ps
         /\ ps !! "offset" = eq_filter <$> default ∅ filters !! "offset")
  /\ (forall city state limit (st : @netstate W), exists req ps,
         sent (snd (get_locations send self city state limit st)) = sent st ++ [req]
         /\ params req = Some ps /\ ps !! "limit" = Some (JNum limit)).
Proof.
  repeat match goal with |- _ /\ _ => split end; try reflexivity.
  - intros state limit st. unfold get_locations. rewrite request_exchange.
    do 2 eexists. split; [apply exchange_sent |]. split; [reflexivity |].
    simpl. destruct (truthy_str state); by simplify_map_eq.
  - intros person_id st. unfold get_location_history. rewrite request_exchange.
    do 2 eexists. split; [apply exchange_sent |]. split; [reflexivity |].
    simpl. destruct (truthy_int person_id); by simplify_map_eq.
  - intros location_id st. unfold get_location_history. rewrite request_exchange.
    do 2 eexists. split; [apply exchange_sent |]. split; [reflexivity |].
    simpl. destruct (truthy_int location_id); by simplify_map_eq.
  - intros table schema select filters order offset st. rewrite query_request.
    do 2 eexists. split; [apply exchange_sent |]. split; [reflexivity |].
    unfold query_params; simpl.
    destruct (truthy_str order), (truthy_int offset);
      repeat (rewrite lookup_insert_ne by done);
      rewrite lookup_union, lookup_fmap;
      destruct (default ∅ filters !! "limit"); simpl;
      destruct (truthy_str select); by simplify_map_eq.
  - intros table schema select filters order limit st. rewrite query_request.
    do 2 eexists. split; [apply exchange_sent |]. split; [reflexivity |].
    unfold query_params; simpl.
    destruct (truthy_str order), (truthy_int limit);
      repeat (rewrite lookup_insert_ne by done);
      rewrite lookup_union, lookup_fmap;
      destruct (default ∅ filters !! "offset"); simpl;
      destruct (truthy_str select); by simplify_map_eq.
  - intros city state limit st. unfold get_locations. rewrite request_exchange.
    do 2 eexists. split; [apply exchange_sent |]. split; [reflexivity |].
    simpl. destruct (truthy_str city), (truthy_str state); by simplify_map_eq.
Qed.

(** C10, as stated, fails: [get_locations(limit=0)] sends [limit=0],
    and a zero inside a filter mapping is sent as [eq.0]. *)
Lemma zero_limit_is_sent :
  let self := init "http://localhost:3000" in
  map params (sent (snd (get_locations scripted self None None 0 (fresh []))))
  = [Some {[ "limit" := JNum 0 ]}]
  /\ map params
       (sent (snd (query scripted self "location" "working" None
                     (Some {[ "location_id" := JNum 0 ]}) None None None (fresh []))))
     = [Some {[ "location_id" := JStr "eq.0" ]}].
Proof. split; vm_compute; reflexivity. Qed.

(** ** The pipeline, stage by stage *)

Lemma from_stage_message k l :
  (1 <= k <= 4)%nat ->
  from_stage k l ->
  l = [] \/ exists msg, l = [msg] /\ error_stage msg = Some k.
Proof.
  intros Hk [-> | [[e ->] | [-> ->]]]; [left; reflexivity | |].
  - right. eexists; split; [reflexivity |].
    destruct k as [| [| [| [| [| k]]]]]; try lia; reflexivity.
  - right. eexists; split; reflexivity.
Qed.

Lemma chronological_stages l1 l2 l3 l4 :
  from_stage 1 l1 -> from_stage 2 l2 -> from_stage 3 l3 -> from_stage 4 l4 ->
  chronological 0 (l1 ++ l2 ++ l3 ++ l4) = true.
Proof.
  intros F1 F2 F3 F4.
  apply from_stage_message in F1 as [-> | (m1 & -> & H1)]; [| | lia].
  all: apply from_stage_message in F2 as [-> | (m2 & -> & H2)]; [| | lia].
  all: apply from_stage_message in F3 as [-> | (m3 & -> & H3)]; [| | lia].
  all: apply from_stage_message in F4 as [-> | (m4 & -> & H4)]; [| | lia].
  all: cbn; rewrite ?H1; cbn; rewrite ?H2; cbn; rewrite ?H3; cbn; rewrite ?H4;
    reflexivity.
Qed.

Section Stages.

Context {W : Type}.
Variable send : request -> W -> reply * W.
Variable self : GaiaCoreClient.
Variables (metadata_url location_csv location_history_csv : string).
Variable variable_source_id : option string.
Variable verbose : bool.

Local Abbreviation stage1 := (step1 send self metadata_url verbose).
Local Abbreviation stage2 := (step2 send self location_csv location_history_csv verbose).
Local Abbreviation stage3 := (step3 send self verbose).
Local Abbreviation stage4 := (step4 send self variable_source_id verbose).
Local Abbreviation record := (record_error (W:=W) verbose).

Lemma call_run {A} (m : M (@netstate W) A) (ps : pstate) :
  call m ps = (fst (m (net ps)), {| net := snd (m (net ps)); results := results ps |}).
Proof. unfold call. destruct (m (net ps)); reflexivity. Qed.

Lemma narrate_run (line : string) (ps : @pstate W) :
  (if verbose then py_print line else ret tt) ps = (inr tt, ps).
Proof. destruct verbose; reflexivity. Qed.

Lemma record_error_run what e (ps : @pstate W) :
  record what e ps
  = (inr tt, {| net := net ps;
                results := append_error (what +:+ exn_str e) (results ps) |}).
Proof. unfold record_error, bind, update, modify. destruct verbose; reflexivity. Qed.

Ltac settled := intros [= <- <-]; cbn; repeat split; eauto.

(** *** Stage 1 *)

Lemma step1_frame (ps ps' : @pstate W) r :
  stage1 ps = (r, ps') ->
  errors (results ps') = errors (results ps)
  /\ locations (results ps') = locations (results ps)
  /\ ingestion (results ps') = ingestion (results ps)
  /\ spatial_join (results ps') = spatial_join (results ps)
  /\ exists req, sent (net ps') = sent (net ps) ++ [req] /\ method req = POST.
Proof.
  unfold step1, fetch_and_load_jsonld, bind.
  rewrite narrate_run, call_run, rpc_exchange. cbn [fst snd exchange].
  destruct (settle _) as [e | md]; cbn; [settled |].
  destruct verbose; cbn; [| settled].
  destruct (subscript_int md 0) as [e | first]; cbn; [settled |].
  destruct (subscript_str first "dataset_name"); cbn; [settled |].
  destruct (subscript_str first "variables_loaded"); cbn; settled.
Qed.

(** A failing call is a failing stage 1, with nothing assigned. *)
Lemma step1_call_raises (ps : @pstate W) e n :
  fetch_and_load_jsonld send self metadata_url (net ps) = (inl e, n) ->
  stage1 ps = (inl e, {| net := n; results := results ps |}).
Proof.
  intros H. unfold step1, bind.
  rewrite narrate_run, call_run, H. reflexivity.
Qed.

(** Stage 1 succeeds only if the call does; its result is in [metadata]. *)
Lemma step1_done (ps ps' : @pstate W) :
  stage1 ps = (inr tt, ps') ->
  exists md,
    fetch_and_load_jsonld send self metadata_url (net ps) = (inr md, net ps')
    /\ results ps' = set_metadata md (results ps).
Proof.
  unfold step1, bind. rewrite narrate_run, call_run.
  destruct (fetch_and_load_jsonld send self metadata_url (net ps)) as [[e | md] n];
    cbn; [discriminate |].
  destruct verbose; cbn; [| intros [= <-]; eauto].
  destruct (subscript_int md 0) as [e | first]; cbn; [discriminate |].
  destruct (subscript_str first "dataset_name"); cbn; [discriminate |].
  destruct (subscript_str first "variables_loaded"); cbn; [discriminate |].
  intros [= <-]; eauto.
Qed.

(** *** Stage 2 *)

Lemma step2_frame (ps ps' : @pstate W) r :
  stage2 ps = (r, ps') ->
  errors (results ps') = errors (results ps)
  /\ metadata (results ps') = metadata (results ps)
  /\ ingestion (results ps') = ingestion (results ps)
  /\ spatial_join (results ps') = spatial_join (results ps)
  /\ exists req, sent (net ps') = sent (net ps) ++ [req] /\ method req = POST.
Proof.
  unfold step2, load_location_data, bind.
  rewrite narrate_run, call_run, rpc_exchange. cbn [fst snd exchange].
  destruct (settle _) as [e | loc]; cbn; [settled |].
  rewrite narrate_run. settled.
Qed.

(** Stage 2 succeeds only if the call does; its result is in [locations]. *)
Lemma step2_done (ps ps' : @pstate W) :
  stage2 ps = (inr tt, ps') ->
  exists loc,
    load_location_data send self location_csv location_history_csv (net ps)
    = (inr loc, net ps')
    /\ results ps' = set_locations loc (results ps).
Proof.
  unfold step2, bind. rewrite narrate_run, call_run.
  destruct (load_location_data send self location_csv location_history_csv (net ps))
    as [[e | loc] n]; cbn; [discriminate |].
  rewrite narrate_run. intros [= <-]; eauto.
Qed.

(** The second [try] never raises. *)
Lemma try2_run (ps : @pstate W) :
  exists ps' l,
    try_except stage2 (fun e => record "Location loading failed: " e) ps
    = (inr tt, ps')
    /\ from_stage 2 l
    /\ errors (results ps') = errors (results ps) ++ l
    /\ metadata (results ps') = metadata (results ps)
    /\ ingestion (results ps') = ingestion (results ps)
    /\ spatial_join (results ps') = spatial_join (results ps)
    /\ exists req, sent (net ps') = sent (net ps) ++ [req] /\ method req = POST.
Proof.
  unfold try_except.
  destruct (stage2 ps) as [[e | []] ps1] eqn:E;
    destruct (step2_frame _ _ _ E) as (He & Hm & Hi & Hs & Hq).
  - rewrite record_error_run. eexists _, [_]; split; [reflexivity |]. cbn.
    rewrite He. repeat split; try assumption.
    right; left. eexists; reflexivity.
  - exists ps1, []; split; [reflexivity |].
    rewrite He, app_nil_r. repeat split; try assumption. left; reflexivity.
Qed.

(** *** Stage 3 *)

(** The narration of the ingestion steps may raise but changes nothing. *)
Lemma print_step_state step (ps : @pstate W) : snd (print_step step ps) = ps.
Proof.
  unfold print_step, bind, eval, ret, py_print.
  destruct (subscript_str step "status") as [e | status]; cbn; [reflexivity |].
  destruct (is_str status "success"); cbn.
  - destruct (subscript_str step "step"); reflexivity.
  - destruct (is_str status "warning"); cbn;
      destruct (subscript_str step "step"); reflexivity.
Qed.

Lemma for_each_print_state steps (ps : @pstate W) :
  snd (for_each steps print_step ps) = ps.
Proof.
  induction steps as [| step steps IH]; cbn; [reflexivity |].
  unfold bind. pose proof (print_step_state step ps) as Hs.
  destruct (print_step step ps) as [[e | []] ps1]; cbn in Hs; subst ps1;
    [reflexivity | exact IH].
Qed.

Lemma step3_frame (ps ps' : @pstate W) r :
  stage3 ps = (r, ps') ->
  errors (results ps') = errors (results ps)
  /\ metadata (results ps') = metadata (results ps)
  /\ locations (results ps') = locations (results ps)
  /\ spatial_join (results ps') = spatial_join (results ps)
  /\ exists reqs, sent (net ps') = sent (net ps) ++ reqs
                  /\ (length reqs <= 1)%nat
                  /\ Forall (fun q => method q = POST) reqs.
Proof.
  unfold step3, quick_ingest_datasource, bind.
  rewrite narrate_run. cbn.
  destruct (subscript_int (metadata (results ps)) 0) as [e | first]; cbn.
  { intros [= <- <-]; repeat split; exists []; rewrite app_nil_r; auto. }
  destruct (subscript_str first "dataset_name") as [e | dn]; cbn.
  { intros [= <- <-]; repeat split; exists []; rewrite app_nil_r; auto. }
  rewrite call_run, rpc_exchange. cbn [fst snd exchange].
  destruct (settle _) as [e | ing]; cbn.
  { intros [= <- <-]; cbn; repeat split; eexists [_]; auto. }
  destruct verbose; cbn.
  - destruct (py_iter ing) as [e | steps]; cbn.
    { intros [= <- <-]; cbn; repeat split; eexists [_]; auto. }
    match goal with |- context [for_each steps print_step ?s] =>
      pose proof (for_each_print_state steps s) as Hs;
      destruct (for_each steps print_step s) as [[e | []] ps1] end;
      cbn in Hs; subst ps1;
      intros [= <- <-]; cbn; repeat split; eexists [_]; auto.
  - intros [= <- <-]; cbn; repeat split; eexists [_]; auto.
Qed.

(** A failing ingestion call is a failing stage 3, with nothing assigned. *)
Lemma step3_call_raises (ps : @pstate W) first dn e n :
  subscript_int (metadata (results ps)) 0 = inr first ->
  subscript_str first "dataset_name" = inr dn ->
  quick_ingest_datasource send self dn None (net ps) = (inl e, n) ->
  stage3 ps = (inl e, {| net := n; results := results ps |}).
Proof.
  intros H0 Hn Hq. unfold step3, bind. rewrite narrate_run. cbn.
  rewrite H0; cbn. rewrite Hn; cbn. rewrite call_run, Hq. reflexivity.
Qed.

(** Stage 3 succeeds only if [metadata[0]["dataset_name"]] exists and the
    call succeeds; its result is in [ingestion]. *)
Lemma step3_done (ps ps' : @pstate W) dn :
  stage3 ps = (inr dn, ps') ->
  exists first ing,
    subscript_int (metadata (results ps)) 0 = inr first
    /\ subscript_str first "dataset_name" = inr dn
    /\ quick_ingest_datasource send self dn None (net ps) = (inr ing, net ps')
    /\ results ps' = set_ingestion ing (results ps).
Proof.
  unfold step3, bind. rewrite narrate_run. cbn.
  destruct (subscript_int (metadata (results ps)) 0) as [e | first] eqn:E0; cbn;
    [discriminate |].
  destruct (subscript_str first "dataset_name") as [e | dn'] eqn:En; cbn;
    [discriminate |].
  rewrite call_run.
  destruct (quick_ingest_datasource send self dn' None (net ps)) as [[e | ing] n] eqn:Eq;
    cbn; [discriminate |].
  destruct verbose; cbn.
  - destruct (py_iter ing) as [e | steps]; cbn; [discriminate |].
    match goal with |- context [for_each steps print_step ?s] =>
      pose proof (for_each_print_state steps s) as Hs;
      destruct (for_each steps print_step s) as [[e | []] ps1] end;
      cbn in Hs; subst ps1; [discriminate |].
    intros [= <- <-]. exists first, ing. repeat split; assumption.
  - intros [= <- <-]. exists first, ing. repeat split; assumption.
Qed.

(** *** Stage 4 *)

Lemma step4_skipped dn (ps : @pstate W) :
  truthy_str variable_source_id = false -> stage4 dn ps = (inr tt, ps).
Proof. intros H. unfold step4. rewrite H. reflexivity. Qed.

(** The body of the fourth [try] raises before it assigns anything;
    when it does not raise it has either left [errors] alone or added
    the one message about the table name. *)
Lemma step4_frame dn (ps ps' : @pstate W) r :
  stage4 dn ps = (r, ps') ->
  ((exists e, r = inl e) /\ results ps' = results ps)
  \/ (r = inr tt
      /\ errors (results ps') = errors (results ps)
      /\ metadata (results ps') = metadata (results ps)
      /\ locations (results ps') = locations (results ps)
      /\ ingestion (results ps') = ingestion (results ps))
  \/ (r = inr tt
      /\ results ps'
         = append_error "Could not determine ingested table name" (results ps)).
Proof.
  unfold step4. destruct (truthy_str variable_source_id).
  2:{ intros [= <- <-]. right; left. repeat split. }
  unfold bind. rewrite narrate_run, call_run, get_data_sources_request.
  cbn [fst snd exchange].
  destruct (settle _) as [e | found]; cbn.
  { intros [= <- <-]. left. eauto. }
  destruct (subscript_int found 0) as [e | data_source]; cbn.
  { intros [= <- <-]. left. eauto. }
  destruct (py_get data_source "etl_metadata" (JObj [])) as [e | etl]; cbn.
  { intros [= <- <-]. left. eauto. }
  destruct (py_get etl "ingested_table" (JObj [])) as [e | ingested_table]; cbn.
  { intros [= <- <-]. left. eauto. }
  destruct (py_get ingested_table "schema" (JStr "public")) as [e | schema]; cbn.
  { intros [= <- <-]. left. eauto. }
  destruct (py_get ingested_table "table" JNull) as [e | table]; cbn.
  { intros [= <- <-]. left. eauto. }
  destruct (truthy table); unfold bind.
  - rewrite call_run. unfold spatial_join_exposure. rewrite rpc_exchange.
    cbn [fst snd exchange].
    destruct (settle _) as [e | sj]; cbn.
    + intros [= <- <-]. left. eauto.
    + rewrite narrate_run. intros [= <- <-]. right; left. repeat split.
  - cbn. rewrite narrate_run. intros [= <- <-]. right; right. split; reflexivity.
Qed.

(** What the fourth [try] does once the data source has been read and
    its [etl_metadata.ingested_table] is a dictionary. *)
Lemma step4_lookup dn (ps : @pstate W) found n4 data_source etl fields :
  truthy_str variable_source_id = true ->
  get_data_sources send self {[ "dataset_name" := dn ]} (net ps) = (inr found, n4) ->
  subscript_int found 0 = inr data_source ->
  py_get data_source "etl_metadata" (JObj []) = inr etl ->
  py_get etl "ingested_table" (JObj []) = inr (JObj fields) ->
  stage4 dn ps
  = let table := default JNull (dict_lookup "table" fields) in
    let schema := default (JStr "public") (dict_lookup "schema" fields) in
    if truthy table then
      match spatial_join_exposure send self (default "" variable_source_id)
              (py_str schema +:+ "." +:+ py_str table) n4 with
      | (inr sj, n5) => (inr tt, {| net := n5; results := set_spatial_join sj (results ps) |})
      | (inl e, n5) => (inl e, {| net := n5; results := results ps |})
      end
    else
      (inr tt, {| net := n4;
                  results := append_error "Could not determine ingested table name"
                               (results ps) |}).
Proof.
  intros Hv Hg H0 He Hi. unfold step4. rewrite Hv.
  unfold bind. rewrite narrate_run, call_run, Hg. cbn.
  rewrite H0; cbn. rewrite He; cbn. rewrite Hi; cbn.
  destruct (truthy (default JNull (dict_lookup "table" fields))); unfold bind.
  - rewrite call_run. cbn.
    destruct (spatial_join_exposure _ _ _ _ _) as [[e | sj] n5]; cbn; [reflexivity |].
    rewrite narrate_run. reflexivity.
  - cbn. rewrite narrate_run. reflexivity.
Qed.

(** The body of the fourth [try], whatever the read returns. *)
Lemma step4_read dn (ps : @pstate W) :
  truthy_str variable_source_id = true ->
  stage4 dn ps
  = let (r, n4) := get_data_sources send self {[ "dataset_name" := dn ]} (net ps) in
    match match r with inl e => inl e | inr found => ingested_table_of found end with
    | inl e => (inl e, {| net := n4; results := results ps |})
    | inr fields =>
        let table := default JNull (dict_lookup "table" fields) in
        let schema := default (JStr "public") (dict_lookup "schema" fields) in
        if truthy table then
          match spatial_join_exposure send self (default "" variable_source_id)
                  (py_str schema +:+ "." +:+ py_str table) n4 with
          | (inr sj, n5) =>
              (inr tt, {| net := n5; results := set_spatial_join sj (results ps) |})
          | (inl e, n5) => (inl e, {| net := n5; results := results ps |})
          end
        else
          (inr tt, {| net := n4;
                      results := append_error "Could not determine ingested table name"
                                   (results ps) |})
    end.
Proof.
  intros Hv.
  destruct (get_data_sources send self {[ "dataset_name" := dn ]} (net ps))
    as [[e | found] n4] eqn:Hg.
  { unfold step4. rewrite Hv. unfold bind.
    rewrite narrate_run, call_run, Hg. reflexivity. }
  unfold ingested_table_of.
  destruct (subscript_int found 0) as [e | data_source] eqn:H0.
  { unfold step4. rewrite Hv. unfold bind.
    rewrite narrate_run, call_run, Hg. cbn. rewrite H0. reflexivity. }
  destruct (py_get data_source "etl_metadata" (JObj [])) as [e | etl] eqn:He.
  { unfold step4. rewrite Hv. unfold bind.
    rewrite narrate_run, call_run, Hg. cbn. rewrite H0. cbn. rewrite He.
    reflexivity. }
  destruct (py_get etl "ingested_table" (JObj [])) as [e | it] eqn:Hi.
  { unfold step4. rewrite Hv. unfold bind.
    rewrite narrate_run, call_run, Hg. cbn. rewrite H0. cbn. rewrite He. cbn.
    rewrite Hi. reflexivity. }
  destruct it as [| | | | | fields];
    try (unfold step4; rewrite Hv; unfold bind;
         rewrite narrate_run, call_run, Hg; cbn; rewrite H0; cbn; rewrite He; cbn;
         rewrite Hi; reflexivity).
  apply (step4_lookup dn ps found n4 data_source etl fields Hv Hg H0 He Hi).
Qed.

(** The fourth [try] never raises. *)
Lemma try4_run dn (ps : @pstate W) :
  exists ps' l,
    try_except (stage4 dn) (fun e => record "Spatial join failed: " e) ps = (inr tt, ps')
    /\ from_stage 4 l
    /\ errors (results ps') = errors (results ps) ++ l
    /\ (truthy_str variable_source_id = false -> ps' = ps /\ l = []).
Proof.
  unfold try_except.
  destruct (stage4 dn ps) as [[e | []] ps1] eqn:E.
  - rewrite record_error_run. eexists _, [_]; split; [reflexivity |]. cbn.
    destruct (step4_frame _ _ _ _ E) as [[_ ->] | [[[=] _] | [[=] _]]].
    repeat split.
    + right; left. eexists; reflexivity.
    + rewrite (step4_skipped dn ps H) in E. discriminate.
    + rewrite (step4_skipped dn ps H) in E. discriminate.
  - destruct (step4_frame _ _ _ _ E) as [[[e [=]] _] | [(_ & He & _) | [_ Hr]]].
    + exists ps1, []; split; [reflexivity |].
      rewrite He, app_nil_r. repeat split.
      * left; reflexivity.
      * rewrite (step4_skipped dn ps H) in E. congruence.
    + eexists ps1, [_]; split; [reflexivity |].
      rewrite Hr. cbn. repeat split.
      * right; right. split; reflexivity.
      * rewrite (step4_skipped dn ps H) in E. injection E as <-.
        apply (f_equal errors) in Hr. cbn in Hr.
        apply (f_equal length) in Hr. rewrite length_app in Hr. cbn in Hr. lia.
      * rewrite (step4_skipped dn ps H) in E. injection E as <-.
        apply (f_equal errors) in Hr. cbn in Hr.
        apply (f_equal length) in Hr. rewrite length_app in Hr. cbn in Hr. lia.
Qed.

(** *** The whole run *)

Local Abbreviation run :=
  (run_full_pipeline send self metadata_url location_csv location_history_csv
     variable_source_id verbose).

Local Abbreviation start := (fun st : @netstate W => {| net := st; results := empty_outcome |}).

Lemma pipeline_stage1_raises (st : @netstate W) e ps1 :
  stage1 (start st) = (inl e, ps1) ->
  run st = (inr (append_error ("Metadata loading failed: " +:+ exn_str e) (results ps1)),
            net ps1).
Proof.
  intros E1. unfold run_full_pipeline, pipeline_body, try_or_return.
  rewrite E1. unfold bind. rewrite record_error_run. reflexivity.
Qed.

Lemma pipeline_stage3_raises (st : @netstate W) ps1 ps2 e ps3 :
  stage1 (start st) = (inr tt, ps1) ->
  try_except stage2 (fun e => record "Location loading failed: " e) ps1 = (inr tt, ps2) ->
  stage3 ps2 = (inl e, ps3) ->
  run st = (inr (append_error ("Data ingestion failed: " +:+ exn_str e) (results ps3)),
            net ps3).
Proof.
  intros E1 E2 E3. unfold run_full_pipeline, pipeline_body, try_or_return.
  rewrite E1. unfold bind. rewrite E2, E3, record_error_run. reflexivity.
Qed.

Lemma pipeline_stage4 (st : @netstate W) ps1 ps2 dn ps3 ps4 :
  stage1 (start st) = (inr tt, ps1) ->
  try_except stage2 (fun e => record "Location loading failed: " e) ps1 = (inr tt, ps2) ->
  stage3 ps2 = (inr dn, ps3) ->
  try_except (stage4 dn) (fun e => record "Spatial join failed: " e) ps3 = (inr tt, ps4) ->
  run st = (inr (results ps4), net ps4).
Proof.
  intros E1 E2 E3 E4. unfold run_full_pipeline, pipeline_body, try_or_return.
  rewrite E1. unfold bind. rewrite E2, E3, E4.
  destruct verbose; cbn; [destruct (errors (results ps4)) |]; reflexivity.
Qed.


(** A [try] with a recording [except] clause never raises. *)
Lemma try_except_run (body : M (@pstate W) unit) what (ps ps' : @pstate W) (r : exn + unit) :
  body ps = (r, ps') ->
  try_except body (fun e => record what e) ps = (inr tt, after_except what r ps').
Proof.
  intros E. unfold try_except. rewrite E. destruct r as [e | []].
  - apply record_error_run.
  - destruct ps'; reflexivity.
Qed.

Lemma caught_from_stage {A} k (r : exn + A) : from_stage k (caught (stage_prefix k) r).
Proof.
  destruct r as [e | a]; [right; left; exists e; reflexivity | left; reflexivity].
Qed.

(** Every run returns an outcome, and its [errors] are the messages of
    the stages that raised, in the order of the stages. *)
Lemma pipeline_records (st : @netstate W) :
  exists out st' r1 ps1,
    run st = (inr out, st')
    /\ stage1 (start st) = (r1, ps1)
    /\ chronological 0 (errors out) = true
    /\ match r1 with
       | inl e1 =>
           out = append_error ("Metadata loading failed: " +:+ exn_str e1) (results ps1)
           /\ errors out = ["Metadata loading failed: " +:+ exn_str e1]
           /\ st' = net ps1
       | inr _ =>
           exists r2 ps2 r3 ps3,
             stage2 ps1 = (r2, ps2)
             /\ stage3 (after_except "Location loading failed: " r2 ps2) = (r3, ps3)
             /\ match r3 with
                | inl e3 =>
                    out = append_error ("Data ingestion failed: " +:+ exn_str e3)
                            (results ps3)
                    /\ errors out
                       = caught "Location loading failed: " r2
                           ++ ["Data ingestion failed: " +:+ exn_str e3]
                    /\ st' = net ps3
                | inr dataset_name =>
                    exists r4 ps4,
                      stage4 dataset_name ps3 = (r4, ps4)
                      /\ out = results (after_except "Spatial join failed: " r4 ps4)
                      /\ st' = net ps4
                      /\ match r4 with
                         | inl e4 =>
                             errors out
                             = caught "Location loading failed: " r2
                                 ++ ["Spatial join failed: " +:+ exn_str e4]
                         | inr _ =>
                             errors out = caught "Location loading failed: " r2
                             \/ errors out
                                = caught "Location loading failed: " r2
                                    ++ ["Could not determine ingested table name"]
                         end
                end
       end.
Proof.
  destruct (stage1 (start st)) as [[e1 | []] ps1] eqn:E1;
    destruct (step1_frame _ _ _ E1) as (He1 & _); cbn in He1.
  { rewrite (pipeline_stage1_raises st e1 ps1 E1).
    eexists _, _, _, _. split; [reflexivity |]. split; [reflexivity |].
    cbn. rewrite He1. cbn.
    split; [| repeat split].
    apply (chronological_stages [_] [] [] []);
      [right; left; eexists; reflexivity | left .. ]; reflexivity. }
  destruct (stage2 ps1) as [r2 ps2] eqn:E2.
  destruct (step2_frame _ _ _ E2) as (He2 & _).
  pose proof (try_except_run _ "Location loading failed: " _ _ _ E2) as T2.
  assert (Hc2 : errors (results (after_except "Location loading failed: " r2 ps2))
                = caught "Location loading failed: " r2).
  { destruct r2; cbn; rewrite He2, He1; reflexivity. }
  destruct (stage3 (after_except "Location loading failed: " r2 ps2))
    as [[e3 | dn] ps3] eqn:E3;
    destruct (step3_frame _ _ _ E3) as (He3 & _); rewrite Hc2 in He3.
  { rewrite (pipeline_stage3_raises st _ _ e3 ps3 E1 T2 E3).
    eexists _, _, _, _. split; [reflexivity |]. split; [reflexivity |].
    cbn [errors append_error]. rewrite He3.
    split.
    - apply (chronological_stages [] _ [_] []);
        [left; reflexivity | apply (caught_from_stage 2)
         | right; left; eexists; reflexivity | left; reflexivity].
    - exists r2, ps2, (inl e3), ps3. repeat split; assumption. }
  destruct (stage4 dn ps3) as [r4 ps4] eqn:E4.
  pose proof (try_except_run _ "Spatial join failed: " _ _ _ E4) as T4.
  rewrite (pipeline_stage4 st _ _ dn ps3 _ E1 T2 E3 T4).
  destruct (step4_frame _ _ _ _ E4)
    as [[[e4 ->] Hr] | [(-> & He & _) | [-> Hr]]].
  - eexists _, _, _, _. split; [reflexivity |]. split; [reflexivity |].
    cbn [net results after_except errors append_error]. rewrite Hr, He3.
    split.
    + apply (chronological_stages [] _ [] [_]);
        [left; reflexivity | apply (caught_from_stage 2) | left; reflexivity
         | right; left; eexists; reflexivity].
    + exists r2, ps2, (inr dn), ps3. split; [assumption |]. split; [assumption |].
      exists (inl e4), ps4. cbn. rewrite Hr. repeat split. exact E4.
  - eexists _, _, _, _. split; [reflexivity |]. split; [reflexivity |].
    cbn [net results after_except]. rewrite He, He3.
    split.
    + rewrite <- (app_nil_r (caught _ _)).
      apply (chronological_stages [] _ [] []);
        [left; reflexivity | apply (caught_from_stage 2) | left; reflexivity ..].
    + exists r2, ps2, (inr dn), ps3. split; [assumption |]. split; [assumption |].
      exists (inr tt), ps4. cbn. repeat split; [exact E4 |]. left; reflexivity.
  - eexists _, _, _, _. split; [reflexivity |]. split; [reflexivity |].
    cbn [net results after_except]. rewrite Hr. cbn [errors append_error]. rewrite He3.
    split.
    + apply (chronological_stages [] _ [] [_]);
        [left; reflexivity | apply (caught_from_stage 2) | left; reflexivity
         | right; right; split; reflexivity].
    + exists r2, ps2, (inr dn), ps3. split; [assumption |]. split; [assumption |].
      exists (inr tt), ps4. cbn. rewrite Hr. repeat split; [exact E4 |]. right; reflexivity.
Qed.

End Stages.

(** ** The narration

    With a standard output that takes every line, or without narration,
    the pipeline that prints is the pipeline above. *)

Section Accepted.

Context {W : Type}.
Variable send : request -> W -> reply * W.
Variable self : GaiaCoreClient.
Variable stdout : string -> option exn.
Variables (metadata_url location_csv location_history_csv : string).
Variable variable_source_id : option string.
Variable verbose : bool.
Lemma print_step_io_run step (ps : @pstate W) :
  (forall line, stdout line = None) ->
  print_step_io stdout step ps = print_step step ps.
Proof.
  intros Hacc. unfold print_step_io, print_step, bind, eval, ret, py_print, print_out.
  destruct (subscript_str step "status") as [e | status]; cbn; [reflexivity |].
  destruct (is_str status "success"); cbn.
  - destruct (subscript_str step "step"); [reflexivity |].
    rewrite Hacc. reflexivity.
  - destruct (is_str status "warning"); cbn;
      (destruct (subscript_str step "step"); [reflexivity |]);
      rewrite Hacc; reflexivity.
Qed.

Lemma for_each_print_io_run steps (ps : @pstate W) :
  (forall line, stdout line = None) ->
  for_each steps (print_step_io stdout) ps = for_each steps print_step ps.
Proof.
  intros Hacc. revert ps.
  induction steps as [| step steps IH]; intros ps; [reflexivity |].
  cbn. unfold bind. rewrite (print_step_io_run step ps Hacc).
  destruct (print_step step ps) as [[e | []] ps1]; [reflexivity | apply IH].
Qed.

Hypothesis accepted : verbose = true -> forall line, stdout line = None.

Lemma narrate_out_run (line : string) (ps : @pstate W) :
  (if verbose then print_out stdout line else ret tt) ps = (inr tt, ps).
Proof.
  destruct verbose; [| reflexivity].
  unfold print_out. rewrite (accepted eq_refl). reflexivity.
Qed.

Lemma step1_io_run (ps : @pstate W) :
  step1_io send self stdout metadata_url verbose ps = step1 send self metadata_url verbose ps.
Proof.
  unfold step1_io, step1, bind. rewrite narrate_out_run, narrate_run.
  destruct (call _ ps) as [[e | md] ps1]; [reflexivity |].
  cbn. destruct verbose eqn:Ev; [| reflexivity]. cbn.
  destruct (subscript_int md 0) as [e | first] eqn:E0; cbn; [reflexivity |].
  destruct (subscript_str first "dataset_name"); cbn; [reflexivity |].
  unfold print_out. rewrite (accepted eq_refl). cbn. rewrite E0. cbn.
  destruct (subscript_str first "variables_loaded"); cbn; [reflexivity |].
  rewrite (accepted eq_refl). reflexivity.
Qed.

Lemma step2_io_run (ps : @pstate W) :
  step2_io send self stdout location_csv location_history_csv verbose ps
  = step2 send self location_csv location_history_csv verbose ps.
Proof.
  unfold step2_io, step2, bind. rewrite narrate_out_run, narrate_run.
  destruct (call _ ps) as [[e | loc] ps1]; [reflexivity |].
  cbn. rewrite narrate_out_run, narrate_run. reflexivity.
Qed.

Lemma step3_io_run (ps : @pstate W) :
  step3_io send self stdout verbose ps = step3 send self verbose ps.
Proof.
  unfold step3_io, step3, bind. rewrite narrate_out_run, narrate_run. cbn.
  destruct (subscript_int (metadata (results ps)) 0) as [e | first]; cbn; [reflexivity |].
  destruct (subscript_str first "dataset_name") as [e | dn]; cbn; [reflexivity |].
  destruct (call _ ps) as [[e | ing] ps1]; [reflexivity |].
  cbn. destruct verbose eqn:Ev; [| reflexivity]. cbn.
  destruct (py_iter ing) as [e | steps]; cbn; [reflexivity |].
  rewrite (for_each_print_io_run steps _ (accepted eq_refl)). reflexivity.
Qed.

Lemma step4_io_run dn (ps : @pstate W) :
  step4_io send self stdout variable_source_id verbose dn ps
  = step4 send self variable_source_id verbose dn ps.
Proof.
  unfold step4_io, step4. destruct (truthy_str variable_source_id); [| reflexivity].
  unfold bind. rewrite narrate_out_run, (narrate_run verbose).
  destruct (call _ ps) as [[e | found] ps1]; [reflexivity |]. cbn.
  destruct (subscript_int found 0) as [e | data_source]; cbn; [reflexivity |].
  destruct (py_get data_source "etl_metadata" (JObj [])) as [e | etl]; cbn; [reflexivity |].
  destruct (py_get etl "ingested_table" (JObj [])) as [e | it]; cbn; [reflexivity |].
  destruct (py_get it "schema" (JStr "public")) as [e | schema]; cbn; [reflexivity |].
  destruct (py_get it "table" JNull) as [e | table]; cbn; [reflexivity |].
  destruct (truthy table); unfold bind.
  - destruct (call _ ps1) as [[e | sj] ps2]; [reflexivity |]. cbn.
    rewrite narrate_out_run, (narrate_run verbose). reflexivity.
  - cbn. rewrite narrate_out_run, (narrate_run verbose). reflexivity.
Qed.

Lemma record_error_io_run what e (ps : @pstate W) :
  record_error_io stdout verbose what e ps = record_error verbose what e ps.
Proof.
  unfold record_error_io, record_error, bind, update, modify.
  rewrite narrate_out_run, (narrate_run verbose). reflexivity.
Qed.

Lemma try2_io_run (ps : @pstate W) :
  try_except (step2_io send self stdout location_csv location_history_csv verbose)
    (fun e => record_error_io stdout verbose "Location loading failed: " e) ps
  = try_except (step2 send self location_csv location_history_csv verbose)
      (fun e => record_error verbose "Location loading failed: " e) ps.
Proof.
  unfold try_except. rewrite step2_io_run.
  destruct (step2 _ _ _ _ _ _) as [[e | []] ps'];
    [apply record_error_io_run | reflexivity].
Qed.

Lemma try4_io_run dn (ps : @pstate W) :
  try_except (step4_io send self stdout variable_source_id verbose dn)
    (fun e => record_error_io stdout verbose "Spatial join failed: " e) ps
  = try_except (step4 send self variable_source_id verbose dn)
      (fun e => record_error verbose "Spatial join failed: " e) ps.
Proof.
  unfold try_except. rewrite step4_io_run.
  destruct (step4 _ _ _ _ _ _) as [[e | []] ps'];
    [apply record_error_io_run | reflexivity].
Qed.

Lemma run_full_pipeline_io_run (st : @netstate W) :
  run_full_pipeline_io send self stdout metadata_url location_csv location_history_csv
    variable_source_id verbose st
  = run_full_pipeline send self metadata_url location_csv location_history_csv
      variable_source_id verbose st.
Proof.
  unfold run_full_pipeline_io, run_full_pipeline, pipeline_body_io, pipeline_body,
    try_or_return.
  rewrite step1_io_run.
  destruct (step1 _ _ _ _ _) as [[e1 | []] ps1].
  { unfold bind. rewrite record_error_io_run. reflexivity. }
  unfold bind. rewrite try2_io_run.
  destruct (try_except _ _ ps1) as [[e2 | []] ps2]; [reflexivity |].
  rewrite step3_io_run.
  destruct (step3 _ _ _ _) as [[e3 | dn] ps3].
  { rewrite record_error_io_run. reflexivity. }
  rewrite try4_io_run.
  destruct (try_except _ _ ps3) as [[e4 | []] ps4]; [reflexivity |].
  destruct verbose eqn:Ev; [| reflexivity].
  unfold print_out. rewrite !(accepted eq_refl). cbn.
  destruct (errors (results ps4)); cbn; rewrite ?(accepted eq_refl); reflexivity.
Qed.
End Accepted.

(** ** The pipeline *)

(** C1. If stage 1 fails, that is, if the first [try] raises, in the
    [fetch_and_load_jsonld] call or in the narration that follows it,
    the run returns an outcome whose [errors] is the single message
    [Metadata loading failed: ...], with [locations], [ingestion] and
    [spatial_join] unset; the network is left as stage 1 left it, after
    the one request of stage 1: stages 2 to 4 are not attempted. *)
Theorem stage1_failure_halts {W} (send : request -> W -> reply * W)
    (self : GaiaCoreClient) (metadata_url location_csv location_history_csv : string)
    (variable_source_id : option string) (verbose : bool)
    (st : @netstate W) (e : exn) (ps1 : @pstate W) :
  step1 send self metadata_url verbose {| net := st; results := empty_outcome |}
  = (inl e, ps1) ->
  exists out,
    run_full_pipeline send self metadata_url location_csv location_history_csv
      variable_source_id verbose st
    = (inr out, net ps1)
    /\ errors out = ["Metadata loading failed: " +:+ exn_str e]
    /\ length (errors out) = 1%nat
    /\ locations out = JNull
    /\ ingestion out = JNull
    /\ spatial_join out = JNull
    /\ exists req, sent (net ps1) = sent st ++ [req] /\ method req = POST.
Proof.
  intros E1.
  destruct (step1_frame _ _ _ _ _ _ _ E1) as (He & Hl & Hi & Hs & Hq).
  eexists. split; [apply pipeline_stage1_raises; exact E1 |].
  cbn. rewrite He, Hl, Hi, Hs. repeat split. exact Hq.
Qed.

(** The connection is refused at the first request. *)
Lemma stage1_failure_halts_witness :
  exists out,
    sample_run (Some "avpmu_2015") true []
    = (inr out,
       {| world := [];
          sent := [rpc_request local_client "fetch_and_load_jsonld"
                     {[ "url" := JStr "http://example.org/pm25.jsonld" ]} "backbone"] |})
    /\ errors out = ["Metadata loading failed: Connection refused"]
    /\ length (errors out) = 1%nat
    /\ locations out = JNull
    /\ ingestion out = JNull
    /\ spatial_join out = JNull
    /\ exists req,
        [rpc_request local_client "fetch_and_load_jsonld"
           {[ "url" := JStr "http://example.org/pm25.jsonld" ]} "backbone"]
        = [] ++ [req]
        /\ method req = POST.
Proof.
  exact (stage1_failure_halts scripted local_client "http://example.org/pm25.jsonld"
           "/csv/LOCATION.csv" "/csv/LOCATION_HISTORY.csv" (Some "avpmu_2015") true
           (fresh []) (RequestException "Connection refused")
           {| net := {| world := [];
                        sent := [rpc_request local_client "fetch_and_load_jsonld"
                                   {[ "url" := JStr "http://example.org/pm25.jsonld" ]}
                                   "backbone"] |};
              results := empty_outcome |}
           eq_refl).
Defined.

(** C2, as the code has it.  As long as standard output takes every
    line of the narration (nothing is written when [verbose] is false),
    [run_full_pipeline] never raises: it returns one outcome, reached as
    follows.  If the first [try] raises [e1], [errors] is the one
    message [Metadata loading failed: str(e1)] and the run ends there.
    Otherwise the second [try] runs and, if it raises [e2],
    [Location loading failed: str(e2)] is recorded; the third [try]
    runs in either case.  If it raises [e3], [Data ingestion failed:
    str(e3)] is appended and the run ends there.  Otherwise the fourth
    [try] runs and, if it raises [e4], [Spatial join failed: str(e4)] is
    appended; if it does not raise, it has added nothing or its own
    message about the table name.  So [errors] holds one message for
    each [try] that raised, the text of its [except] clause followed by
    [str(e)], in the order of the stages. *)
Theorem stage_failures_recorded {W} (send : request -> W -> reply * W)
    (self : GaiaCoreClient) (stdout : string -> option exn)
    (metadata_url location_csv location_history_csv : string)
    (variable_source_id : option string) (verbose : bool) (st : @netstate W) :
  (verbose = true -> forall line, stdout line = None) ->
  exists out st' r1 ps1,
    run_full_pipeline_io send self stdout metadata_url location_csv location_history_csv
      variable_source_id verbose st
    = (inr out, st')
    /\ step1_io send self stdout metadata_url verbose
         {| net := st; results := empty_outcome |}
       = (r1, ps1)
    /\ chronological 0 (errors out) = true
    /\ match r1 with
       | inl e1 =>
           out = append_error ("Metadata loading failed: " +:+ exn_str e1) (results ps1)
           /\ errors out = ["Metadata loading failed: " +:+ exn_str e1]
           /\ st' = net ps1
       | inr _ =>
           exists r2 ps2 r3 ps3,
             step2_io send self stdout location_csv location_history_csv verbose ps1
             = (r2, ps2)
             /\ step3_io send self stdout verbose
                  (after_except "Location loading failed: " r2 ps2)
                = (r3, ps3)
             /\ match r3 with
                | inl e3 =>
                    out = append_error ("Data ingestion failed: " +:+ exn_str e3)
                            (results ps3)
                    /\ errors out
                       = caught "Location loading failed: " r2
                           ++ ["Data ingestion failed: " +:+ exn_str e3]
                    /\ st' = net ps3
                | inr dataset_name =>
                    exists r4 ps4,
                      step4_io send self stdout variable_source_id verbose dataset_name ps3
                      = (r4, ps4)
                      /\ out = results (after_except "Spatial join failed: " r4 ps4)
                      /\ st' = net ps4
                      /\ match r4 with
                         | inl e4 =>
                             errors out
                             = caught "Location loading failed: " r2
                                 ++ ["Spatial join failed: " +:+ exn_str e4]
                         | inr _ =>
                             errors out = caught "Location loading failed: " r2
                             \/ errors out
                                = caught "Location loading failed: " r2
                                    ++ ["Could not determine ingested table name"]
                         end
                end
       end.
Proof.
  intros Hacc.
  destruct (pipeline_records send self metadata_url location_csv location_history_csv
              variable_source_id verbose st)
    as (out & st' & r1 & ps1 & Hrun & H1 & Hch & Hrest).
  exists out, st', r1, ps1.
  rewrite (run_full_pipeline_io_run send self stdout metadata_url location_csv
             location_history_csv variable_source_id verbose Hacc),
    (step1_io_run send self stdout metadata_url verbose Hacc).
  do 3 (split; [assumption |]).
  destruct r1 as [e1 | []]; [assumption |].
  destruct Hrest as (r2 & ps2 & r3 & ps3 & H2 & H3 & Hrest).
  exists r2, ps2, r3, ps3.
  rewrite (step2_io_run send self stdout location_csv location_history_csv verbose Hacc),
    (step3_io_run send self stdout verbose Hacc).
  do 2 (split; [assumption |]).
  destruct r3 as [e3 | dataset_name]; [assumption |].
  destruct Hrest as (r4 & ps4 & H4 & Hrest).
  exists r4, ps4.
  rewrite (step4_io_run send self stdout variable_source_id verbose Hacc).
  split; assumption.
Qed.

(** A narrated run on a standard output that takes every line: stages 2
    and 3 fail. *)
Lemma stage_failures_recorded_witness :
  let script :=
    [ok_json pm25_metadata;
     status_reply 500 "Internal Server Error" JNull;
     status_reply 404 "Not Found" JNull] in
  let stdout := fun _ : string => @None exn in
  exists out st' r1 ps1,
    run_full_pipeline_io scripted local_client stdout "http://example.org/pm25.jsonld"
      "/csv/LOCATION.csv" "/csv/LOCATION_HISTORY.csv" (Some "avpmu_2015") true
      (fresh script)
    = (inr out, st')
    /\ step1_io scripted local_client stdout "http://example.org/pm25.jsonld" true
         {| net := fresh script; results := empty_outcome |}
       = (r1, ps1)
    /\ chronological 0 (errors out) = true
    /\ match r1 with
       | inl e1 =>
           out = append_error ("Metadata loading failed: " +:+ exn_str e1) (results ps1)
           /\ errors out = ["Metadata loading failed: " +:+ exn_str e1]
           /\ st' = net ps1
       | inr _ =>
           exists r2 ps2 r3 ps3,
             step2_io scripted local_client stdout "/csv/LOCATION.csv"
               "/csv/LOCATION_HISTORY.csv" true ps1
             = (r2, ps2)
             /\ step3_io scripted local_client stdout true
                  (after_except "Location loading failed: " r2 ps2)
                = (r3, ps3)
             /\ match r3 with
                | inl e3 =>
                    out = append_error ("Data ingestion failed: " +:+ exn_str e3)
                            (results ps3)
                    /\ errors out
                       = caught "Location loading failed: " r2
                           ++ ["Data ingestion failed: " +:+ exn_str e3]
                    /\ st' = net ps3
                | inr dataset_name =>
                    exists r4 ps4,
                      step4_io scripted local_client stdout (Some "avpmu_2015") true
                        dataset_name ps3
                      = (r4, ps4)
                      /\ out = results (after_except "Spatial join failed: " r4 ps4)
                      /\ st' = net ps4
                      /\ match r4 with
                         | inl e4 =>
                             errors out
                             = caught "Location loading failed: " r2
                                 ++ ["Spatial join failed: " +:+ exn_str e4]
                         | inr _ =>
                             errors out = caught "Location loading failed: " r2
                             \/ errors out
                                = caught "Location loading failed: " r2
                                    ++ ["Could not determine ingested table name"]
                         end
                end
       end.
Proof.
  intros script stdout.
  exact (stage_failures_recorded scripted local_client stdout
           "http://example.org/pm25.jsonld" "/csv/LOCATION.csv"
           "/csv/LOCATION_HISTORY.csv" (Some "avpmu_2015") true (fresh script)
           (fun _ _ => eq_refl)).
Defined.

(** C2, as stated, fails: the narration of an [except] clause is outside
    every [try].  On a standard output that encodes ASCII only, a
    narrated run raises [UnicodeEncodeError] to its caller when the
    connection is refused at the first request (the cross of the error
    line cannot be written), and also when all three stages succeed (the
    check mark after stage 1 cannot be written, which the first [except]
    clause catches and then fails to narrate).  Without narration the
    same failing run returns its outcome. *)
Lemma narration_failure_escapes :
  fst (run_full_pipeline_io scripted local_client ascii_stdout
         "http://example.org/pm25.jsonld" "/csv/LOCATION.csv" "/csv/LOCATION_HISTORY.csv"
         None true (fresh []))
  = inl (UnicodeEncodeError "'ascii' codec can't encode character")
  /\ fst (run_full_pipeline_io scripted local_client ascii_stdout
            "http://example.org/pm25.jsonld" "/csv/LOCATION.csv"
            "/csv/LOCATION_HISTORY.csv" None true (fresh three_stages_ok))
     = inl (UnicodeEncodeError "'ascii' codec can't encode character")
  /\ fst (run_full_pipeline_io scripted local_client ascii_stdout
            "http://example.org/pm25.jsonld" "/csv/LOCATION.csv"
            "/csv/LOCATION_HISTORY.csv" None false (fresh []))
     = inr (append_error "Metadata loading failed: Connection refused" empty_outcome).
Proof. repeat split; vm_compute; reflexivity. Qed.


(** C3. If stages 1 and 2 succeed and stage 3 fails, [errors] is the
    single message [Data ingestion failed: ...], [locations] holds what
    [load_location_data] returned, [spatial_join] is unset, and the
    network is left as stage 3 left it, at most one POST after stage 2:
    stage 4 is not attempted. *)
Theorem stage3_failure_halts {W} (send : request -> W -> reply * W)
    (self : GaiaCoreClient) (metadata_url location_csv location_history_csv : string)
    (variable_source_id : option string) (verbose : bool)
    (st : @netstate W) (ps1 ps2 ps3 : @pstate W) (e : exn) :
  step1 send self metadata_url verbose {| net := st; results := empty_outcome |}
  = (inr tt, ps1) ->
  step2 send self location_csv location_history_csv verbose ps1 = (inr tt, ps2) ->
  step3 send self verbose ps2 = (inl e, ps3) ->
  exists out loc,
    run_full_pipeline send self metadata_url location_csv location_history_csv
      variable_source_id verbose st
    = (inr out, net ps3)
    /\ errors out = ["Data ingestion failed: " +:+ exn_str e]
    /\ length (errors out) = 1%nat
    /\ spatial_join out = JNull
    /\ load_location_data send self location_csv location_history_csv (net ps1)
       = (inr loc, net ps2)
    /\ locations out = loc
    /\ exists reqs, sent (net ps3) = sent (net ps2) ++ reqs
                    /\ (length reqs <= 1)%nat
                    /\ Forall (fun q => method q = POST) reqs.
Proof.
  intros E1 E2 E3.
  destruct (step1_frame _ _ _ _ _ _ _ E1) as (He1 & _ & _ & Hs1 & _).
  destruct (step2_frame _ _ _ _ _ _ _ _ E2) as (He2 & _ & _ & Hs2 & _).
  destruct (step2_done _ _ _ _ _ _ _ E2) as (loc & Hcall & Hres).
  destruct (step3_frame _ _ _ _ _ _ E3) as (He3 & _ & Hl3 & Hs3 & Hq3).
  eexists _, loc. split.
  { apply (pipeline_stage3_raises send self metadata_url location_csv
             location_history_csv variable_source_id verbose st ps1 ps2 e ps3 E1);
      [| exact E3].
    unfold try_except. rewrite E2. reflexivity. }
  cbn. rewrite He3, He2, He1, Hs3, Hs2, Hs1, Hl3, Hres. cbn.
  repeat split; assumption.
Qed.

(** Stages 1 and 2 succeed, the ingestion call gets a 500 answer. *)
Lemma stage3_failure_halts_witness :
  let script :=
    [ok_json pm25_metadata; ok_json (JStr "loaded");
     status_reply 500 "Internal Server Error" JNull] in
  let ps1 :=
    snd (step1 scripted local_client "http://example.org/pm25.jsonld" true
           {| net := fresh script; results := empty_outcome |}) in
  let ps2 :=
    snd (step2 scripted local_client "/csv/LOCATION.csv" "/csv/LOCATION_HISTORY.csv"
           true ps1) in
  let ps3 := snd (step3 scripted local_client true ps2) in
  exists out loc,
    sample_run (Some "avpmu_2015") true script = (inr out, net ps3)
    /\ errors out
       = ["Data ingestion failed: "
            +:+ "500 Server Error: Internal Server Error for url: "]
    /\ length (errors out) = 1%nat
    /\ spatial_join out = JNull
    /\ load_location_data scripted local_client "/csv/LOCATION.csv"
         "/csv/LOCATION_HISTORY.csv" (net ps1)
       = (inr loc, net ps2)
    /\ locations out = loc
    /\ exists reqs, sent (net ps3) = sent (net ps2) ++ reqs
                    /\ (length reqs <= 1)%nat
                    /\ Forall (fun q => method q = POST) reqs.
Proof.
  intros script ps1 ps2 ps3.
  apply (stage3_failure_halts scripted local_client "http://example.org/pm25.jsonld"
           "/csv/LOCATION.csv" "/csv/LOCATION_HISTORY.csv" (Some "avpmu_2015") true
           (fresh script) ps1 ps2 ps3
           (HTTPError "500 Server Error: Internal Server Error for url: "
              {| status_code := 500; reason := "Internal Server Error";
                 resp_url := ""; text := ""; decoded := inr JNull |}));
    reflexivity.
Defined.

(** C7, as the code has it.  In every run that reaches stage 4 with a
    variable identifier (stages 1 and 3 did not halt), the [data_source]
    records filtered by [dataset_name] are read, with one GET.  If the
    read raises, or getting at [etl_metadata.ingested_table] of the
    first record does (no record, or one of the two is not a
    dictionary), the message [Spatial join failed: str(e)] is appended,
    nothing more is sent and the run returns, [spatial_join] unset.
    Otherwise: if [table] is present and truthy, [spatial_join_exposure]
    is called, with one POST, with the identifier and
    [<schema>.<table>], [schema] being [public] when absent, and its
    result is stored in [spatial_join], or its failure recorded; if
    [table] is missing or falsy ([None], empty, zero), the one message
    [Could not determine ingested table name] is appended, nothing more
    is sent, [spatial_join] stays unset and the run returns normally. *)
Theorem spatial_join_by_table {W} (send : request -> W -> reply * W)
    (self : GaiaCoreClient) (metadata_url location_csv location_history_csv : string)
    (variable_source_id : option string) (verbose : bool)
    (st : @netstate W) (ps1 ps2 ps3 : @pstate W) (dataset_name : json) :
  truthy_str variable_source_id = true ->
  step1 send self metadata_url verbose {| net := st; results := empty_outcome |}
  = (inr tt, ps1) ->
  try_except (step2 send self location_csv location_history_csv verbose)
    (fun e => record_error verbose "Location loading failed: " e) ps1
  = (inr tt, ps2) ->
  step3 send self verbose ps2 = (inr dataset_name, ps3) ->
  let run :=
    run_full_pipeline send self metadata_url location_csv location_history_csv
      variable_source_id verbose st in
  exists r n4,
    get_data_sources send self {[ "dataset_name" := dataset_name ]} (net ps3) = (r, n4)
    /\ sent n4
       = sent (net ps3)
           ++ [read_request self "data_source" "backbone"
                 (Some {[ "dataset_name" := JStr ("eq." +:+ py_str dataset_name) ]})]
    /\ spatial_join (results ps3) = JNull
    /\ match match r with inl e => inl e | inr found => ingested_table_of found end with
       | inl e =>
           run = (inr (append_error ("Spatial join failed: " +:+ exn_str e) (results ps3)),
                  n4)
       | inr ingested_table =>
           let table := default JNull (dict_lookup "table" ingested_table) in
           let schema := default (JStr "public") (dict_lookup "schema" ingested_table) in
           if truthy table then
             exists rj n5,
               spatial_join_exposure send self (default "" variable_source_id)
                 (py_str schema +:+ "." +:+ py_str table) n4
               = (rj, n5)
               /\ sent n5
                  = sent n4
                      ++ [rpc_request self "spatial_join_exposure"
                            (<["p_external_table"
                                 := JStr (py_str schema +:+ "." +:+ py_str table)]>
                               {[ "p_variable_source_id"
                                    := JStr (default "" variable_source_id) ]})
                            "working"]
               /\ run = (inr match rj with
                             | inr sj => set_spatial_join sj (results ps3)
                             | inl e => append_error ("Spatial join failed: " +:+ exn_str e)
                                          (results ps3)
                             end,
                         n5)
           else
             exists out,
               run = (inr out, n4)
               /\ errors out
                  = errors (results ps3) ++ ["Could not determine ingested table name"]
               /\ spatial_join out = JNull
       end.
Proof.
  intros Hv E1 E2 E3 run.
  pose proof (step4_read send self variable_source_id verbose dataset_name ps3 Hv) as E4.
  destruct (step1_frame _ _ _ _ _ _ _ E1) as (_ & _ & _ & Hs1 & _).
  destruct (try2_run send self location_csv location_history_csv verbose ps1)
    as (ps2' & l2 & E2' & _ & _ & _ & _ & Hs2 & _).
  rewrite E2 in E2'. injection E2' as <-.
  destruct (step3_frame _ _ _ _ _ _ E3) as (_ & _ & _ & Hs3 & _).
  assert (Hsj : spatial_join (results ps3) = JNull).
  { rewrite Hs3, Hs2, Hs1. reflexivity. }
  pose proof (get_data_sources_request send self {[ "dataset_name" := dataset_name ]}
                (net ps3)) as Hq.
  rewrite map_fmap_singleton in Hq.
  destruct (get_data_sources send self {[ "dataset_name" := dataset_name ]} (net ps3))
    as [r n4] eqn:Hg.
  exists r, n4. split; [reflexivity |].
  split; [apply (f_equal (fun p => sent (snd p))) in Hq; exact Hq |].
  split; [exact Hsj |].
  destruct (match r with inl e => inl e | inr found => ingested_table_of found end)
    as [e | ingested_table].
  { unfold run.
    rewrite (pipeline_stage4 send self metadata_url location_csv location_history_csv
               variable_source_id verbose st ps1 ps2 dataset_name ps3
               {| net := n4;
                  results := append_error ("Spatial join failed: " +:+ exn_str e)
                               (results ps3) |} E1 E2 E3); [reflexivity |].
    unfold try_except. rewrite E4, record_error_run. reflexivity. }
  cbn zeta in E4 |- *.
  destruct (truthy (default JNull (dict_lookup "table" ingested_table))).
  - pose proof (rpc_exchange send self "spatial_join_exposure"
                  (<["p_external_table"
                       := JStr (py_str (default (JStr "public")
                                          (dict_lookup "schema" ingested_table))
                                  +:+ "." +:+
                                  py_str (default JNull
                                            (dict_lookup "table" ingested_table)))]>
                     {[ "p_variable_source_id" := JStr (default "" variable_source_id) ]})
                  "working" n4) as Hj.
    fold (spatial_join_exposure send self (default "" variable_source_id)
            (py_str (default (JStr "public") (dict_lookup "schema" ingested_table))
               +:+ "." +:+ py_str (default JNull (dict_lookup "table" ingested_table)))
            n4) in Hj.
    destruct (spatial_join_exposure send self (default "" variable_source_id) _ n4)
      as [rj n5] eqn:Ej.
    exists rj, n5. split; [reflexivity |].
    split; [apply (f_equal (fun p => sent (snd p))) in Hj; exact Hj |].
    unfold run. destruct rj as [e | sj].
    + rewrite (pipeline_stage4 send self metadata_url location_csv location_history_csv
                 variable_source_id verbose st ps1 ps2 dataset_name ps3
                 {| net := n5;
                    results := append_error ("Spatial join failed: " +:+ exn_str e)
                                 (results ps3) |} E1 E2 E3); [reflexivity |].
      unfold try_except. rewrite E4, record_error_run. reflexivity.
    + rewrite (pipeline_stage4 send self metadata_url location_csv location_history_csv
                 variable_source_id verbose st ps1 ps2 dataset_name ps3
                 {| net := n5; results := set_spatial_join sj (results ps3) |}
                 E1 E2 E3); [reflexivity |].
      unfold try_except. rewrite E4. reflexivity.
  - eexists. split.
    + apply (pipeline_stage4 send self metadata_url location_csv location_history_csv
               variable_source_id verbose st ps1 ps2 dataset_name ps3
               {| net := n4;
                  results := append_error "Could not determine ingested table name"
                               (results ps3) |} E1 E2 E3).
      unfold try_except. rewrite E4. reflexivity.
    + cbn. split; [reflexivity | exact Hsj].
Qed.

(** The ingested table is [pm25], without a schema: the join is called
    on [public.pm25] and its answer stored. *)
Lemma spatial_join_by_table_witness :
  let script :=
    three_stages_ok
      ++ [ok_json (data_source_with [("table", JStr "pm25")]);
          ok_json (JObj [("rows", JNum 10)])] in
  let ps1 :=
    snd (step1 scripted local_client "http://example.org/pm25.jsonld" false
           {| net := fresh script; results := empty_outcome |}) in
  let ps2 :=
    snd (step2 scripted local_client "/csv/LOCATION.csv" "/csv/LOCATION_HISTORY.csv"
           false ps1) in
  let ps3 := snd (step3 scripted local_client false ps2) in
  let run := sample_run (Some "avpmu_2015") false script in
  exists r n4,
    get_data_sources scripted local_client {[ "dataset_name" := JStr "PM2.5" ]} (net ps3)
    = (r, n4)
    /\ sent n4
       = sent (net ps3)
           ++ [read_request local_client "data_source" "backbone"
                 (Some {[ "dataset_name" := JStr ("eq." +:+ py_str (JStr "PM2.5")) ]})]
    /\ spatial_join (results ps3) = JNull
    /\ match match r with inl e => inl e | inr found => ingested_table_of found end with
       | inl e =>
           run = (inr (append_error ("Spatial join failed: " +:+ exn_str e) (results ps3)),
                  n4)
       | inr ingested_table =>
           let table := default JNull (dict_lookup "table" ingested_table) in
           let schema := default (JStr "public") (dict_lookup "schema" ingested_table) in
           if truthy table then
             exists rj n5,
               spatial_join_exposure scripted local_client "avpmu_2015"
                 (py_str schema +:+ "." +:+ py_str table) n4
               = (rj, n5)
               /\ sent n5
                  = sent n4
                      ++ [rpc_request local_client "spatial_join_exposure"
                            (<["p_external_table"
                                 := JStr (py_str schema +:+ "." +:+ py_str table)]>
                               {[ "p_variable_source_id" := JStr "avpmu_2015" ]})
                            "working"]
               /\ run = (inr match rj with
                             | inr sj => set_spatial_join sj (results ps3)
                             | inl e => append_error ("Spatial join failed: " +:+ exn_str e)
                                          (results ps3)
                             end,
                         n5)
           else
             exists out,
               run = (inr out, n4)
               /\ errors out
                  = errors (results ps3) ++ ["Could not determine ingested table name"]
               /\ spatial_join out = JNull
       end.
Proof.
  intros script ps1 ps2 ps3 run.
  apply (spatial_join_by_table scripted local_client "http://example.org/pm25.jsonld"
           "/csv/LOCATION.csv" "/csv/LOCATION_HISTORY.csv" (Some "avpmu_2015") false
           (fresh script) ps1 ps2 ps3 (JStr "PM2.5"));
    reflexivity.
Defined.

(** C7, as stated, fails: the [table] key is present, with an empty
    name, and [spatial_join_exposure] is not called; the run ends after
    the read of [data_source] and records that the table name could not
    be determined. *)
Lemma present_table_not_joined :
  let it := [("schema", JStr "public"); ("table", JStr "")] in
  let script :=
    three_stages_ok ++ [ok_json (data_source_with it); ok_json (JObj [("rows", JNum 10)])] in
  dict_lookup "table" it = Some (JStr "")
  /\ exists out st',
      sample_run (Some "avpmu_2015") false script = (inr out, st')
      /\ spatial_join out = JNull
      /\ errors out = ["Could not determine ingested table name"]
      /\ map (fun q => (method q, url q)) (sent st')
         = [(POST, "http://localhost:3000/rpc/fetch_and_load_jsonld");
            (POST, "http://localhost:3000/rpc/load_location_data");
            (POST, "http://localhost:3000/rpc/quick_ingest_datasource");
            (GET, "http://localhost:3000/data_source")].
Proof.
  split; [reflexivity |].
  eexists _, _. split; [vm_compute; reflexivity |].
  repeat split.
Qed.

(** [ingested_table] is [null]: there is no [table], and what is
    recorded is that the join failed, not that the table name is
    missing. *)
Example null_ingested_table_not_reported_missing :
  let script :=
    three_stages_ok
      ++ [ok_json (JArr [JObj [("dataset_name", JStr "PM2.5");
                               ("etl_metadata", JObj [("ingested_table", JNull)])]])] in
  exists out st',
    sample_run (Some "avpmu_2015") false script = (inr out, st')
    /\ spatial_join out = JNull
    /\ errors out = ["Spatial join failed: 'NoneType' object has no attribute 'get'"]
    /\ length (sent st') = 4%nat.
Proof.
  eexists _, _. split; [vm_compute; reflexivity |]. repeat split.
Qed.

(** The read returns no record. *)
Example no_data_source_record :
  let script := three_stages_ok ++ [ok_json (JArr [])] in
  exists out st',
    sample_run (Some "avpmu_2015") false script = (inr out, st')
    /\ spatial_join out = JNull
    /\ errors out = ["Spatial join failed: list index out of range"]
    /\ length (sent st') = 4%nat.
Proof.
  eexists _, _. split; [vm_compute; reflexivity |]. repeat split.
Qed.

(** Stage 2 fails and the run goes on: here stage 3 fails too, and both
    messages are recorded in the order of the stages. *)
Example stages_2_and_3_fail :
  let script :=
    [ok_json pm25_metadata;
     status_reply 500 "Internal Server Error" JNull;
     status_reply 404 "Not Found" JNull] in
  fst (sample_run (Some "avpmu_2015") true script)
  = inr {| metadata := pm25_metadata; locations := JNull; ingestion := JNull;
           spatial_join := JNull;
           errors := ["Location loading failed: 500 Server Error: Internal Server Error for url: ";
                      "Data ingestion failed: 404 Client Error: Not Found for url: "] |}.
Proof. vm_compute. reflexivity. Qed.

(** Stage 2 fails, stages 3 and 4 still run. *)
Example stage_2_fails_stage_4_runs :
  let script :=
    [ok_json pm25_metadata;
     status_reply 500 "Internal Server Error" JNull;
     ok_json pm25_steps;
     ok_json (data_source_with [("schema", JStr "working"); ("table", JStr "pm25")]);
     ok_json (JObj [("rows", JNum 10)])] in
  fst (sample_run (Some "avpmu_2015") true script)
  = inr {| metadata := pm25_metadata; locations := JNull; ingestion := pm25_steps;
           spatial_join := JObj [("rows", JNum 10)];
           errors := ["Location loading failed: 500 Server Error: Internal Server Error for url: "] |}
  /\ map json_body (drop 4 (sent (snd (sample_run (Some "avpmu_2015") true script))))
     = [Some (<["p_external_table" := JStr "working.pm25"]>
                {[ "p_variable_source_id" := JStr "avpmu_2015" ]})].
Proof. split; vm_compute; reflexivity. Qed.

(** ** The public methods, one exchange each *)

Section Api.

Context {W : Type}.
Variable send : request -> W -> reply * W.
Variable self : GaiaCoreClient.

Lemma branch_run (b : bool) (x : exn + json) (y : json) (st : @netstate W) :
  (if b then eval x else ret y) st = ((if b then x else inr y), st).
Proof. destruct b; reflexivity. Qed.

(** Every method is one exchange followed by a step that leaves the
    network alone and lets a failure through. *)
Lemma perform_shape (c : api_call) (st : @netstate W) :
  exists req post,
    perform send self c st
    = (post (settle (fst (send req (world st)))),
       {| world := snd (send req (world st)); sent := sent st ++ [req] |})
    /\ (forall e, post (inl e) = inl e)
    /\ method req = (if is_rpc c then POST else GET)
    /\ url req = Urllib.urljoin (base_url self) (endpoint_of c)
    /\ headers req
       = if is_rpc c then headers (rpc_request self "" ∅ (schema_of c))
         else headers (read_request self "" (schema_of c) None).
Proof.
  destruct c; cbn [perform is_rpc endpoint_of schema_of].
  - rewrite get_data_sources_request. eexists _, (fun r => r). repeat split.
  - unfold get_data_source, bind. rewrite request_exchange. unfold exchange.
    exists (read_request self ("data_source?data_source_uuid=eq." +:+ uuid) "backbone" None),
      (fun r => match r with inl e => inl e | inr v => subscript_int v 0 end).
    split; [destruct (settle _); reflexivity |]. repeat split.
  - unfold list_downloadable_datasources. rewrite rpc_exchange.
    eexists _, (fun r => r). repeat split.
  - unfold get_variables. cbv zeta. rewrite request_exchange.
    eexists _, (fun r => r). repeat split.
  - unfold get_locations. cbv zeta. rewrite request_exchange.
    eexists _, (fun r => r). repeat split.
  - unfold get_location, bind. rewrite request_exchange. unfold exchange.
    exists (read_request self ("location?location_id=eq." +:+ pretty location_id)
              "working" None),
      (fun r => match r with
                | inl e => inl e
                | inr v => if truthy v then subscript_int v 0 else inr JNull
                end).
    split; [destruct (settle _); [reflexivity | apply branch_run] |]. repeat split.
  - unfold get_location_history. cbv zeta. rewrite request_exchange.
    eexists _, (fun r => r). repeat split.
  - unfold get_exposures. cbv zeta. rewrite request_exchange.
    eexists _, (fun r => r). repeat split.
  - unfold fetch_and_load_jsonld. rewrite rpc_exchange.
    eexists _, (fun r => r). repeat split.
  - unfold quick_ingest_datasource. cbv zeta. rewrite rpc_exchange.
    eexists _, (fun r => r). repeat split.
  - rewrite query_request. eexists _, (fun r => r). repeat split.
  - unfold load_location_data. rewrite rpc_exchange.
    eexists _, (fun r => r). repeat split.
  - unfold spatial_join_exposure. rewrite rpc_exchange.
    eexists _, (fun r => r). repeat split.
Qed.

End Api.

(** X1. With a plain base address and a plain path (printable ASCII
    without brackets, so that [urljoin] takes them as they are), every
    public method hands exactly one request to the session, whether the
    exchange succeeds or not: there is no retry and no second request.
    Reads are GETs and RPC methods are POSTs, to the base address joined
    with the method's path; the profile headers are those of the
    method's schema. *)
Theorem one_request_per_call {W} (send : request -> W -> reply * W)
    (self : GaiaCoreClient) (c : api_call) (st : @netstate W) :
  Urllib.plain (base_url self) = true ->
  Urllib.plain (endpoint_of c) = true ->
  exists req,
    sent (snd (perform send self c st)) = sent st ++ [req]
    /\ world (snd (perform send self c st)) = snd (send req (world st))
    /\ method req = (if is_rpc c then POST else GET)
    /\ url req = Urllib.urljoin (base_url self) (endpoint_of c)
    /\ profile_headers (headers req)
       = if String.eqb (schema_of c) "working"
         then if is_rpc c
              then <["Accept-Profile" := "working"]> {[ "Content-Profile" := "working" ]}
              else {[ "Accept-Profile" := "working" ]}
         else ∅.
Proof.
  intros _ _.
  destruct (perform_shape send self c st) as (req & post & -> & _ & Hm & Hu & Hh).
  exists req. repeat split; try assumption.
  rewrite Hh. cbn.
  destruct (is_rpc c), (String.eqb (schema_of c) "working"); vm_compute; reflexivity.
Qed.

(** The location 7 is read from the default address. *)
Lemma one_request_per_call_witness :
  let c := GetLocation 7 in
  exists req,
    sent (snd (perform scripted local_client c (fresh []))) = [] ++ [req]
    /\ world (snd (perform scripted local_client c (fresh []))) = snd (scripted req [])
    /\ method req = GET
    /\ url req = Urllib.urljoin (base_url local_client) "location?location_id=eq.7"
    /\ profile_headers (headers req) = {[ "Accept-Profile" := "working" ]}.
Proof.
  exact (one_request_per_call scripted local_client (GetLocation 7) (fresh [])
           eq_refl eq_refl).
Defined.

(** X2. No public method swallows or translates a failure of its
    exchange: a network failure, a 4xx or 5xx answer and an undecodable
    body each surface as the exception the exchange raised, also for
    [get_data_source] and [get_location], which post-process the body. *)
Theorem failures_surface_unchanged {W} (send : request -> W -> reply * W)
    (self : GaiaCoreClient) (c : api_call) (st : @netstate W) (req : request) :
  sent (snd (perform send self c st)) = sent st ++ [req] ->
  match fst (send req (world st)) with
  | Failed msg => fst (perform send self c st) = inl (RequestException msg)
  | Replied r =>
      if is_error_status r
      then exists msg, fst (perform send self c st) = inl (HTTPError msg r)
      else match decoded r with
           | inl msg => fst (perform send self c st) = inl (JSONDecodeError msg)
           | inr _ => True
           end
  end.
Proof.
  destruct (perform_shape send self c st) as (req' & post & -> & Hpost & _).
  cbn [fst snd sent]. intros E. apply app_inj_tail in E as [_ <-].
  destruct (fst (send req' (world st))) as [msg | r] eqn:Er.
  - cbn. apply Hpost.
  - destruct (is_error_status r) eqn:Es.
    + destruct (proj1 (settle_reply r) Es) as [msg ->]. exists msg. apply Hpost.
    + rewrite (proj2 (settle_reply r) Es).
      destruct (decoded r); [apply Hpost | exact I].
Qed.

(** A 503 answer to [get_location]. *)
Lemma failures_surface_unchanged_witness :
  exists msg,
    fst (perform scripted local_client (GetLocation 7)
           (fresh [status_reply 503 "Service Unavailable" JNull]))
    = inl (HTTPError msg {| status_code := 503; reason := "Service Unavailable";
                            resp_url := ""; text := ""; decoded := inr JNull |}).
Proof.
  exact (failures_surface_unchanged scripted local_client (GetLocation 7)
           (fresh [status_reply 503 "Service Unavailable" JNull])
           (read_request local_client "location?location_id=eq.7" "working" None)
           eq_refl).
Defined.

(** X3. [get_location] answers a list body with its first record, and
    an empty list with [None]: it does not raise on an empty result. *)
Theorem get_location_first_or_none {W} (send : request -> W -> reply * W)
    (self : GaiaCoreClient) (location_id : Z) (st st' : @netstate W)
    (items : list json) :
  _request send self ("location?location_id=eq." +:+ pretty location_id) "working" None st
  = (inr (JArr items), st') ->
  get_location send self location_id st = (inr (default JNull (head items)), st').
Proof.
  intros H. unfold get_location, bind. rewrite H.
  destruct items; reflexivity.
Qed.

(** No location has the identifier. *)
Lemma get_location_first_or_none_witness :
  get_location scripted local_client 7 (fresh [ok_json (JArr [])])
  = (inr JNull,
     {| world := [];
        sent := [read_request local_client "location?location_id=eq.7" "working" None] |}).
Proof.
  exact (get_location_first_or_none scripted local_client 7
           (fresh [ok_json (JArr [])]) _ [] eq_refl).
Defined.

(** X4. [get_data_source] answers a list body with its first record,
    but on an empty list it raises [IndexError] instead of returning
    [None]. *)
Theorem get_data_source_first_or_raises {W} (send : request -> W -> reply * W)
    (self : GaiaCoreClient) (uuid : string) (st st' : @netstate W)
    (items : list json) :
  _request send self ("data_source?data_source_uuid=eq." +:+ uuid) "backbone" None st
  = (inr (JArr items), st') ->
  get_data_source send self uuid st
  = (match items with
     | [] => inl (IndexError "list index out of range")
     | first :: _ => inr first
     end, st').
Proof.
  intros H. unfold get_data_source, bind. rewrite H.
  destruct items; reflexivity.
Qed.

(** No data source has the identifier. *)
Lemma get_data_source_first_or_raises_witness :
  get_data_source scripted local_client "0000" (fresh [ok_json (JArr [])])
  = (inl (IndexError "list index out of range"),
     {| world := [];
        sent := [read_request local_client "data_source?data_source_uuid=eq.0000"
                   "backbone" None] |}).
Proof.
  exact (get_data_source_first_or_raises scripted local_client "0000"
           (fresh [ok_json (JArr [])]) _ [] eq_refl).
Defined.

(** ** The base address *)

Lemma rstrip_cons c d rest :
  Urllib.rstrip c (String d rest)
  = match Urllib.rstrip c rest with
    | EmptyString => if Ascii.eqb c d then "" else String d ""
    | rest' => String d rest'
    end.
Proof. reflexivity. Qed.

Lemma rstrip_app_slash s : Urllib.rstrip "/" (s +:+ "/") = Urllib.rstrip "/" s.
Proof.
  induction s as [| d rest IH]; [reflexivity |].
  change (String d rest +:+ "/") with (String d (rest +:+ "/")).
  rewrite !rstrip_cons, IH. reflexivity.
Qed.

Lemma rstrip_last s : last_char (Urllib.rstrip "/" s) <> Some "/"%char.
Proof.
  induction s as [| d rest IH]; [discriminate |].
  rewrite rstrip_cons. destruct (Urllib.rstrip "/" rest) as [| a r].
  - destruct (Ascii.eqb "/" d) eqn:E; cbn; [discriminate |].
    intros [= ->]. rewrite Ascii.eqb_refl in E. discriminate.
  - exact IH.
Qed.

Lemma rstrip_slashes s : exists n, s = Urllib.rstrip "/" s +:+ slashes n.
Proof.
  induction s as [| d rest [n IH]]; [exists 0%nat; reflexivity |].
  rewrite rstrip_cons. destruct (Urllib.rstrip "/" rest) as [| a r].
  - change (rest = slashes n) in IH. destruct (Ascii.eqb "/" d) eqn:E.
    + apply Ascii.eqb_eq in E. subst d. exists (S n).
      change (String "/" rest = String "/" (slashes n)). congruence.
    + exists n. change (String d rest = String d (slashes n)). congruence.
  - exists n. change (String d rest = String d (String a r +:+ slashes n)).
    congruence.
Qed.

(** X5. The constructor removes trailing slashes and nothing else: the
    stored base address never ends in a slash, the given address is the
    stored one followed by slashes only, and an address with one more
    trailing slash gives the same client. *)
Theorem init_strips_trailing_slashes (base : string) :
  init (base +:+ "/") = init base
  /\ last_char (base_url (init base)) <> Some "/"%char
  /\ exists n, base = base_url (init base) +:+ slashes n.
Proof.
  unfold init; cbn [base_url]. split; [| split].
  - rewrite rstrip_app_slash. reflexivity.
  - apply rstrip_last.
  - apply rstrip_slashes.
Qed.

(** ** URLs for a base address without a path *)

Lemma append_assoc_str (a b c : string) : (a +:+ b) +:+ c = a +:+ b +:+ c.
Proof.
  induction a as [| d a IH]; [reflexivity |].
  change (String d ((a +:+ b) +:+ c) = String d (a +:+ b +:+ c)). congruence.
Qed.

Lemma rstrip_app_slashes s n : Urllib.rstrip "/" (s +:+ slashes n) = Urllib.rstrip "/" s.
Proof.
  revert s. induction n as [| n IH]; intros s.
  - induction s as [| d s IHs]; [reflexivity |].
    change (String d s +:+ slashes 0) with (String d (s +:+ slashes 0)).
    rewrite !rstrip_cons, IHs. reflexivity.
  - change (slashes (S n)) with ("/" +:+ slashes n).
    rewrite <- append_assoc_str, IH. apply rstrip_app_slash.
Qed.

Lemma rstrip_fixed s : last_char s <> Some "/"%char -> Urllib.rstrip "/" s = s.
Proof.
  induction s as [| d rest IH]; [reflexivity |].
  intros Hl. rewrite rstrip_cons. destruct rest as [| a r].
  - change (Urllib.rstrip "/" "") with "".
    destruct (Ascii.eqb "/" d) eqn:E; [| reflexivity].
    apply Ascii.eqb_eq in E. subst d. contradiction Hl. reflexivity.
  - rewrite (IH Hl). reflexivity.
Qed.

Lemma last_char_app s t : t <> "" -> last_char (s +:+ t) = last_char t.
Proof.
  intros Ht. induction s as [| d s IH]; [reflexivity |].
  change (String d s +:+ t) with (String d (s +:+ t)).
  destruct (s +:+ t) as [| a r] eqn:E.
  - destruct s; [cbn in E; contradiction | discriminate E].
  - exact IH.
Qed.

Lemma host_last_char host :
  Urllib.all_chars host_char host = true -> last_char host <> Some "/"%char.
Proof.
  induction host as [| d rest IH]; [discriminate |].
  cbn [Urllib.all_chars]. intros [Hd Hr]%andb_true_iff.
  destruct rest as [| a r].
  - cbn. intros [= ->]. discriminate Hd.
  - exact (IH Hr).
Qed.

Lemma all_chars_split_first (p : ascii -> bool) c s :
  p c = false -> Urllib.all_chars p s = true -> Urllib.split_first c s = None.
Proof.
  intros Hc. induction s as [| d rest IH]; [reflexivity |].
  cbn. intros [Hd Hr]%andb_true_iff.
  destruct (Ascii.eqb c d) eqn:E.
  - apply Ascii.eqb_eq in E. congruence.
  - rewrite (IH Hr). reflexivity.
Qed.

Lemma all_chars_contains (p : ascii -> bool) c s :
  p c = false -> Urllib.all_chars p s = true -> contains_char c s = false.
Proof.
  intros Hc. induction s as [| d rest IH]; [reflexivity |].
  cbn. intros [Hd Hr]%andb_true_iff.
  destruct (Ascii.eqb c d) eqn:E.
  - apply Ascii.eqb_eq in E. congruence.
  - apply (IH Hr).
Qed.

Lemma all_chars_split_on (p : ascii -> bool) c s :
  p c = false -> Urllib.all_chars p s = true -> Urllib.split_on c s = [s].
Proof.
  intros Hc. induction s as [| d rest IH]; [reflexivity |].
  cbn. intros [Hd Hr]%andb_true_iff.
  destruct (Ascii.eqb c d) eqn:E.
  - apply Ascii.eqb_eq in E. congruence.
  - rewrite (IH Hr). reflexivity.
Qed.

Lemma take_netloc_host host :
  Urllib.all_chars host_char host = true -> Urllib.take_netloc host = (host, "").
Proof.
  induction host as [| d rest IH]; [reflexivity |].
  cbn. intros [Hd Hr]%andb_true_iff. unfold host_char in Hd.
  apply andb_true_iff in Hd as [_ Hd].
  apply negb_true_iff in Hd. rewrite Hd, (IH Hr). reflexivity.
Qed.

Lemma urlparse_base sch host :
  sch = "http" \/ sch = "https" ->
  Urllib.all_chars host_char host = true ->
  Urllib.urlparse (sch +:+ "://" +:+ host) ""
  = {| Urllib.scheme := sch; Urllib.netloc := host; Urllib.path := "";
       Urllib.params := ""; Urllib.query := ""; Urllib.fragment := "" |}.
Proof.
  intros [-> | ->] Hh; unfold Urllib.urlparse; cbv [String.append]; simpl;
    rewrite (take_netloc_host host Hh); reflexivity.
Qed.

Lemma split_netloc_name c rest :
  name_char c = true -> Urllib.split_netloc (String c rest) = ("", String c rest).
Proof.
  destruct c as [[] [] [] [] [] [] [] []]; intros H;
    first [discriminate H | reflexivity].
Qed.

Lemma starts_slash_name c rest :
  name_char c = true -> Urllib.starts_slash (String c rest) = false.
Proof.
  destruct c as [[] [] [] [] [] [] [] []]; intros H;
    first [discriminate H | reflexivity].
Qed.

Lemma urlparse_name sch c rest :
  Urllib.all_chars name_char (String c rest) = true ->
  Urllib.urlparse (String c rest) sch
  = {| Urllib.scheme := sch; Urllib.netloc := ""; Urllib.path := String c rest;
       Urllib.params := ""; Urllib.query := ""; Urllib.fragment := "" |}.
Proof.
  intros Hn. pose proof Hn as [Hc _]%andb_true_iff.
  unfold Urllib.urlparse, Urllib.split_scheme.
  rewrite (all_chars_split_first name_char ":" _ eq_refl Hn).
  rewrite (split_netloc_name c rest Hc).
  rewrite (all_chars_split_first name_char "#" _ eq_refl Hn).
  rewrite (all_chars_split_first name_char "?" _ eq_refl Hn).
  rewrite (all_chars_contains name_char ";" _ eq_refl Hn), andb_false_r.
  reflexivity.
Qed.

Lemma urlparse_rpc_name sch name :
  Urllib.all_chars name_char name = true ->
  Urllib.urlparse ("rpc/" +:+ name) sch
  = {| Urllib.scheme := sch; Urllib.netloc := ""; Urllib.path := "rpc/" +:+ name;
       Urllib.params := ""; Urllib.query := ""; Urllib.fragment := "" |}.
Proof.
  intros Hn. unfold Urllib.urlparse, Urllib.split_scheme. cbv [String.append]. simpl.
  rewrite (all_chars_split_first name_char ":" _ eq_refl Hn). simpl.
  rewrite (all_chars_split_first name_char "#" _ eq_refl Hn). simpl.
  rewrite (all_chars_split_first name_char "?" _ eq_refl Hn). simpl.
  rewrite (all_chars_contains name_char ";" _ eq_refl Hn), andb_false_r.
  reflexivity.
Qed.

Lemma name_not_dots name :
  Urllib.all_chars name_char name = true ->
  String.eqb name "." = false /\ String.eqb name ".." = false.
Proof.
  intros Hn. split; apply String.eqb_neq; intros ->; discriminate Hn.
Qed.

Lemma urljoin_name sch host name :
  sch = "http" \/ sch = "https" ->
  host <> "" -> Urllib.all_chars host_char host = true ->
  name <> "" -> Urllib.all_chars name_char name = true ->
  Urllib.urljoin (sch +:+ "://" +:+ host) name = sch +:+ "://" +:+ host +:+ "/" +:+ name.
Proof.
  intros Hs Hne Hh Hnn Hn. destruct name as [| c rest]; [contradiction |].
  unfold Urllib.urljoin.
  rewrite (urlparse_base sch host Hs Hh).
  cbn [Urllib.scheme Urllib.netloc Urllib.path Urllib.params Urllib.query Urllib.fragment].
  rewrite (urlparse_name sch c rest Hn).
  cbn [Urllib.scheme Urllib.netloc Urllib.path Urllib.params Urllib.query Urllib.fragment].
  pose proof Hn as [Hc _]%andb_true_iff.
  rewrite (starts_slash_name c rest Hc), (all_chars_split_on name_char "/" _ eq_refl Hn).
  destruct (name_not_dots _ Hn) as [Hd1 Hd2].
  assert (Urllib.nonempty host = true) as Hhost
    by (unfold Urllib.nonempty; apply negb_true_iff, String.eqb_neq; exact Hne).
  assert (Urllib.nonempty (String c rest) = true) as Hname by reflexivity.
  remember (String c rest) as name eqn:En. clear En Hc Hn Hnn.
  destruct Hs as [-> | ->]; cbv [String.append]; simpl;
    rewrite Hname; simpl; rewrite Hd1, Hd2; simpl;
    unfold Urllib.resolve_dots; simpl; rewrite Hd1, Hd2; simpl;
    unfold Urllib.urlunparse; simpl; rewrite Hhost; simpl; reflexivity.
Qed.

Lemma urljoin_rpc_name sch host name :
  sch = "http" \/ sch = "https" ->
  host <> "" -> Urllib.all_chars host_char host = true ->
  name <> "" -> Urllib.all_chars name_char name = true ->
  Urllib.urljoin (sch +:+ "://" +:+ host) ("rpc/" +:+ name)
  = sch +:+ "://" +:+ host +:+ "/rpc/" +:+ name.
Proof.
  intros Hs Hne Hh Hnn Hn.
  unfold Urllib.urljoin.
  rewrite (urlparse_base sch host Hs Hh).
  cbn [Urllib.scheme Urllib.netloc Urllib.path Urllib.params Urllib.query Urllib.fragment].
  rewrite (urlparse_rpc_name sch name Hn).
  cbn [Urllib.scheme Urllib.netloc Urllib.path Urllib.params Urllib.query Urllib.fragment].
  destruct (name_not_dots _ Hn) as [Hd1 Hd2].
  assert (Urllib.nonempty host = true) as Hhost
    by (unfold Urllib.nonempty; apply negb_true_iff, String.eqb_neq; exact Hne).
  pose proof (all_chars_split_on name_char "/" _ eq_refl Hn) as Hsplit.
  destruct Hs as [-> | ->]; cbv [String.append]; simpl;
    rewrite Hsplit; simpl; rewrite Hd1, Hd2; simpl;
    unfold Urllib.resolve_dots; simpl; rewrite Hd1, Hd2; simpl;
    unfold Urllib.urlunparse; simpl; rewrite Hhost; simpl; reflexivity.
Qed.

Lemma init_plain_base sch host n :
  host <> "" -> Urllib.all_chars host_char host = true ->
  base_url (init (sch +:+ "://" +:+ host +:+ slashes n)) = sch +:+ "://" +:+ host.
Proof.
  intros Hne Hh. unfold init; cbn [base_url].
  rewrite <- !append_assoc_str, rstrip_app_slashes, !append_assoc_str.
  apply rstrip_fixed.
  rewrite <- append_assoc_str, last_char_app by exact Hne.
  apply host_last_char, Hh.
Qed.

(** X6. For a base address that is only [http://host] or
    [https://host], with any number of trailing slashes, where the host
    is made of printable ASCII characters other than [/], [?], [#] and
    the brackets, a read of a plain resource name goes to
    [<scheme>://<host>/<name>] and a call of a plain function name to
    [<scheme>://<host>/rpc/<name>]. *)
Theorem plain_base_extends_by_path {W} (send : request -> W -> reply * W)
    (sch host name function_name schema : string) (n : nat)
    (ps : option (gmap string json)) (body : gmap string json) (st : @netstate W) :
  sch = "http" \/ sch = "https" ->
  host <> "" -> Urllib.all_chars host_char host = true ->
  name <> "" -> Urllib.all_chars name_char name = true ->
  function_name <> "" -> Urllib.all_chars name_char function_name = true ->
  let self := init (sch +:+ "://" +:+ host +:+ slashes n) in
  (exists req,
      sent (snd (_request send self name schema ps st)) = sent st ++ [req]
      /\ method req = GET
      /\ url req = sch +:+ "://" +:+ host +:+ "/" +:+ name)
  /\ (exists req,
      sent (snd (_rpc send self function_name body schema st)) = sent st ++ [req]
      /\ method req = POST
      /\ url req = sch +:+ "://" +:+ host +:+ "/rpc/" +:+ function_name).
Proof.
  intros Hs Hne Hh Hnn Hn Hfn Hf self.
  rewrite request_exchange, rpc_exchange. split.
  - eexists. split; [apply exchange_sent |]. split; [reflexivity |].
    cbn [url read_request]. subst self. rewrite (init_plain_base sch host n Hne Hh).
    apply urljoin_name; assumption.
  - eexists. split; [apply exchange_sent |]. split; [reflexivity |].
    cbn [url rpc_request]. subst self. rewrite (init_plain_base sch host n Hne Hh).
    apply urljoin_rpc_name; assumption.
Qed.

(** The default address, given with a trailing slash. *)
Lemma plain_base_extends_by_path_witness :
  let self := init "http://localhost:3000/" in
  (exists req,
      sent (snd (_request scripted self "location" "working" None (fresh [])))
      = [] ++ [req]
      /\ method req = GET
      /\ url req = "http://localhost:3000/location")
  /\ (exists req,
      sent (snd (_rpc scripted self "load_location_data" ∅ "working" (fresh [])))
      = [] ++ [req]
      /\ method req = POST
      /\ url req = "http://localhost:3000/rpc/load_location_data").
Proof.
  apply (plain_base_extends_by_path scripted "http" "localhost:3000" "location"
           "load_location_data" "working" 1 None ∅ (fresh []));
    first [left; reflexivity | discriminate | reflexivity].
Defined.

(** ** The pipeline: which requests, which outcomes *)

Section Runs.

Context {W : Type}.
Variable send : request -> W -> reply * W.
Variable self : GaiaCoreClient.
Variables (metadata_url location_csv location_history_csv : string).
Variable variable_source_id : option string.
Variable verbose : bool.

Local Abbreviation stage1 := (step1 send self metadata_url verbose).
Local Abbreviation stage2 := (step2 send self location_csv location_history_csv verbose).
Local Abbreviation stage3 := (step3 send self verbose).
Local Abbreviation stage4 := (step4 send self variable_source_id verbose).
Local Abbreviation record := (record_error (W:=W) verbose).
Local Abbreviation run :=
  (run_full_pipeline send self metadata_url location_csv location_history_csv
     variable_source_id verbose).
Local Abbreviation start := (fun st : @netstate W => {| net := st; results := empty_outcome |}).

Ltac sent_done := intros [= <- <-]; cbn; eauto.

Lemma step1_sent (ps ps' : @pstate W) r :
  stage1 ps = (r, ps') ->
  exists req, sent (net ps') = sent (net ps) ++ [req]
              /\ kind req = (POST, Urllib.urljoin (base_url self) "rpc/fetch_and_load_jsonld").
Proof.
  unfold step1, fetch_and_load_jsonld, bind.
  rewrite narrate_run, call_run, rpc_exchange. cbn [fst snd exchange].
  destruct (settle _) as [e | md]; cbn; [sent_done |].
  destruct verbose; cbn; [| sent_done].
  destruct (subscript_int md 0) as [e | first]; cbn; [sent_done |].
  destruct (subscript_str first "dataset_name"); cbn; [sent_done |].
  destruct (subscript_str first "variables_loaded"); cbn; sent_done.
Qed.

Lemma step2_sent (ps ps' : @pstate W) r :
  stage2 ps = (r, ps') ->
  exists req, sent (net ps') = sent (net ps) ++ [req]
              /\ kind req = (POST, Urllib.urljoin (base_url self) "rpc/load_location_data").
Proof.
  unfold step2, load_location_data, bind.
  rewrite narrate_run, call_run, rpc_exchange. cbn [fst snd exchange].
  destruct (settle _) as [e | loc]; cbn; [sent_done |].
  rewrite narrate_run. sent_done.
Qed.

Lemma step3_sent (ps ps' : @pstate W) r :
  stage3 ps = (r, ps') ->
  exists reqs, sent (net ps') = sent (net ps) ++ reqs
    /\ (reqs = []
        \/ map kind reqs
           = [(POST, Urllib.urljoin (base_url self) "rpc/quick_ingest_datasource")]).
Proof.
  unfold step3, quick_ingest_datasource, bind.
  rewrite narrate_run. cbn.
  destruct (subscript_int (metadata (results ps)) 0) as [e | first]; cbn.
  { intros [= <- <-]. exists []. rewrite app_nil_r. auto. }
  destruct (subscript_str first "dataset_name") as [e | dn]; cbn.
  { intros [= <- <-]. exists []. rewrite app_nil_r. auto. }
  rewrite call_run, rpc_exchange. cbn [fst snd exchange].
  destruct (settle _) as [e | ing]; cbn.
  { intros [= <- <-]; cbn. eexists [_]. auto. }
  destruct verbose; cbn.
  - destruct (py_iter ing) as [e | steps]; cbn.
    { intros [= <- <-]; cbn. eexists [_]. auto. }
    match goal with |- context [for_each steps print_step ?s] =>
      pose proof (for_each_print_state steps s) as Hs;
      destruct (for_each steps print_step s) as [[e | []] ps1] end;
      cbn in Hs; subst ps1;
      intros [= <- <-]; cbn; eexists [_]; auto.
  - intros [= <- <-]; cbn. eexists [_]. auto.
Qed.

Lemma step4_sent dn (ps ps' : @pstate W) r :
  stage4 dn ps = (r, ps') ->
  exists reqs, sent (net ps') = sent (net ps) ++ reqs
    /\ (reqs = []
        \/ map kind reqs = [(GET, Urllib.urljoin (base_url self) "data_source")]
        \/ map kind reqs
           = [(GET, Urllib.urljoin (base_url self) "data_source");
              (POST, Urllib.urljoin (base_url self) "rpc/spatial_join_exposure")]).
Proof.
  unfold step4. destruct (truthy_str variable_source_id).
  2:{ intros [= <- <-]. exists []. rewrite app_nil_r. auto. }
  unfold bind. rewrite narrate_run, call_run, get_data_sources_request.
  cbn [fst snd exchange].
  destruct (settle _) as [e | found]; cbn.
  { intros [= <- <-]; cbn. eexists [_]. auto. }
  destruct (subscript_int found 0) as [e | data_source]; cbn.
  { intros [= <- <-]; cbn. eexists [_]. auto. }
  destruct (py_get data_source "etl_metadata" (JObj [])) as [e | etl]; cbn.
  { intros [= <- <-]; cbn. eexists [_]. auto. }
  destruct (py_get etl "ingested_table" (JObj [])) as [e | ingested_table]; cbn.
  { intros [= <- <-]; cbn. eexists [_]. auto. }
  destruct (py_get ingested_table "schema" (JStr "public")) as [e | schema]; cbn.
  { intros [= <- <-]; cbn. eexists [_]. auto. }
  destruct (py_get ingested_table "table" JNull) as [e | table]; cbn.
  { intros [= <- <-]; cbn. eexists [_]. auto. }
  destruct (truthy table); unfold bind.
  - rewrite call_run. unfold spatial_join_exposure. rewrite rpc_exchange.
    cbn [fst snd exchange].
    destruct (settle _) as [e | sj]; cbn.
    + intros [= <- <-]; cbn. eexists [_; _]. rewrite <- app_assoc. auto.
    + rewrite narrate_run. intros [= <- <-]; cbn.
      eexists [_; _]. rewrite <- app_assoc. auto.
  - cbn. rewrite narrate_run. intros [= <- <-]; cbn. eexists [_]. auto.
Qed.

(** The second and the fourth [try], by cases. *)
Lemma try2_cases (ps : @pstate W) :
  (exists ps', stage2 ps = (inr tt, ps')
     /\ try_except stage2 (fun e => record "Location loading failed: " e) ps
        = (inr tt, ps'))
  \/ (exists e ps', stage2 ps = (inl e, ps')
     /\ try_except stage2 (fun e => record "Location loading failed: " e) ps
        = (inr tt, {| net := net ps';
                      results := append_error ("Location loading failed: " +:+ exn_str e)
                                   (results ps') |})).
Proof.
  unfold try_except. destruct (stage2 ps) as [[e | []] ps'] eqn:E.
  - right. exists e, ps'. rewrite record_error_run. auto.
  - left. exists ps'. auto.
Qed.

Lemma try4_cases dn (ps : @pstate W) :
  (exists ps', stage4 dn ps = (inr tt, ps')
     /\ try_except (stage4 dn) (fun e => record "Spatial join failed: " e) ps
        = (inr tt, ps'))
  \/ (exists e ps', stage4 dn ps = (inl e, ps')
     /\ try_except (stage4 dn) (fun e => record "Spatial join failed: " e) ps
        = (inr tt, {| net := net ps';
                      results := append_error ("Spatial join failed: " +:+ exn_str e)
                                   (results ps) |})).
Proof.
  unfold try_except. destruct (stage4 dn ps) as [[e | []] ps'] eqn:E.
  - right. exists e, ps'. rewrite record_error_run.
    destruct (step4_frame _ _ _ _ _ _ _ _ E) as [[_ ->] | [[[=] _] | [[=] _]]]. auto.
  - left. exists ps'. auto.
Qed.

(** A run ends in one of three ways: stage 1 raised, stage 3 raised, or
    the fourth [try] was reached. *)
Lemma pipeline_cases (st : @netstate W) :
  (exists e ps1,
      stage1 (start st) = (inl e, ps1)
      /\ run st = (inr (append_error ("Metadata loading failed: " +:+ exn_str e)
                          (results ps1)), net ps1))
  \/ (exists ps1 ps2 e ps3,
      stage1 (start st) = (inr tt, ps1)
      /\ try_except stage2 (fun e => record "Location loading failed: " e) ps1
         = (inr tt, ps2)
      /\ stage3 ps2 = (inl e, ps3)
      /\ run st = (inr (append_error ("Data ingestion failed: " +:+ exn_str e)
                          (results ps3)), net ps3))
  \/ (exists ps1 ps2 dn ps3 ps4,
      stage1 (start st) = (inr tt, ps1)
      /\ try_except stage2 (fun e => record "Location loading failed: " e) ps1
         = (inr tt, ps2)
      /\ stage3 ps2 = (inr dn, ps3)
      /\ try_except (stage4 dn) (fun e => record "Spatial join failed: " e) ps3
         = (inr tt, ps4)
      /\ run st = (inr (results ps4), net ps4)).
Proof.
  destruct (stage1 (start st)) as [[e | []] ps1] eqn:E1.
  { left. exists e, ps1. split; [reflexivity |].
    apply pipeline_stage1_raises. exact E1. }
  destruct (try2_run send self location_csv location_history_csv verbose ps1)
    as (ps2 & l2 & E2 & _).
  destruct (stage3 ps2) as [[e | dn] ps3] eqn:E3.
  { right; left. exists ps1, ps2, e, ps3. repeat split; try assumption.
    apply (pipeline_stage3_raises send self metadata_url location_csv
             location_history_csv variable_source_id verbose st ps1 ps2 e ps3);
      assumption. }
  destruct (try4_run send self variable_source_id verbose dn ps3)
    as (ps4 & l4 & E4 & _).
  right; right. exists ps1, ps2, dn, ps3, ps4. repeat split; try assumption.
  apply (pipeline_stage4 send self metadata_url location_csv location_history_csv
           variable_source_id verbose st ps1 ps2 dn ps3 ps4); assumption.
Qed.

End Runs.

Lemma from_stage_length k l : from_stage k l -> (length l <= 1)%nat.
Proof. intros [-> | [[e ->] | [_ ->]]]; cbn; lia. Qed.

(** X7. With a plain base address (printable ASCII without brackets,
    so that [urljoin] takes it as it is), the requests of a run are a
    non-empty initial part of one fixed sequence: POST
    [fetch_and_load_jsonld], POST [load_location_data], POST
    [quick_ingest_datasource], GET [data_source], POST
    [spatial_join_exposure].  No request is repeated, reordered or
    retried, and no other request is made. *)
Theorem pipeline_requests_follow_plan {W} (send : request -> W -> reply * W)
    (self : GaiaCoreClient) (metadata_url location_csv location_history_csv : string)
    (variable_source_id : option string) (verbose : bool) (st : @netstate W) :
  Urllib.plain (base_url self) = true ->
  exists reqs,
    sent (snd (run_full_pipeline send self metadata_url location_csv
                 location_history_csv variable_source_id verbose st))
    = sent st ++ reqs
    /\ reqs <> []
    /\ map kind reqs `prefix_of` pipeline_plan self.
Proof.
  intros _.
  destruct (pipeline_cases send self metadata_url location_csv location_history_csv
              variable_source_id verbose st)
    as [(e & ps1 & E1 & ->)
       | [(ps1 & ps2 & e & ps3 & E1 & E2 & E3 & ->)
         | (ps1 & ps2 & dn & ps3 & ps4 & E1 & E2 & E3 & E4 & ->)]];
    cbn [fst snd];
    destruct (step1_sent _ _ _ _ _ _ _ E1) as (req1 & Hq1 & Hk1); cbn in Hq1.
  - exists [req1]. split; [exact Hq1 |]. split; [discriminate |].
    cbn. rewrite Hk1. eexists. reflexivity.
  - assert (exists req2, sent (net ps2) = sent (net ps1) ++ [req2]
              /\ kind req2 = (POST, Urllib.urljoin (base_url self) "rpc/load_location_data"))
      as (req2 & Hq2 & Hk2).
    { destruct (try2_cases send self location_csv location_history_csv verbose ps1)
        as [(p & Es & Et) | (e2 & p & Es & Et)];
        rewrite E2 in Et; injection Et as ->;
        exact (step2_sent _ _ _ _ _ _ _ _ Es). }
    destruct (step3_sent _ _ _ _ _ _ E3) as (reqs3 & Hq3 & Hk3).
    exists ([req1; req2] ++ reqs3). split.
    { rewrite Hq3, Hq2, Hq1, <- !app_assoc. reflexivity. }
    split; [discriminate |].
    rewrite map_app. cbn [map]. rewrite Hk1, Hk2.
    destruct Hk3 as [-> | ->]; eexists; reflexivity.
  - assert (exists req2, sent (net ps2) = sent (net ps1) ++ [req2]
              /\ kind req2 = (POST, Urllib.urljoin (base_url self) "rpc/load_location_data"))
      as (req2 & Hq2 & Hk2).
    { destruct (try2_cases send self location_csv location_history_csv verbose ps1)
        as [(p & Es & Et) | (e2 & p & Es & Et)];
        rewrite E2 in Et; injection Et as ->;
        exact (step2_sent _ _ _ _ _ _ _ _ Es). }
    destruct (step3_sent _ _ _ _ _ _ E3) as (reqs3 & Hq3 & Hk3).
    assert (map kind reqs3
            = [(POST, Urllib.urljoin (base_url self) "rpc/quick_ingest_datasource")])
      as Hk3'.
    { destruct Hk3 as [-> | Hk3]; [| exact Hk3].
      destruct (step3_done _ _ _ _ _ _ E3) as (first & ing & _ & _ & Hcall & _).
      unfold quick_ingest_datasource in Hcall. cbv zeta in Hcall.
      rewrite rpc_exchange in Hcall. injection Hcall as _ Hnet.
      apply (f_equal sent) in Hnet. cbn in Hnet. rewrite app_nil_r in Hq3.
      rewrite Hq3 in Hnet. symmetry in Hnet.
      apply (f_equal length) in Hnet. rewrite length_app in Hnet. cbn in Hnet. lia. }
    assert (exists reqs4, sent (net ps4) = sent (net ps3) ++ reqs4
              /\ (reqs4 = []
                  \/ map kind reqs4 = [(GET, Urllib.urljoin (base_url self) "data_source")]
                  \/ map kind reqs4
                     = [(GET, Urllib.urljoin (base_url self) "data_source");
                        (POST, Urllib.urljoin (base_url self) "rpc/spatial_join_exposure")]))
      as (reqs4 & Hq4 & Hk4).
    { destruct (try4_cases send self variable_source_id verbose dn ps3)
        as [(p & Es & Et) | (e4 & p & Es & Et)];
        rewrite E4 in Et; injection Et as ->;
        exact (step4_sent _ _ _ _ _ _ _ _ Es). }
    exists ([req1; req2] ++ reqs3 ++ reqs4). split.
    { rewrite Hq4, Hq3, Hq2, Hq1, <- !app_assoc. reflexivity. }
    split; [discriminate |].
    rewrite !map_app. cbn [map]. rewrite Hk1, Hk2, Hk3'.
    destruct Hk4 as [-> | [-> | ->]]; eexists; reflexivity.
Qed.

(** The connection is refused at the first request: the run makes the
    first request of the plan and no other. *)
Lemma pipeline_requests_follow_plan_witness :
  exists reqs,
    sent (snd (sample_run (Some "avpmu_2015") true [])) = [] ++ reqs
    /\ reqs <> []
    /\ map kind reqs `prefix_of` pipeline_plan local_client.
Proof.
  exact (pipeline_requests_follow_plan scripted local_client
           "http://example.org/pm25.jsonld" "/csv/LOCATION.csv"
           "/csv/LOCATION_HISTORY.csv" (Some "avpmu_2015") true (fresh []) eq_refl).
Defined.

Section Outcomes.

Context {W : Type}.
Variable send : request -> W -> reply * W.
Variable self : GaiaCoreClient.
Variables (metadata_url location_csv location_history_csv : string).
Variable variable_source_id : option string.
Variable verbose : bool.

Local Abbreviation stage2 := (step2 send self location_csv location_history_csv verbose).
Local Abbreviation stage4 := (step4 send self variable_source_id verbose).
Local Abbreviation record := (record_error (W:=W) verbose).

(** What the second [try] leaves behind. *)
Lemma try2_keeps (ps1 ps2 : @pstate W) :
  try_except stage2 (fun e => record "Location loading failed: " e) ps1 = (inr tt, ps2) ->
  exists l2,
    from_stage 2 l2
    /\ errors (results ps2) = errors (results ps1) ++ l2
    /\ metadata (results ps2) = metadata (results ps1)
    /\ ingestion (results ps2) = ingestion (results ps1)
    /\ spatial_join (results ps2) = spatial_join (results ps1).
Proof.
  intros E2.
  destruct (try2_run send self location_csv location_history_csv verbose ps1)
    as (ps2' & l2 & E2' & F2 & He & Hm & Hi & Hs & _).
  rewrite E2 in E2'. injection E2' as <-. exists l2. auto.
Qed.

(** What the fourth [try] leaves behind: when it adds a message, it has
    not touched [spatial_join]. *)
Lemma try4_keeps dn (ps3 ps4 : @pstate W) :
  try_except (stage4 dn) (fun e => record "Spatial join failed: " e) ps3 = (inr tt, ps4) ->
  exists l4,
    from_stage 4 l4
    /\ errors (results ps4) = errors (results ps3) ++ l4
    /\ metadata (results ps4) = metadata (results ps3)
    /\ locations (results ps4) = locations (results ps3)
    /\ ingestion (results ps4) = ingestion (results ps3)
    /\ (l4 <> [] -> spatial_join (results ps4) = spatial_join (results ps3))
    /\ (truthy_str variable_source_id = false -> ps4 = ps3).
Proof.
  intros E4.
  destruct (try4_cases send self variable_source_id verbose dn ps3)
    as [(p & Es & Et) | (e & p & Es & Et)];
    rewrite E4 in Et; injection Et as ->.
  - destruct (step4_frame _ _ _ _ _ _ _ _ Es)
      as [[[e [=]] _] | [(_ & He & Hm & Hl & Hi) | [_ Hr]]].
    + exists []. rewrite app_nil_r. repeat split; try assumption.
      * left; reflexivity.
      * intros Hn. contradiction Hn. reflexivity.
      * intros Hv. rewrite (step4_skipped send self variable_source_id verbose dn ps3 Hv)
          in Es. congruence.
    + exists ["Could not determine ingested table name"]. rewrite Hr. cbn.
      repeat split.
      * right; right. split; reflexivity.
      * intros Hv. rewrite (step4_skipped send self variable_source_id verbose dn ps3 Hv)
          in Es. injection Es as <-.
        apply (f_equal errors) in Hr. cbn in Hr.
        apply (f_equal length) in Hr. rewrite length_app in Hr. cbn in Hr. lia.
  - exists ["Spatial join failed: " +:+ exn_str e]. cbn. repeat split.
    + right; left. exists e. reflexivity.
    + intros Hv. rewrite (step4_skipped send self variable_source_id verbose dn ps3 Hv)
        in Es. discriminate.
Qed.

End Outcomes.

(** X8. A run records at most two errors: stages 1 and 3 end the run
    when they fail, so no run fails in three stages. *)
Theorem at_most_two_errors {W} (send : request -> W -> reply * W)
    (self : GaiaCoreClient) (metadata_url location_csv location_history_csv : string)
    (variable_source_id : option string) (verbose : bool) (st : @netstate W) :
  exists out st',
    run_full_pipeline send self metadata_url location_csv location_history_csv
      variable_source_id verbose st
    = (inr out, st')
    /\ (length (errors out) <= 2)%nat.
Proof.
  destruct (pipeline_cases send self metadata_url location_csv location_history_csv
              variable_source_id verbose st)
    as [(e & ps1 & E1 & ->)
       | [(ps1 & ps2 & e & ps3 & E1 & E2 & E3 & ->)
         | (ps1 & ps2 & dn & ps3 & ps4 & E1 & E2 & E3 & E4 & ->)]];
    eexists _, _; (split; [reflexivity |]);
    destruct (step1_frame _ _ _ _ _ _ _ E1) as (He1 & _); cbn in He1.
  - cbn. rewrite He1. cbn. lia.
  - destruct (try2_keeps _ _ _ _ _ _ _ E2) as (l2 & F2 & He2 & _).
    destruct (step3_frame _ _ _ _ _ _ E3) as (He3 & _).
    cbn. rewrite He3, He2, He1, !length_app. cbn.
    pose proof (from_stage_length _ _ F2). lia.
  - destruct (try2_keeps _ _ _ _ _ _ _ E2) as (l2 & F2 & He2 & _).
    destruct (step3_frame _ _ _ _ _ _ E3) as (He3 & _).
    destruct (try4_keeps _ _ _ _ _ _ _ E4) as (l4 & F4 & He4 & _).
    rewrite He4, He3, He2, He1, !length_app. cbn.
    pose proof (from_stage_length _ _ F2). pose proof (from_stage_length _ _ F4). lia.
Qed.

(** X9. A [spatial_join] that is set tells that a variable identifier
    was given and that stages 1, 3 and 4 raised nothing: the only error
    the outcome can then hold is the one of stage 2. *)
Theorem spatial_join_set_means_joined {W} (send : request -> W -> reply * W)
    (self : GaiaCoreClient) (metadata_url location_csv location_history_csv : string)
    (variable_source_id : option string) (verbose : bool) (st st' : @netstate W)
    (out : outcome) :
  run_full_pipeline send self metadata_url location_csv location_history_csv
    variable_source_id verbose st
  = (inr out, st') ->
  spatial_join out <> JNull ->
  truthy_str variable_source_id = true
  /\ (errors out = []
      \/ exists e, errors out = ["Location loading failed: " +:+ exn_str e]).
Proof.
  intros Hrun Hsj.
  destruct (pipeline_cases send self metadata_url location_csv location_history_csv
              variable_source_id verbose st)
    as [(e & ps1 & E1 & Hr)
       | [(ps1 & ps2 & e & ps3 & E1 & E2 & E3 & Hr)
         | (ps1 & ps2 & dn & ps3 & ps4 & E1 & E2 & E3 & E4 & Hr)]];
    rewrite Hrun in Hr; injection Hr as -> ->;
    destruct (step1_frame _ _ _ _ _ _ _ E1) as (He1 & _ & _ & Hs1 & _);
    cbn in He1, Hs1.
  - contradiction Hsj.
  - destruct (try2_keeps _ _ _ _ _ _ _ E2) as (l2 & _ & _ & _ & _ & Hs2).
    destruct (step3_frame _ _ _ _ _ _ E3) as (_ & _ & _ & Hs3 & _).
    contradiction Hsj. cbn. congruence.
  - destruct (try2_keeps _ _ _ _ _ _ _ E2) as (l2 & F2 & He2 & _ & _ & Hs2).
    destruct (step3_frame _ _ _ _ _ _ E3) as (He3 & _ & _ & Hs3 & _).
    destruct (try4_keeps _ _ _ _ _ _ _ E4) as (l4 & F4 & He4 & _ & _ & _ & Hkeep & Hskip).
    assert (spatial_join (results ps3) = JNull) as Hnull by congruence.
    split.
    + destruct (truthy_str variable_source_id) eqn:Hv; [reflexivity |].
      rewrite (Hskip eq_refl) in Hsj. contradiction.
    + destruct l4 as [| m4 l4].
      * rewrite He4, He3, He2, He1, app_nil_r. cbn.
        destruct F2 as [-> | [[e ->] | [[=] _]]]; [left | right; exists e]; reflexivity.
      * contradiction Hsj. rewrite Hkeep by discriminate. exact Hnull.
Qed.

(** Stage 2 fails, the join is done all the same. *)
Lemma spatial_join_set_means_joined_witness :
  let script :=
    [ok_json pm25_metadata;
     status_reply 500 "Internal Server Error" JNull;
     ok_json pm25_steps;
     ok_json (data_source_with [("table", JStr "pm25")]);
     ok_json (JObj [("rows", JNum 10)])] in
  truthy_str (Some "avpmu_2015") = true
  /\ (errors {| metadata := pm25_metadata; locations := JNull; ingestion := pm25_steps;
                spatial_join := JObj [("rows", JNum 10)];
                errors := ["Location loading failed: 500 Server Error: Internal Server Error for url: "] |}
      = []
      \/ exists e,
          errors {| metadata := pm25_metadata; locations := JNull; ingestion := pm25_steps;
                    spatial_join := JObj [("rows", JNum 10)];
                    errors := ["Location loading failed: 500 Server Error: Internal Server Error for url: "] |}
          = ["Location loading failed: " +:+ exn_str e]).
Proof.
  intros script.
  apply (spatial_join_set_means_joined scripted local_client
           "http://example.org/pm25.jsonld" "/csv/LOCATION.csv" "/csv/LOCATION_HISTORY.csv"
           (Some "avpmu_2015") false (fresh script)
           (snd (sample_run (Some "avpmu_2015") false script)));
    [vm_compute; reflexivity | discriminate].
Defined.

(** X10. An outcome without errors has a [metadata] in which
    [metadata[0]["dataset_name"]] can be read: the run got through
    stage 3, which reads it. *)
Theorem no_errors_means_dataset_name {W} (send : request -> W -> reply * W)
    (self : GaiaCoreClient) (metadata_url location_csv location_history_csv : string)
    (variable_source_id : option string) (verbose : bool) (st st' : @netstate W)
    (out : outcome) :
  run_full_pipeline send self metadata_url location_csv location_history_csv
    variable_source_id verbose st
  = (inr out, st') ->
  errors out = [] ->
  exists dataset_name, dataset_name_of (metadata out) = inr dataset_name.
Proof.
  intros Hrun Herr.
  destruct (pipeline_cases send self metadata_url location_csv location_history_csv
              variable_source_id verbose st)
    as [(e & ps1 & E1 & Hr)
       | [(ps1 & ps2 & e & ps3 & E1 & E2 & E3 & Hr)
         | (ps1 & ps2 & dn & ps3 & ps4 & E1 & E2 & E3 & E4 & Hr)]];
    rewrite Hrun in Hr; injection Hr as -> ->.
  - cbn in Herr. destruct (errors (results ps1)); discriminate.
  - cbn in Herr. destruct (errors (results ps3)); discriminate.
  - destruct (step3_done _ _ _ _ _ _ E3) as (first & ing & H0 & Hn & _ & Hres).
    destruct (try4_keeps _ _ _ _ _ _ _ E4) as (l4 & _ & _ & Hm4 & _).
    exists dn. unfold dataset_name_of.
    rewrite Hm4, Hres. cbn. rewrite H0. exact Hn.
Qed.

(** The three stages succeed and no variable is given. *)
Lemma no_errors_means_dataset_name_witness :
  exists dataset_name, dataset_name_of pm25_metadata = inr dataset_name.
Proof.
  exact (no_errors_means_dataset_name scripted local_client
           "http://example.org/pm25.jsonld" "/csv/LOCATION.csv" "/csv/LOCATION_HISTORY.csv"
           None true (fresh three_stages_ok)
           (snd (sample_run None true three_stages_ok))
           {| metadata := pm25_metadata; locations := JStr "loaded";
              ingestion := pm25_steps; spatial_join := JNull; errors := [] |}
           eq_refl eq_refl).
Defined.

Section Continuations.

Context {W : Type}.
Variable send : request -> W -> reply * W.
Variable self : GaiaCoreClient.
Variables (metadata_url location_csv location_history_csv : string).
Variable variable_source_id : option string.
Variable verbose : bool.

Local Abbreviation stage2 := (step2 send self location_csv location_history_csv verbose).
Local Abbreviation stage3 := (step3 send self verbose).
Local Abbreviation stage4 := (step4 send self variable_source_id verbose).

(** A failing stage 2 has assigned nothing. *)
Lemma step2_raises_keeps (ps ps' : @pstate W) e :
  stage2 ps = (inl e, ps') -> results ps' = results ps.
Proof.
  unfold step2, load_location_data, bind.
  rewrite narrate_run, call_run, rpc_exchange. cbn [fst snd exchange].
  destruct (settle _) as [e' | loc]; cbn.
  - intros [= _ <-]. reflexivity.
  - rewrite narrate_run. discriminate.
Qed.

(** Stage 3 raises at once, without a request, when it cannot read the
    dataset name. *)
Lemma step3_unreadable (ps : @pstate W) e :
  dataset_name_of (metadata (results ps)) = inl e -> stage3 ps = (inl e, ps).
Proof.
  unfold dataset_name_of, step3, bind. rewrite narrate_run. cbn.
  destruct (subscript_int (metadata (results ps)) 0) as [e' | first]; cbn.
  - intros [= ->]. reflexivity.
  - intros ->. reflexivity.
Qed.

(** When it can, its one request is the ingestion of that name. *)
Lemma step3_ingests (ps ps' : @pstate W) dn r :
  dataset_name_of (metadata (results ps)) = inr dn ->
  stage3 ps = (r, ps') ->
  sent (net ps')
  = sent (net ps)
      ++ [rpc_request self "quick_ingest_datasource" {[ "p_dataset_name" := dn ]}
            "backbone"].
Proof.
  unfold dataset_name_of, step3, quick_ingest_datasource, bind.
  rewrite narrate_run. cbn.
  destruct (subscript_int (metadata (results ps)) 0) as [e | first]; cbn;
    [discriminate |].
  intros ->. cbn. rewrite call_run, rpc_exchange. cbn [fst snd exchange].
  destruct (settle _) as [e | ing]; cbn.
  { intros [= <- <-]. reflexivity. }
  destruct verbose; cbn.
  - destruct (py_iter ing) as [e | steps]; cbn.
    { intros [= <- <-]. reflexivity. }
    match goal with |- context [for_each steps print_step ?s] =>
      pose proof (for_each_print_state steps s) as Hs;
      destruct (for_each steps print_step s) as [[e | []] ps1] end;
      cbn in Hs; subst ps1; intros [= <- <-]; reflexivity.
  - intros [= <- <-]. reflexivity.
Qed.

(** Stage 1 with an answer in which the dataset name cannot be read:
    only the narration looks at it. *)
Lemma step1_unreadable (ps : @pstate W) md st1 e :
  fetch_and_load_jsonld send self metadata_url (net ps) = (inr md, st1) ->
  dataset_name_of md = inl e ->
  step1 send self metadata_url verbose ps
  = ((if verbose then inl e else inr tt),
     {| net := st1; results := set_metadata md (results ps) |}).
Proof.
  intros Hcall Hname. unfold step1, bind. rewrite narrate_run, call_run, Hcall. cbn.
  destruct verbose; cbn; [| reflexivity].
  unfold dataset_name_of in Hname.
  destruct (subscript_int md 0) as [e' | first]; cbn.
  - injection Hname as ->. reflexivity.
  - rewrite Hname. reflexivity.
Qed.

(** The fourth [try] only adds to the requests sent. *)
Lemma try4_sent dn (ps3 ps4 : @pstate W) :
  try_except (stage4 dn) (fun e => record_error verbose "Spatial join failed: " e) ps3
  = (inr tt, ps4) ->
  exists reqs, sent (net ps4) = sent (net ps3) ++ reqs.
Proof.
  intros E4.
  destruct (try4_cases send self variable_source_id verbose dn ps3)
    as [(p & Es & Et) | (e & p & Es & Et)];
    rewrite E4 in Et; injection Et as ->;
    destruct (step4_sent _ _ _ _ _ _ _ _ Es) as (reqs & Hq & _); eauto.
Qed.

End Continuations.

(** X11. The [verbose] flag is not only narration.  When the metadata
    call succeeds but [metadata[0]["dataset_name"]] cannot be read from
    its answer, a verbose run fails in stage 1, on the line that prints
    the name, and stops after one request with [metadata] set; a silent
    run passes stage 1, runs stage 2, and fails in stage 3 with the
    same exception, before any ingestion request. *)
Theorem verbose_moves_the_failure {W} (send : request -> W -> reply * W)
    (self : GaiaCoreClient) (metadata_url location_csv location_history_csv : string)
    (variable_source_id : option string) (st st1 : @netstate W) (md : json) (e : exn) :
  fetch_and_load_jsonld send self metadata_url st = (inr md, st1) ->
  dataset_name_of md = inl e ->
  run_full_pipeline send self metadata_url location_csv location_history_csv
    variable_source_id true st
  = (inr {| metadata := md; locations := JNull; ingestion := JNull;
            spatial_join := JNull;
            errors := ["Metadata loading failed: " +:+ exn_str e] |}, st1)
  /\ exists out st' req,
      run_full_pipeline send self metadata_url location_csv location_history_csv
        variable_source_id false st
      = (inr out, st')
      /\ metadata out = md
      /\ ingestion out = JNull
      /\ spatial_join out = JNull
      /\ last (errors out) = Some ("Data ingestion failed: " +:+ exn_str e)
      /\ sent st' = sent st1 ++ [req]
      /\ kind req = (POST, Urllib.urljoin (base_url self) "rpc/load_location_data").
Proof.
  intros Hcall Hname. split.
  - rewrite (pipeline_stage1_raises send self metadata_url location_csv
               location_history_csv variable_source_id true st e
               {| net := st1; results := set_metadata md empty_outcome |});
      [reflexivity |].
    apply (step1_unreadable send self metadata_url true
             {| net := st; results := empty_outcome |} md st1 e Hcall Hname).
  - set (ps1 := {| net := st1; results := set_metadata md empty_outcome |}).
    assert (step1 send self metadata_url false {| net := st; results := empty_outcome |}
            = (inr tt, ps1)) as E1.
    { apply (step1_unreadable send self metadata_url false
               {| net := st; results := empty_outcome |} md st1 e Hcall Hname). }
    destruct (try2_run send self location_csv location_history_csv false ps1)
      as (ps2 & l2 & E2 & _ & He2 & Hm2 & Hi2 & Hs2 & _).
    assert (exists req, sent (net ps2) = sent st1 ++ [req]
              /\ kind req = (POST, Urllib.urljoin (base_url self) "rpc/load_location_data"))
      as (req & Hq & Hk).
    { destruct (try2_cases send self location_csv location_history_csv false ps1)
        as [(p & Es & Et) | (e2 & p & Es & Et)];
        rewrite E2 in Et; injection Et as ->;
        exact (step2_sent _ _ _ _ _ _ _ _ Es). }
    assert (step3 send self false ps2 = (inl e, ps2)) as E3.
    { apply step3_unreadable. rewrite Hm2. exact Hname. }
    eexists _, _, req. split.
    { apply (pipeline_stage3_raises send self metadata_url location_csv
               location_history_csv variable_source_id false st ps1 ps2 e ps2);
        assumption. }
    cbn. rewrite Hm2, Hi2, Hs2. repeat split; try assumption.
    apply last_snoc.
Qed.

(** The metadata call answers with a dictionary instead of a list. *)
Lemma verbose_moves_the_failure_witness :
  let md := JObj [("dataset_name", JStr "PM2.5"); ("variables_loaded", JNum 3)] in
  let script := [ok_json md; ok_json (JStr "loaded"); ok_json pm25_steps] in
  sample_run None true script
  = (inr {| metadata := md; locations := JNull; ingestion := JNull;
            spatial_join := JNull; errors := ["Metadata loading failed: 0"] |},
     snd (fetch_and_load_jsonld scripted local_client "http://example.org/pm25.jsonld"
            (fresh script)))
  /\ exists out st' req,
      sample_run None false script = (inr out, st')
      /\ metadata out = md
      /\ ingestion out = JNull
      /\ spatial_join out = JNull
      /\ last (errors out) = Some "Data ingestion failed: 0"
      /\ sent st'
         = sent (snd (fetch_and_load_jsonld scripted local_client
                        "http://example.org/pm25.jsonld" (fresh script)))
             ++ [req]
      /\ kind req
         = (POST, Urllib.urljoin (base_url local_client) "rpc/load_location_data").
Proof.
  intros md script.
  exact (verbose_moves_the_failure scripted local_client "http://example.org/pm25.jsonld"
           "/csv/LOCATION.csv" "/csv/LOCATION_HISTORY.csv" None (fresh script)
           (snd (fetch_and_load_jsonld scripted local_client
                   "http://example.org/pm25.jsonld" (fresh script)))
           md (KeyError (JNum 0)) eq_refl eq_refl).
Defined.

(** X12. A failure of stage 2 does not end the run: its message is the
    first entry of [errors], [locations] stays unset, and stage 3 is
    run, the ingestion of [metadata[0]["dataset_name"]] being requested. *)
Theorem stage2_failure_goes_on {W} (send : request -> W -> reply * W)
    (self : GaiaCoreClient) (metadata_url location_csv location_history_csv : string)
    (variable_source_id : option string) (verbose : bool)
    (st : @netstate W) (ps1 ps2 : @pstate W) (e : exn) (dataset_name : json) :
  step1 send self metadata_url verbose {| net := st; results := empty_outcome |}
  = (inr tt, ps1) ->
  step2 send self location_csv location_history_csv verbose ps1 = (inl e, ps2) ->
  dataset_name_of (metadata (results ps1)) = inr dataset_name ->
  exists out st' rest,
    run_full_pipeline send self metadata_url location_csv location_history_csv
      variable_source_id verbose st
    = (inr out, st')
    /\ errors out = ("Location loading failed: " +:+ exn_str e) :: rest
    /\ locations out = JNull
    /\ rpc_request self "quick_ingest_datasource"
         {[ "p_dataset_name" := dataset_name ]} "backbone" ∈ sent st'.
Proof.
  intros E1 E2 Hname.
  destruct (step1_frame _ _ _ _ _ _ _ E1) as (He1 & Hl1 & _). cbn in He1, Hl1.
  pose proof (step2_raises_keeps _ _ _ _ _ _ _ _ E2) as Hres2.
  set (ps2' := {| net := net ps2;
                  results := append_error ("Location loading failed: " +:+ exn_str e)
                               (results ps2) |}).
  assert (try_except (step2 send self location_csv location_history_csv verbose)
            (fun e => record_error verbose "Location loading failed: " e) ps1
          = (inr tt, ps2')) as Et.
  { unfold try_except. rewrite E2, record_error_run. reflexivity. }
  assert (dataset_name_of (metadata (results ps2')) = inr dataset_name) as Hname'.
  { cbn. rewrite Hres2. exact Hname. }
  destruct (step3 send self verbose ps2') as [[e3 | dn] ps3] eqn:E3;
    pose proof (step3_ingests _ _ _ _ _ _ _ Hname' E3) as Hq3;
    destruct (step3_frame _ _ _ _ _ _ E3) as (He3 & _ & Hl3 & _).
  - eexists _, _, _. split.
    { apply (pipeline_stage3_raises send self metadata_url location_csv
               location_history_csv variable_source_id verbose st ps1 ps2' e3 ps3);
        assumption. }
    cbn. rewrite He3, Hl3. cbn. rewrite Hres2, He1, Hl1. cbn.
    repeat split. rewrite Hq3. apply elem_of_app. right. apply list_elem_of_singleton.
    reflexivity.
  - destruct (try4_run send self variable_source_id verbose dn ps3)
      as (ps4 & l4 & E4 & _).
    destruct (try4_keeps _ _ _ _ _ _ _ E4) as (l4' & _ & He4 & _ & Hl4 & _).
    destruct (try4_sent _ _ _ _ _ _ _ E4) as (reqs4 & Hq4).
    eexists _, _, _. split.
    { apply (pipeline_stage4 send self metadata_url location_csv location_history_csv
               variable_source_id verbose st ps1 ps2' dn ps3 ps4); assumption. }
    rewrite He4, Hl4, He3, Hl3. cbn. rewrite Hres2, He1, Hl1. cbn.
    repeat split. rewrite Hq4, Hq3. apply elem_of_app. left.
    apply elem_of_app. right. apply list_elem_of_singleton. reflexivity.
Qed.

(** The location files cannot be loaded. *)
Lemma stage2_failure_goes_on_witness :
  let script :=
    [ok_json pm25_metadata; status_reply 500 "Internal Server Error" JNull;
     ok_json pm25_steps] in
  exists out st' rest,
    sample_run None false script = (inr out, st')
    /\ errors out
       = ("Location loading failed: "
            +:+ "500 Server Error: Internal Server Error for url: ") :: rest
    /\ locations out = JNull
    /\ rpc_request local_client "quick_ingest_datasource"
         {[ "p_dataset_name" := JStr "PM2.5" ]} "backbone" ∈ sent st'.
Proof.
  intros script.
  apply (stage2_failure_goes_on scripted local_client "http://example.org/pm25.jsonld"
           "/csv/LOCATION.csv" "/csv/LOCATION_HISTORY.csv" None false (fresh script)
           (snd (step1 scripted local_client "http://example.org/pm25.jsonld" false
                   {| net := fresh script; results := empty_outcome |}))
           (snd (step2 scripted local_client "/csv/LOCATION.csv" "/csv/LOCATION_HISTORY.csv"
                   false
                   (snd (step1 scripted local_client "http://example.org/pm25.jsonld" false
                           {| net := fresh script; results := empty_outcome |}))))
           (HTTPError "500 Server Error: Internal Server Error for url: "
              {| status_code := 500; reason := "Internal Server Error";
                 resp_url := ""; text := ""; decoded := inr JNull |})
           (JStr "PM2.5"));
    reflexivity.
Defined.

(** X13. A failure in stage 4, in the read of the data source, in the
    look-up of the table or in the join, is recorded as
    [Spatial join failed: ...] and nothing else changes: the outcome is
    the one stage 3 left, with [spatial_join] unset, plus that message. *)
Theorem stage4_failure_recorded {W} (send : request -> W -> reply * W)
    (self : GaiaCoreClient) (metadata_url location_csv location_history_csv : string)
    (variable_source_id : option string) (verbose : bool)
    (st : @netstate W) (ps1 ps2 ps3 ps4 : @pstate W) (dataset_name : json) (e : exn) :
  step1 send self metadata_url verbose {| net := st; results := empty_outcome |}
  = (inr tt, ps1) ->
  try_except (step2 send self location_csv location_history_csv verbose)
    (fun e => record_error verbose "Location loading failed: " e) ps1
  = (inr tt, ps2) ->
  step3 send self verbose ps2 = (inr dataset_name, ps3) ->
  step4 send self variable_source_id verbose dataset_name ps3 = (inl e, ps4) ->
  run_full_pipeline send self metadata_url location_csv location_history_csv
    variable_source_id verbose st
  = (inr (append_error ("Spatial join failed: " +:+ exn_str e) (results ps3)), net ps4)
  /\ spatial_join (results ps3) = JNull.
Proof.
  intros E1 E2 E3 E4. split.
  - apply (pipeline_stage4 send self metadata_url location_csv location_history_csv
             variable_source_id verbose st ps1 ps2 dataset_name ps3
             {| net := net ps4;
                results := append_error ("Spatial join failed: " +:+ exn_str e)
                             (results ps3) |}); try assumption.
    unfold try_except. rewrite E4, record_error_run.
    destruct (step4_frame _ _ _ _ _ _ _ _ E4) as [[_ ->] | [[[=] _] | [[=] _]]].
    reflexivity.
  - destruct (step1_frame _ _ _ _ _ _ _ E1) as (_ & _ & _ & Hs1 & _).
    destruct (try2_keeps _ _ _ _ _ _ _ E2) as (l2 & _ & _ & _ & _ & Hs2).
    destruct (step3_frame _ _ _ _ _ _ E3) as (_ & _ & _ & Hs3 & _).
    cbn in Hs1. congruence.
Qed.

(** The data source is not found: the read answers an empty list. *)
Lemma stage4_failure_recorded_witness :
  let script := three_stages_ok ++ [ok_json (JArr [])] in
  let ps1 :=
    snd (step1 scripted local_client "http://example.org/pm25.jsonld" false
           {| net := fresh script; results := empty_outcome |}) in
  let ps2 :=
    snd (step2 scripted local_client "/csv/LOCATION.csv" "/csv/LOCATION_HISTORY.csv"
           false ps1) in
  let ps3 := snd (step3 scripted local_client false ps2) in
  let ps4 := snd (step4 scripted local_client (Some "avpmu_2015") false (JStr "PM2.5") ps3) in
  sample_run (Some "avpmu_2015") false script
  = (inr (append_error ("Spatial join failed: " +:+ "list index out of range")
            (results ps3)), net ps4)
  /\ spatial_join (results ps3) = JNull.
Proof.
  intros script ps1 ps2 ps3 ps4.
  apply (stage4_failure_recorded scripted local_client "http://example.org/pm25.jsonld"
           "/csv/LOCATION.csv" "/csv/LOCATION_HISTORY.csv" (Some "avpmu_2015") false
           (fresh script) ps1 ps2 ps3 ps4 (JStr "PM2.5")
           (IndexError "list index out of range"));
    reflexivity.
Defined.

(** X14. In stage 4, a data-source record without [etl_metadata] is
    handled like one without a table: the run records
    [Could not determine ingested table name].  A record whose
    [etl_metadata] is there but is not a dictionary, [null] for
    instance, is not: the look-up raises and the run records
    [Spatial join failed: '<type>' object has no attribute 'get']. *)
Theorem etl_metadata_missing_or_not_a_dict {W} (send : request -> W -> reply * W)
    (self : GaiaCoreClient) (metadata_url location_csv location_history_csv : string)
    (variable_source_id : option string) (verbose : bool)
    (st : @netstate W) (ps1 ps2 ps3 : @pstate W) (dataset_name found : json)
    (n4 : @netstate W) (fields : list (string * json)) :
  truthy_str variable_source_id = true ->
  step1 send self metadata_url verbose {| net := st; results := empty_outcome |}
  = (inr tt, ps1) ->
  try_except (step2 send self location_csv location_history_csv verbose)
    (fun e => record_error verbose "Location loading failed: " e) ps1
  = (inr tt, ps2) ->
  step3 send self verbose ps2 = (inr dataset_name, ps3) ->
  get_data_sources send self {[ "dataset_name" := dataset_name ]} (net ps3)
  = (inr found, n4) ->
  subscript_int found 0 = inr (JObj fields) ->
  match dict_lookup "etl_metadata" fields with
  | None =>
      run_full_pipeline send self metadata_url location_csv location_history_csv
        variable_source_id verbose st
      = (inr (append_error "Could not determine ingested table name" (results ps3)), n4)
  | Some (JObj _) => True
  | Some v =>
      run_full_pipeline send self metadata_url location_csv location_history_csv
        variable_source_id verbose st
      = (inr (append_error
                ("Spatial join failed: '" +:+ type_name v
                   +:+ "' object has no attribute 'get'") (results ps3)), n4)
  end.
Proof.
  intros Hv E1 E2 E3 Hg H0.
  destruct (dict_lookup "etl_metadata" fields) as [v |] eqn:Hetl.
  - assert (match v with JObj _ => True | _ =>
              step4 send self variable_source_id verbose dataset_name ps3
              = (inl (AttributeError ("'" +:+ type_name v
                                        +:+ "' object has no attribute 'get'")),
                 {| net := n4; results := results ps3 |}) end) as E4.
    { unfold step4. rewrite Hv. unfold bind. rewrite narrate_run, call_run, Hg. cbn.
      rewrite H0. cbn. rewrite Hetl. cbn. destruct v; cbn; try exact I; reflexivity. }
    destruct v; try exact I;
      match goal with |- _ = (inr ?o, ?n) =>
        rewrite (pipeline_stage4 send self metadata_url location_csv location_history_csv
                   variable_source_id verbose st ps1 ps2 dataset_name ps3
                   {| net := n; results := o |} E1 E2 E3);
          [reflexivity |]
      end;
      unfold try_except; rewrite E4, record_error_run; reflexivity.
  - pose proof (step4_lookup send self variable_source_id verbose dataset_name ps3
                  found n4 (JObj fields) (JObj []) [] Hv Hg H0) as E4.
    cbn in E4. rewrite Hetl in E4. specialize (E4 eq_refl eq_refl).
    rewrite (pipeline_stage4 send self metadata_url location_csv location_history_csv
               variable_source_id verbose st ps1 ps2 dataset_name ps3
               {| net := n4;
                  results := append_error "Could not determine ingested table name"
                               (results ps3) |} E1 E2 E3); [reflexivity |].
    unfold try_except. rewrite E4. reflexivity.
Qed.

(** The record has [etl_metadata: null]. *)
Lemma etl_metadata_missing_or_not_a_dict_witness :
  let found := JArr [JObj [("dataset_name", JStr "PM2.5"); ("etl_metadata", JNull)]] in
  let script := three_stages_ok ++ [ok_json found] in
  let ps1 :=
    snd (step1 scripted local_client "http://example.org/pm25.jsonld" false
           {| net := fresh script; results := empty_outcome |}) in
  let ps2 :=
    snd (step2 scripted local_client "/csv/LOCATION.csv" "/csv/LOCATION_HISTORY.csv"
           false ps1) in
  let ps3 := snd (step3 scripted local_client false ps2) in
  let n4 :=
    snd (get_data_sources scripted local_client {[ "dataset_name" := JStr "PM2.5" ]}
           (net ps3)) in
  sample_run (Some "avpmu_2015") false script
  = (inr (append_error "Spatial join failed: 'NoneType' object has no attribute 'get'"
            (results ps3)), n4).
Proof.
  intros found script ps1 ps2 ps3 n4.
  apply (etl_metadata_missing_or_not_a_dict scripted local_client
           "http://example.org/pm25.jsonld" "/csv/LOCATION.csv" "/csv/LOCATION_HISTORY.csv"
           (Some "avpmu_2015") false (fresh script) ps1 ps2 ps3 (JStr "PM2.5") found n4
           [("dataset_name", JStr "PM2.5"); ("etl_metadata", JNull)]);
    reflexivity.
Defined.

(** X15. When the three stages succeed and no variable identifier is
    given, the outcome has no error and holds the three answers as they
    were decoded; the name sent for ingestion is
    [metadata[0]["dataset_name"]], passed on as it is. *)
Theorem three_stages_succeed {W} (send : request -> W -> reply * W)
    (self : GaiaCoreClient) (metadata_url location_csv location_history_csv : string)
    (variable_source_id : option string) (verbose : bool)
    (st : @netstate W) (ps1 ps2 ps3 : @pstate W) (dataset_name : json) :
  truthy_str variable_source_id = false ->
  step1 send self metadata_url verbose {| net := st; results := empty_outcome |}
  = (inr tt, ps1) ->
  step2 send self location_csv location_history_csv verbose ps1 = (inr tt, ps2) ->
  step3 send self verbose ps2 = (inr dataset_name, ps3) ->
  exists md loc ing,
    fetch_and_load_jsonld send self metadata_url st = (inr md, net ps1)
    /\ load_location_data send self location_csv location_history_csv (net ps1)
       = (inr loc, net ps2)
    /\ dataset_name_of md = inr dataset_name
    /\ quick_ingest_datasource send self dataset_name None (net ps2) = (inr ing, net ps3)
    /\ run_full_pipeline send self metadata_url location_csv location_history_csv
         variable_source_id verbose st
       = (inr {| metadata := md; locations := loc; ingestion := ing;
                 spatial_join := JNull; errors := [] |}, net ps3).
Proof.
  intros Hv E1 E2 E3.
  destruct (step1_done _ _ _ _ _ _ E1) as (md & Hc1 & Hr1).
  destruct (step2_done _ _ _ _ _ _ _ E2) as (loc & Hc2 & Hr2).
  destruct (step3_done _ _ _ _ _ _ E3) as (first & ing & H0 & Hn & Hc3 & Hr3).
  exists md, loc, ing. repeat split; try assumption.
  - unfold dataset_name_of. rewrite Hr2, Hr1 in H0. cbn in H0. rewrite H0. exact Hn.
  - rewrite (pipeline_stage4 send self metadata_url location_csv location_history_csv
               variable_source_id verbose st ps1 ps2 dataset_name ps3 ps3 E1).
    + rewrite Hr3, Hr2, Hr1. reflexivity.
    + unfold try_except. rewrite E2. reflexivity.
    + exact E3.
    + unfold try_except.
      rewrite (step4_skipped send self variable_source_id verbose dataset_name ps3 Hv).
      reflexivity.
Qed.

(** The sample run without a variable. *)
Lemma three_stages_succeed_witness :
  let ps1 :=
    snd (step1 scripted local_client "http://example.org/pm25.jsonld" true
           {| net := fresh three_stages_ok; results := empty_outcome |}) in
  let ps2 :=
    snd (step2 scripted local_client "/csv/LOCATION.csv" "/csv/LOCATION_HISTORY.csv"
           true ps1) in
  let ps3 := snd (step3 scripted local_client true ps2) in
  exists md loc ing,
    fetch_and_load_jsonld scripted local_client "http://example.org/pm25.jsonld"
      (fresh three_stages_ok)
    = (inr md, net ps1)
    /\ load_location_data scripted local_client "/csv/LOCATION.csv"
         "/csv/LOCATION_HISTORY.csv" (net ps1)
       = (inr loc, net ps2)
    /\ dataset_name_of md = inr (JStr "PM2.5")
    /\ quick_ingest_datasource scripted local_client (JStr "PM2.5") None (net ps2)
       = (inr ing, net ps3)
    /\ sample_run None true three_stages_ok
       = (inr {| metadata := md; locations := loc; ingestion := ing;
                 spatial_join := JNull; errors := [] |}, net ps3).
Proof.
  intros ps1 ps2 ps3.
  apply (three_stages_succeed scripted local_client "http://example.org/pm25.jsonld"
           "/csv/LOCATION.csv" "/csv/LOCATION_HISTORY.csv" None true
           (fresh three_stages_ok) ps1 ps2 ps3 (JStr "PM2.5"));
    reflexivity.
Defined.

Section Narration.

Context {W : Type}.
Variable send : request -> W -> reply * W.
Variable self : GaiaCoreClient.
Variable verbose : bool.

(** Stage 3 with an ingestion answer that cannot be iterated: only the
    narration iterates it, after the answer has been stored. *)
Lemma step3_not_iterable (ps : @pstate W) dn ing n3 e :
  dataset_name_of (metadata (results ps)) = inr dn ->
  quick_ingest_datasource send self dn None (net ps) = (inr ing, n3) ->
  py_iter ing = inl e ->
  step3 send self verbose ps
  = ((if verbose then inl e else inr dn),
     {| net := n3; results := set_ingestion ing (results ps) |}).
Proof.
  unfold dataset_name_of. intros Hname Hcall Hiter.
  unfold step3, bind. rewrite narrate_run. cbn.
  destruct (subscript_int (metadata (results ps)) 0) as [e' | first]; [discriminate |].
  cbn. rewrite Hname. cbn. rewrite call_run, Hcall. cbn.
  destruct verbose; cbn; [| reflexivity].
  rewrite Hiter. reflexivity.
Qed.

End Narration.

(** X16. When the metadata call itself fails, the outcome is the empty
    one plus the message: every field is unset, [metadata] included,
    and [errors] is [Metadata loading failed: <str(e)>]; the network is
    as the failed call left it. *)
Theorem metadata_call_fails {W} (send : request -> W -> reply * W)
    (self : GaiaCoreClient) (metadata_url location_csv location_history_csv : string)
    (variable_source_id : option string) (verbose : bool)
    (st st1 : @netstate W) (e : exn) :
  fetch_and_load_jsonld send self metadata_url st = (inl e, st1) ->
  run_full_pipeline send self metadata_url location_csv location_history_csv
    variable_source_id verbose st
  = (inr {| metadata := JNull; locations := JNull; ingestion := JNull;
            spatial_join := JNull;
            errors := ["Metadata loading failed: " +:+ exn_str e] |}, st1).
Proof.
  intros Hcall.
  rewrite (pipeline_stage1_raises send self metadata_url location_csv
             location_history_csv variable_source_id verbose st e
             {| net := st1; results := empty_outcome |}); [reflexivity |].
  apply (step1_call_raises send self metadata_url verbose
           {| net := st; results := empty_outcome |} e st1 Hcall).
Qed.

(** The server answers 404. *)
Lemma metadata_call_fails_witness :
  sample_run None true [status_reply 404 "Not Found" JNull]
  = (inr {| metadata := JNull; locations := JNull; ingestion := JNull;
            spatial_join := JNull;
            errors := ["Metadata loading failed: "
                         +:+ "404 Client Error: Not Found for url: "] |},
     snd (fetch_and_load_jsonld scripted local_client "http://example.org/pm25.jsonld"
            (fresh [status_reply 404 "Not Found" JNull]))).
Proof.
  exact (metadata_call_fails scripted local_client "http://example.org/pm25.jsonld"
           "/csv/LOCATION.csv" "/csv/LOCATION_HISTORY.csv" None true
           (fresh [status_reply 404 "Not Found" JNull]) _
           (HTTPError "404 Client Error: Not Found for url: "
              {| status_code := 404; reason := "Not Found"; resp_url := "";
                 text := ""; decoded := inr JNull |})
           eq_refl).
Defined.

(** X17. In a verbose run, stage 3 can fail after the ingestion call
    has succeeded: when the answer cannot be iterated ([null], a number,
    a boolean), the narration of the steps raises; [ingestion] then
    holds the answer, [Data ingestion failed: ...] is recorded and the
    run ends there, without stage 4. *)
Theorem ingestion_narration_fails {W} (send : request -> W -> reply * W)
    (self : GaiaCoreClient) (metadata_url location_csv location_history_csv : string)
    (variable_source_id : option string)
    (st : @netstate W) (ps1 ps2 : @pstate W) (dataset_name ing : json)
    (n3 : @netstate W) (e : exn) :
  step1 send self metadata_url true {| net := st; results := empty_outcome |}
  = (inr tt, ps1) ->
  try_except (step2 send self location_csv location_history_csv true)
    (fun e => record_error true "Location loading failed: " e) ps1
  = (inr tt, ps2) ->
  dataset_name_of (metadata (results ps2)) = inr dataset_name ->
  quick_ingest_datasource send self dataset_name None (net ps2) = (inr ing, n3) ->
  py_iter ing = inl e ->
  run_full_pipeline send self metadata_url location_csv location_history_csv
    variable_source_id true st
  = (inr (append_error ("Data ingestion failed: " +:+ exn_str e)
            (set_ingestion ing (results ps2))), n3).
Proof.
  intros E1 E2 Hname Hcall Hiter.
  apply (pipeline_stage3_raises send self metadata_url location_csv location_history_csv
           variable_source_id true st ps1 ps2 e
           {| net := n3; results := set_ingestion ing (results ps2) |} E1 E2).
  apply (step3_not_iterable send self true ps2 dataset_name ing n3 e Hname Hcall Hiter).
Qed.

(** The ingestion function answers [null]. *)
Lemma ingestion_narration_fails_witness :
  let script := [ok_json pm25_metadata; ok_json (JStr "loaded"); ok_json JNull] in
  let ps1 :=
    snd (step1 scripted local_client "http://example.org/pm25.jsonld" true
           {| net := fresh script; results := empty_outcome |}) in
  let ps2 :=
    snd (step2 scripted local_client "/csv/LOCATION.csv" "/csv/LOCATION_HISTORY.csv"
           true ps1) in
  sample_run (Some "avpmu_2015") true script
  = (inr (append_error ("Data ingestion failed: " +:+ "'NoneType' object is not iterable")
            (set_ingestion JNull (results ps2))),
     snd (quick_ingest_datasource scripted local_client (JStr "PM2.5") None (net ps2))).
Proof.
  intros script ps1 ps2.
  apply (ingestion_narration_fails scripted local_client "http://example.org/pm25.jsonld"
           "/csv/LOCATION.csv" "/csv/LOCATION_HISTORY.csv" (Some "avpmu_2015")
           (fresh script) ps1 ps2 (JStr "PM2.5") JNull _
           (TypeError "'NoneType' object is not iterable"));
    reflexivity.
Defined.
